(** * Vuter script mode: component analysis and language-service bridge

    A shallow embedding of [server/src/modes/script/componentInfo.ts] and
    [server/src/modes/script/javascript.ts].  The TypeScript compiler API,
    the language-server protocol types and the helpers of other files of
    the server are collaborators: their data is modelled by records and
    inductive types, their behaviour by record fields (interfaces) that the
    functions below receive as arguments. *)

From stdpp Require Import base option list strings gmap pretty.
From Stdlib Require Import ZArith.

Local Open Scope string_scope.
Local Open Scope Z_scope.

(** ** JavaScript runtime conventions *)

(** A JavaScript computation either returns a value or throws (here always
    a [TypeError] from reading a property of [undefined] or [null]). *)
Inductive Res (A : Type) : Type :=
| Ok (a : A)
| Throw.
Arguments Ok {A} a.
Arguments Throw {A}.

Global Instance Res_ret : MRet Res := @Ok.
Global Instance Res_bind : MBind Res := fun A B f m =>
  match m with
  | Ok a => f a
  | Throw => Throw
  end.

(** [x!.f] and [x.f] on a possibly undefined [x]. *)
Definition deref {A} (x : option A) : Res A :=
  match x with
  | Some a => Ok a
  | None => Throw
  end.

(** [Array.prototype.filter] with a callback that may throw. *)
Fixpoint filterM {A} (p : A -> Res bool) (l : list A) : Res (list A) :=
  match l with
  | [] => Ok []
  | x :: r =>
      b ← p x;
      r' ← filterM p r;
      mret (if b : bool then x :: r' else r')
  end.

(** [for (const x of xs) { acc = body(x, acc) }] with a body that may
    throw. *)
Fixpoint forRes {A B} (body : A -> B -> Res B) (xs : list A) (acc : B) : Res B :=
  match xs with
  | [] => Ok acc
  | x :: r =>
      match body x acc with
      | Ok acc' => forRes body r acc'
      | Throw => Throw
      end
  end.

(** [xs || []] for an optional array. *)
Definition orEmpty {A} (xs : option (list A)) : list A := default [] xs.

(** Text is a sequence of 8-bit code units. *)
Definition newline : Ascii.ascii := Ascii.ascii_of_nat 10.
Definition NL : string := String newline EmptyString.

(** [s.split('\n')]: never empty. *)
Fixpoint split_newline (s : string) : list string :=
  match s with
  | EmptyString => [EmptyString]
  | String c r =>
      if Ascii.eqb c newline then EmptyString :: split_newline r
      else match split_newline r with
           | [] => [String c EmptyString]
           | h :: t => String c h :: t
           end
  end.

(** The class [\s] on 8-bit code units: tab, line feed, vertical tab, form
    feed, carriage return, space and no-break space. *)
Definition isWhiteSpace (c : Ascii.ascii) : bool :=
  bool_decide (Ascii.nat_of_ascii c ∈ [9; 10; 11; 12; 13; 32; 160]%nat).

(** [s.search(/\S/)]: the index of the first character that is not white
    space, [-1] when there is none. *)
Fixpoint search_non_space_from (i : Z) (s : string) : Z :=
  match s with
  | EmptyString => -1
  | String c r => if isWhiteSpace c then search_non_space_from (i + 1) r else i
  end.
Definition search_non_space (s : string) : Z := search_non_space_from 0 s.

Fixpoint string_drop (n : nat) (s : string) : string :=
  match n, s with
  | O, _ => s
  | S n', String _ r => string_drop n' r
  | S _, EmptyString => EmptyString
  end.

Definition Zlength_string (s : string) : Z := Z.of_nat (String.length s).

(** [s.slice(start)]: a negative [start] counts from the end. *)
Definition slice_from (start : Z) (s : string) : string :=
  let len := Zlength_string s in
  let from := if start <? 0 then Z.max (len + start) 0 else Z.min start len in
  string_drop (Z.to_nat from) s.

(** [s[i]]: the one-character string at index [i], [undefined] out of range. *)
Definition charAt (s : string) (i : Z) : option string :=
  if i <? 0 then None
  else match String.get (Z.to_nat i) s with
       | Some c => Some (String c EmptyString)
       | None => None
       end.

(** [s.startsWith(p)] *)
Definition startsWith (p s : string) : bool := String.prefix p s.

(** [xs.includes(x)] *)
Definition includes `{EqDecision A} (x : A) (xs : list A) : bool :=
  bool_decide (x ∈ xs).

(** A JavaScript number that is an integer, or [NaN] ([None]). *)
Definition number : Type := option Z.
Definition isNaN (x : number) : bool := negb (bool_decide (is_Some x)).

(** [ToInt32]: an integer read as a signed 32-bit integer. *)
Definition toInt32 (x : Z) : Z :=
  let m := x mod 2 ^ 32 in
  if m <? 2 ^ 31 then m else m - 2 ^ 32.

(** [a & b]: the bitwise and of the low 32 bits of both operands, read as
    a signed 32-bit integer. *)
Definition bitAnd (a b : Z) : Z :=
  toInt32 (Z.land (a mod 2 ^ 32) (b mod 2 ^ 32)).

(** ** The TypeScript compiler API, as this code uses it *)
Module ts.

Module SyntaxKind.
Inductive t : Set :=
| ExportAssignment
| ClassDeclaration
| CallExpression
| ObjectLiteralExpression
| ArrayLiteralExpression
| StringLiteral
| Identifier
| PropertyAssignment
| PropertyDeclaration
| MethodDeclaration
| GetAccessor
| SetAccessor
| Unlisted (code : nat).

Global Instance eq_dec : EqDecision t.
Proof. solve_decision. Defined.
End SyntaxKind.

(** Kinds without a field this code reads. *)
Inductive PlainKind : Set :=
| ClassDeclaration
| ObjectLiteralExpression
| Identifier
| PropertyAssignment
| PropertyDeclaration
| MethodDeclaration
| GetAccessor
| SetAccessor
| Unlisted (code : nat).

(** A syntax node: what its kind carries, [getText()], [getChildren()]
    and its [decorators] array (absent on undecorated nodes). *)
Local Unset Elimination Schemes.
Inductive Node : Type :=
| MkNode (shape : NodeShape) (text : string) (children : list Node)
         (decos : option (list Decorator))
with NodeShape : Type :=
| ExportAssignment (expression : Node)
| CallExpression (expression : Node) (arguments : list Node)
| ArrayLiteralExpression (elements : list Node)
| StringLiteral (text : string)
| Plain (k : PlainKind)
with Decorator : Type :=
| MkDecorator (expression : Node).
Local Set Elimination Schemes.

Definition shape (n : Node) : NodeShape :=
  match n with MkNode s _ _ _ => s end.
Definition getText (n : Node) : string :=
  match n with MkNode _ t _ _ => t end.
Definition getChildren (n : Node) : list Node :=
  match n with MkNode _ _ c _ => c end.
Definition decorators (n : Node) : option (list Decorator) :=
  match n with MkNode _ _ _ d => d end.
Definition decorator_expression (d : Decorator) : Node :=
  match d with MkDecorator e => e end.

Definition kind (n : Node) : SyntaxKind.t :=
  match shape n with
  | ExportAssignment _ => SyntaxKind.ExportAssignment
  | CallExpression _ _ => SyntaxKind.CallExpression
  | ArrayLiteralExpression _ => SyntaxKind.ArrayLiteralExpression
  | StringLiteral _ => SyntaxKind.StringLiteral
  | Plain ClassDeclaration => SyntaxKind.ClassDeclaration
  | Plain ObjectLiteralExpression => SyntaxKind.ObjectLiteralExpression
  | Plain Identifier => SyntaxKind.Identifier
  | Plain PropertyAssignment => SyntaxKind.PropertyAssignment
  | Plain PropertyDeclaration => SyntaxKind.PropertyDeclaration
  | Plain MethodDeclaration => SyntaxKind.MethodDeclaration
  | Plain GetAccessor => SyntaxKind.GetAccessor
  | Plain SetAccessor => SyntaxKind.SetAccessor
  | Plain (Unlisted c) => SyntaxKind.Unlisted c
  end.

Definition isKind (k : SyntaxKind.t) (n : Node) : bool :=
  bool_decide (kind n = k).

Record SourceFile : Type := {
  statements : list Node;
  getFullText : string
}.

Record SymbolDisplayPart : Type := {
  part_text : string;
  part_kind : string
}.

Record Symbol : Type := {
  name : string;
  valueDeclaration : option Node;
  declarations : list Node;
  getDocumentationComment : list SymbolDisplayPart
}.

(** A call signature is a handle the checker resolves. *)
Record Signature : Type := { signature_id : nat }.

(** [isClass] is [None] on compilers whose types lack the method. *)
Record Type_ : Type := {
  isClass : option bool;
  flags : Z;
  objectFlags : Z;
  symbol : option Symbol;
  getProperties : list Symbol;
  getCallSignatures : list Signature
}.

Record TypeChecker : Type := {
  getTypeAtLocation : Node -> Type_;
  getPropertyOfType : Type_ -> string -> option Symbol;
  getTypeOfSymbolAtLocation : Symbol -> Node -> Type_;
  getPropertiesOfType : Type_ -> list Symbol;
  getReturnTypeOfSignature : Signature -> Type_
}.

Record Program : Type := {
  getRootFileNames : list string;
  getSourceFile : string -> option SourceFile;
  getTypeChecker : TypeChecker
}.

Record TextSpan : Type := { start : Z; length : Z }.

Record TextChange : Type := { span : TextSpan; newText : string }.

Record FileTextChanges : Type := {
  fileName : string;
  textChanges : list TextChange
}.

(** *** Results of the language service *)

Inductive DiagnosticCategory : Set := Warning | Error | Suggestion | Message.

Record Diagnostic : Type := {
  diag_start : Z;
  diag_length : Z;
  category : DiagnosticCategory;
  messageText : string;
  reportsUnnecessary : bool;
  diag_code : Z
}.

Record CompletionEntry : Type := {
  entry_name : string;
  entry_kind : string;
  kindModifiers : option string;
  sortText : string;
  insertText : option string;
  replacementSpan : option TextSpan;
  isRecommended : bool;
  entry_source : option string
}.

Record CompletionInfo : Type := { entries : list CompletionEntry }.

Record CodeAction : Type := {
  action_description : string;
  action_changes : list FileTextChanges
}.

Record CompletionEntryDetails : Type := {
  details_displayParts : list SymbolDisplayPart;
  details_documentation : list SymbolDisplayPart;
  codeActions : option (list CodeAction)
}.

Record QuickInfo : Type := {
  info_textSpan : TextSpan;
  info_displayParts : list SymbolDisplayPart;
  info_documentation : list SymbolDisplayPart
}.

Record SignatureHelpParameter : Type := {
  param_displayParts : list SymbolDisplayPart;
  param_documentation : list SymbolDisplayPart
}.

Record SignatureHelpItem : Type := {
  prefixDisplayParts : list SymbolDisplayPart;
  suffixDisplayParts : list SymbolDisplayPart;
  separatorDisplayParts : list SymbolDisplayPart;
  parameters : list SignatureHelpParameter
}.

Record SignatureHelpItems : Type := {
  items : list SignatureHelpItem;
  selectedItemIndex : Z;
  argumentIndex : Z
}.

(** Occurrences, definitions and references: a span in a file. *)
Record ReferenceEntry : Type := {
  ref_fileName : string;
  ref_textSpan : TextSpan;
  isWriteAccess : bool
}.

Local Unset Elimination Schemes.
Inductive NavigationBarItem : Type :=
| MkNavigationBarItem (text : string) (kind : string) (spans : list TextSpan)
                      (childItems : list NavigationBarItem).
Local Set Elimination Schemes.

Definition nav_text (i : NavigationBarItem) : string :=
  match i with MkNavigationBarItem t _ _ _ => t end.
Definition nav_kind (i : NavigationBarItem) : string :=
  match i with MkNavigationBarItem _ k _ _ => k end.
Definition spans (i : NavigationBarItem) : list TextSpan :=
  match i with MkNavigationBarItem _ _ s _ => s end.
Definition childItems (i : NavigationBarItem) : list NavigationBarItem :=
  match i with MkNavigationBarItem _ _ _ c => c end.

(** Induction over an outline item and the items below it. *)
Section NestedInduction.
Variable P : NavigationBarItem -> Prop.
Hypothesis step :
  forall text kind spans childItems,
    Forall P childItems -> P (MkNavigationBarItem text kind spans childItems).

Fixpoint NavigationBarItem_nested_ind (item : NavigationBarItem) : P item :=
  match item with
  | MkNavigationBarItem text kind spans childItems =>
      step text kind spans childItems
        ((fix each (l : list NavigationBarItem) : Forall P l :=
            match l with
            | [] => @List.Forall_nil _ P
            | x :: r => @List.Forall_cons _ P x r (NavigationBarItem_nested_ind x) (each r)
            end) childItems)
  end.
End NestedInduction.

Record RefactorActionInfo : Type := {
  refactor_action_name : string;
  refactor_action_description : string
}.

Record ApplicableRefactorInfo : Type := {
  refactor_name : string;
  refactor_description : string;
  inlineable : bool;
  actions : list RefactorActionInfo
}.

Record RefactorEditInfo : Type := { edits : list FileTextChanges }.

Record CodeFixAction : Type := {
  fix_description : string;
  fix_changes : list FileTextChanges;
  fixId : option string;
  fixAllDescription : option string
}.

Record CombinedCodeActions : Type := { combined_changes : list FileTextChanges }.

(** The settings object handed to formatting and code-fix requests. *)
Record FormatCodeSettings : Type := {
  tabSize : option Z;
  indentSize : option Z;
  baseIndentSize : option Z;
  convertTabsToSpaces : option bool;
  insertSpaceAfterCommaDelimiter : option bool
}.

Record TextRange : Type := { pos : Z; end_ : Z }.

(** The language service: one field per request this code makes.  A
    request whose result the code tests for absence returns an option;
    so do the requests whose declared result has no absent value but
    which a caller can only trust, not check. *)
Record LanguageService : Type := {
  getProgram : option Program;
  getSyntacticDiagnostics : string -> list Diagnostic;
  getSemanticDiagnostics : string -> list Diagnostic;
  getSuggestionDiagnostics : string -> list Diagnostic;
  getCompletionsAtPosition : string -> Z -> bool -> option CompletionInfo;
  getCompletionEntryDetails :
    string -> Z -> string -> FormatCodeSettings -> option string ->
    option CompletionEntryDetails;
  getQuickInfoAtPosition : string -> Z -> option QuickInfo;
  getSignatureHelpItems : string -> Z -> option SignatureHelpItems;
  getOccurrencesAtPosition : string -> Z -> option (list ReferenceEntry);
  getNavigationBarItems : string -> option (list NavigationBarItem);
  getDefinitionAtPosition : string -> Z -> option (list ReferenceEntry);
  getReferencesAtPosition : string -> Z -> option (list ReferenceEntry);
  getApplicableRefactors : string -> TextRange -> list ApplicableRefactorInfo;
  getEditsForRefactor :
    string -> FormatCodeSettings -> TextRange -> string -> string ->
    option RefactorEditInfo;
  getCodeFixesAtPosition :
    string -> Z -> Z -> list number -> FormatCodeSettings -> list CodeFixAction;
  getCombinedCodeFix :
    string -> string -> FormatCodeSettings -> option CombinedCodeActions;
  organizeImports : string -> FormatCodeSettings -> option (list FileTextChanges);
  getFormattingEditsForRange :
    string -> Z -> Z -> FormatCodeSettings -> option (list TextChange)
}.

End ts.

(** ** [services/vueInfoService]: the shape of the analysis result *)
Module VueInfo.

(** [PropInfo], [DataInfo], [ComputedInfo] and [MethodInfo] all are a name
    with optional documentation. *)
Record MemberInfo : Type := {
  name : string;
  documentation : option string
}.
Definition PropInfo := MemberInfo.
Definition DataInfo := MemberInfo.
Definition ComputedInfo := MemberInfo.
Definition MethodInfo := MemberInfo.

Local Unset Elimination Schemes.
Inductive VueFileInfo : Type :=
| MkVueFileInfo (childComponents : option (list ChildComponent))
                (props : option (list PropInfo))
                (data : option (list DataInfo))
                (computed : option (list ComputedInfo))
                (methods : option (list MethodInfo))
with ChildComponent : Type :=
| MkChildComponent (name : string) (documentation : option string)
                   (definition : option (string * ts.TextSpan))
                   (info : option VueFileInfo).
Local Set Elimination Schemes.

Definition childComponents (i : VueFileInfo) :=
  match i with MkVueFileInfo c _ _ _ _ => c end.
Definition props (i : VueFileInfo) :=
  match i with MkVueFileInfo _ p _ _ _ => p end.
Definition data (i : VueFileInfo) :=
  match i with MkVueFileInfo _ _ d _ _ => d end.
Definition computed (i : VueFileInfo) :=
  match i with MkVueFileInfo _ _ _ c _ => c end.
Definition methods (i : VueFileInfo) :=
  match i with MkVueFileInfo _ _ _ _ m => m end.

(** [vueFileInfo.componentInfo.childComponents = cs] *)
Definition set_childComponents (cs : list ChildComponent) (i : VueFileInfo) :=
  match i with MkVueFileInfo _ p d c m => MkVueFileInfo (Some cs) p d c m end.

End VueInfo.

(** ** [modes/script/componentInfo.ts] *)
Module ComponentInfo.
Import ts VueInfo.

(** The constants of the compiler module this file reads. *)
Record T_TypeScript : Type := {
  TypeFlags_Object : Z;
  ObjectFlags_Class : Z
}.

(** What [./childComponents] reports for one child component. *)
Record InternalChildComponent : Type := {
  child_name : string;
  child_documentation : option string;
  child_definition : option (string * TextSpan);
  child_defaultExportNode : option Node
}.

Definition formatJSLikeDocumentation (src : string) : string :=
  let segments := split_newline src in
  if bool_decide (List.length segments = 1%nat) then src
  else
    let spacesToDeindent := search_non_space (List.last segments "") in
    List.hd "" segments +:+ NL +:+
    String.concat NL (map (slice_from spacesToDeindent) (List.tl segments)).

Definition fence (body : string) : string :=
  "```js" +:+ NL +:+ body +:+ NL +:+ "```" +:+ NL.

Definition buildDocumentation (s : Symbol) : string :=
  let documentation :=
    String.concat NL (map part_text (getDocumentationComment s)) in
  let documentation := documentation +:+ NL in
  match valueDeclaration s with
  | Some d =>
      if isKind SyntaxKind.PropertyAssignment d
      then documentation +:+ fence (formatJSLikeDocumentation (getText d))
      else documentation +:+ fence (formatJSLikeDocumentation (getText d))
  | None => documentation
  end.

Definition documented (s : Symbol) : MemberInfo :=
  {| name := ts.name s; documentation := Some (buildDocumentation s) |}.

Definition getNodeFromExportNode (exportExpr : Node) : option Node :=
  match shape exportExpr with
  | CallExpression _ args => args !! 0%nat
  | Plain ObjectLiteralExpression => Some exportExpr
  | Plain ClassDeclaration => Some exportExpr
  | _ => None
  end.

(** The filter of [getDefaultExportNode]. *)
Definition isExportStmt (st : Node) : bool :=
  isKind SyntaxKind.ExportAssignment st || isKind SyntaxKind.ClassDeclaration st.

(** [st.kind === ExportAssignment ? st.expression : st] *)
Definition exportNodeOf (st : Node) : Node :=
  match shape st with
  | ExportAssignment e => e
  | _ => st
  end.

Definition getDefaultExportNode (sourceFile : SourceFile) : option Node :=
  let exportStmts := List.filter isExportStmt (statements sourceFile) in
  match exportStmts with
  | [] => None
  | st :: _ => getNodeFromExportNode (exportNodeOf st)
  end.

Definition getLastChild (d : Node) : option Node :=
  let children := getChildren d in
  if bool_decide (List.length children = 0%nat) then None
  else last children.

Definition isClassType (tsModule : T_TypeScript) (type : Type_) : bool :=
  match isClass type with
  | None =>
      negb (bitAnd
              (if negb (bitAnd (flags type) (TypeFlags_Object tsModule) =? 0)
               then objectFlags type else 0)
              (ObjectFlags_Class tsModule) =? 0)
  | Some b => b
  end.

Definition decoratorName (d : Decorator) : string :=
  match shape (decorator_expression d) with
  | CallExpression callee _ => getText callee
  | _ => getText (decorator_expression d)
  end.

Definition getPropertyDecoratorNames
    (property : Symbol) (checkSyntaxKind : SyntaxKind.t) : Res (list string) :=
  d ← deref (valueDeclaration property);
  if negb (isKind checkSyntaxKind d) then mret []
  else
    match declarations property with
    | [] => mret []
    | d0 :: _ =>
        match decorators d0 with
        | None => mret []
        | Some ds => mret (map decoratorName ds)
        end
    end.

Definition isInternalHook (methodName : string) : bool :=
  let internalHooks :=
    ["data"; "beforeCreate"; "created"; "beforeMount"; "mounted";
     "beforeDestroy"; "destroyed"; "beforeUpdate"; "updated"; "activated";
     "deactivated"; "render"; "errorCaptured"; "serverPrefetch"] in
  includes methodName internalHooks.

Section WithChecker.
Variable tsModule : T_TypeScript.
Variable checker : TypeChecker.

Definition getComponentDecoratorArgumentType (type : Type_)
    : Res (option Type_) :=
  sym ← deref (symbol type);
  d0 ← deref (declarations sym !! 0%nat);
  match decorators d0 with
  | None | Some [] => mret None
  | Some ds =>
      match List.find (fun el => String.eqb (decoratorName el) "Component") ds with
      | None => mret None
      | Some componentDecorator =>
          match shape (decorator_expression componentDecorator) with
          | CallExpression _ decoratorArguments =>
              match decoratorArguments with
              | [] => mret None
              | arg :: _ => mret (Some (getTypeAtLocation checker arg))
              end
          | _ => mret None
          end
      end
  end.

Definition getClassAndObjectInfo {A}
    (defaultExportType : Type_)
    (getClassResult : Type_ -> Res (option (list A)))
    (getObjectResult : Type_ -> Res (option (list A))) : Res (list A) :=
  if isClassType tsModule defaultExportType then
    c ← getClassResult defaultExportType;
    decoratorArgumentType ← getComponentDecoratorArgumentType defaultExportType;
    match decoratorArgumentType with
    | Some t =>
        o ← getObjectResult t;
        mret (orEmpty c ++ orEmpty o)%list
    | None => mret (orEmpty c)
    end
  else
    o ← getObjectResult defaultExportType;
    mret (orEmpty o).

(** [result.length === 0 ? undefined : result] *)
Definition nonEmpty {A} (result : list A) : option (list A) :=
  match result with
  | [] => None
  | _ => Some result
  end.

Definition hasDecoratorIn
    (names : list string) (k : SyntaxKind.t) (property : Symbol) : Res bool :=
  ns ← getPropertyDecoratorNames property k;
  mret (existsb (fun decoratorName => includes decoratorName names) ns).

(** [getProps] and its two local functions. *)
Definition getClassProps (type : Type_) : Res (option (list PropInfo)) :=
  let propDecoratorNames := ["Prop"; "Model"; "PropSync"] in
  propsSymbols ←
    filterM (hasDecoratorIn propDecoratorNames SyntaxKind.PropertyDeclaration)
            (getProperties type);
  match propsSymbols with
  | [] => mret None
  | _ => mret (Some (map documented propsSymbols))
  end.

(** [(expr as ts.StringLiteral).text], read only after the kind test. *)
Definition stringLiteralText (expr : Node) : string :=
  match shape expr with
  | StringLiteral t => t
  | _ => ""
  end.

Definition getObjectProps (type : Type_) : Res (option (list PropInfo)) :=
  match getPropertyOfType checker type "props" with
  | None => mret None
  | Some propsSymbol =>
      match valueDeclaration propsSymbol with
      | None => mret None
      | Some vd =>
          match getLastChild vd with
          | None => mret None
          | Some propsDeclaration =>
              match shape propsDeclaration with
              | ArrayLiteralExpression elements =>
                  mret (Some
                    (map (fun expr =>
                            {| name := stringLiteralText expr;
                               documentation := None |})
                         (List.filter (isKind SyntaxKind.StringLiteral) elements)))
              | Plain ObjectLiteralExpression =>
                  let propsType :=
                    getTypeOfSymbolAtLocation checker propsSymbol propsDeclaration in
                  mret (Some (map documented (getPropertiesOfType checker propsType)))
              | _ => mret None
              end
          end
      end
  end.

Definition getProps (defaultExportType : Type_) : Res (option (list PropInfo)) :=
  result ← getClassAndObjectInfo defaultExportType getClassProps getObjectProps;
  mret (nonEmpty result).

(** [getData] and its two local functions. *)
Definition isClassDataMember (property : Symbol) : Res bool :=
  let noDataDecoratorNames :=
    ["Prop"; "Model"; "Provide"; "ProvideReactive"; "Ref"] in
  decorated ← hasDecoratorIn noDataDecoratorNames SyntaxKind.PropertyDeclaration property;
  mret (negb decorated
        && negb (startsWith "_" (ts.name property))
        && negb (startsWith "$" (ts.name property))).

Definition getClassData (type : Type_) : Res (option (list DataInfo)) :=
  dataSymbols ← filterM isClassDataMember (getProperties type);
  match dataSymbols with
  | [] => mret None
  | _ => mret (Some (map documented dataSymbols))
  end.

Definition getObjectData (type : Type_) : Res (option (list DataInfo)) :=
  match getPropertyOfType checker type "data" with
  | None => mret None
  | Some dataSymbol =>
      match valueDeclaration dataSymbol with
      | None => mret None
      | Some vd =>
          let dataType := getTypeOfSymbolAtLocation checker dataSymbol vd in
          match getCallSignatures dataType with
          | [] => mret None
          | sig0 :: _ =>
              let dataReturnTypeProperties :=
                getReturnTypeOfSignature checker sig0 in
              mret (Some (map documented (getProperties dataReturnTypeProperties)))
          end
      end
  end.

Definition getData (defaultExportType : Type_) : Res (option (list DataInfo)) :=
  result ← getClassAndObjectInfo defaultExportType getClassData getObjectData;
  mret (nonEmpty result).

(** [getComputed] and its two local functions; [getClassComputed] reads
    the set accessors from the enclosing [defaultExportType]. *)
Definition hasValueDeclarationKind (k : SyntaxKind.t) (property : Symbol)
    : Res bool :=
  d ← deref (valueDeclaration property);
  mret (isKind k d).

Definition computedEntry
    (setAccessorSymbols : list Symbol) (computed : Symbol) : ComputedInfo :=
  let setComputed :=
    List.find (fun setAccessor => String.eqb (ts.name setAccessor) (ts.name computed))
              setAccessorSymbols in
  {| name := ts.name computed;
     documentation :=
       Some (buildDocumentation computed +:+
             match setComputed with
             | Some s => buildDocumentation s
             | None => ""
             end) |}.

Definition getClassComputed (defaultExportType type : Type_)
    : Res (option (list ComputedInfo)) :=
  getAccessorSymbols ←
    filterM (hasValueDeclarationKind SyntaxKind.GetAccessor) (getProperties type);
  setAccessorSymbols ←
    filterM (hasValueDeclarationKind SyntaxKind.SetAccessor)
            (getProperties defaultExportType);
  match getAccessorSymbols with
  | [] => mret None
  | _ => mret (Some (map (computedEntry setAccessorSymbols) getAccessorSymbols))
  end.

(** The object-literal rule shared by [computed] and [methods]: the
    property's declaration must end in an object literal. *)
Definition getObjectMembers (key : string) (type : Type_)
    : Res (option (list MemberInfo)) :=
  match getPropertyOfType checker type key with
  | None => mret None
  | Some keySymbol =>
      match valueDeclaration keySymbol with
      | None => mret None
      | Some vd =>
          match getLastChild vd with
          | None => mret None
          | Some keyDeclaration =>
              if isKind SyntaxKind.ObjectLiteralExpression keyDeclaration then
                let keyType :=
                  getTypeOfSymbolAtLocation checker keySymbol keyDeclaration in
                mret (Some (map documented (getPropertiesOfType checker keyType)))
              else mret None
          end
      end
  end.

Definition getObjectComputed : Type_ -> Res (option (list ComputedInfo)) :=
  getObjectMembers "computed".

Definition getComputed (defaultExportType : Type_)
    : Res (option (list ComputedInfo)) :=
  result ← getClassAndObjectInfo defaultExportType
             (getClassComputed defaultExportType) getObjectComputed;
  mret (nonEmpty result).

(** [getMethods] and its two local functions. *)
Definition isClassMethodMember (property : Symbol) : Res bool :=
  watched ← hasDecoratorIn ["Watch"] SyntaxKind.MethodDeclaration property;
  mret (negb watched && negb (isInternalHook (ts.name property))).

Definition getClassMethods (type : Type_) : Res (option (list MethodInfo)) :=
  methodSymbols ← filterM isClassMethodMember (getProperties type);
  match methodSymbols with
  | [] => mret None
  | _ => mret (Some (map documented methodSymbols))
  end.

Definition getObjectMethods : Type_ -> Res (option (list MethodInfo)) :=
  getObjectMembers "methods".

Definition getMethods (defaultExportType : Type_)
    : Res (option (list MethodInfo)) :=
  result ← getClassAndObjectInfo defaultExportType getClassMethods getObjectMethods;
  mret (nonEmpty result).

Definition analyzeDefaultExportExpr (defaultExport : Node) : Res VueFileInfo :=
  let defaultExportType := getTypeAtLocation checker defaultExport in
  props ← getProps defaultExportType;
  data ← getData defaultExportType;
  computed ← getComputed defaultExportType;
  methods ← getMethods defaultExportType;
  mret (MkVueFileInfo None props data computed methods).

End WithChecker.

(** [./childComponents]: the child components a root type refers to. *)
Definition ChildComponentsFinder : Type :=
  Type_ -> TypeChecker -> string -> option (list InternalChildComponent).

(** The tail of [getComponentInfo]: the child components of the root
    type, each analysed in turn, stored into the root's info. *)
Definition attachChildComponents
    (tsModule : T_TypeScript) (getChildComponents : ChildComponentsFinder)
    (checker : TypeChecker) (tagCasing : string)
    (defaultExportNode : Node) (vueFileInfo : VueFileInfo) : Res VueFileInfo :=
  let defaultExportType := getTypeAtLocation checker defaultExportNode in
  let internalChildComponents :=
    getChildComponents defaultExportType checker tagCasing in
  match internalChildComponents with
  | Some cs =>
      childComponents ←
        mapM (fun c =>
                info ← match child_defaultExportNode c with
                       | Some n =>
                           i ← analyzeDefaultExportExpr tsModule checker n;
                           mret (Some i)
                       | None => mret None
                       end;
                mret (MkChildComponent (child_name c)
                        (child_documentation c) (child_definition c) info))
             cs;
      mret (set_childComponents childComponents vueFileInfo)
  | None => mret vueFileInfo
  end.

Definition getComponentInfo
    (tsModule : T_TypeScript) (getChildComponents : ChildComponentsFinder)
    (service : LanguageService) (fileFsPath : string) (tagCasing : string)
    : Res (option VueFileInfo) :=
  match getProgram service with
  | None => mret None
  | Some program =>
      match getSourceFile program fileFsPath with
      | None => mret None
      | Some sourceFile =>
          let checker := getTypeChecker program in
          match getDefaultExportNode sourceFile with
          | None => mret None
          | Some defaultExportNode =>
              vueFileInfo ← analyzeDefaultExportExpr tsModule checker defaultExportNode;
              vueFileInfo ← attachChildComponents tsModule getChildComponents checker
                              tagCasing defaultExportNode vueFileInfo;
              mret (Some vueFileInfo)
          end
      end
  end.

End ComponentInfo.

(** ** The language-server protocol types ([vscode-languageserver-types]) *)
Module lsp.

Record Position : Type := { line : Z; character : Z }.
Record Range : Type := { range_start : Position; range_end : Position }.

(** [Range.create(startLine, startCharacter, endLine, endCharacter)] *)
Definition Range_create4 (sl sc el ec : Z) : Range :=
  {| range_start := {| line := sl; character := sc |};
     range_end := {| line := el; character := ec |} |}.

Record TextEdit : Type := { edit_range : Range; newText : string }.

(** A text document is an object: its data and its position arithmetic. *)
Record TextDocument : Type := {
  uri : string;
  languageId : string;
  version : Z;
  getText : string;
  getTextIn : Range -> string;
  offsetAt : Position -> Z;
  positionAt : Z -> Position
}.

Inductive DiagnosticSeverity : Set := Error | Warning | Information | Hint.
Inductive DiagnosticTag : Set := Unnecessary.

(** A diagnostic's [code] is a number, a string or absent. *)
Inductive DiagnosticCode : Type :=
| CodeNumber (n : number)
| CodeString (s : string).

Record Diagnostic : Type := {
  diag_range : Range;
  severity : DiagnosticSeverity;
  message : string;
  tags : list DiagnosticTag;
  code : option DiagnosticCode;
  source : string
}.

Module CompletionItemKind.
Definition Method : Z := 2.
Definition Function : Z := 3.
Definition File : Z := 17.
Definition Folder : Z := 19.
End CompletionItemKind.

Inductive InsertTextFormat : Set := PlainText | Snippet.

(** The data a completion item carries for its later resolution. *)
Record ItemData : Type := {
  data_languageId : string;
  data_uri : string;
  data_offset : Z;
  data_source : option string
}.

Record MarkupContent : Type := { markup_kind : string; value : string }.

Record CompletionItem : Type := {
  item_uri : string;
  item_position : Position;
  preselect : option bool;
  label : string;
  detail : option string;
  filterText : option string;
  insertTextFormat : option InsertTextFormat;
  item_sortText : string;
  item_kind : Z;
  textEdit : option TextEdit;
  item_insertText : option string;
  additionalTextEdits : option (list TextEdit);
  documentation : option MarkupContent;
  data : option ItemData
}.

Record CompletionList : Type := {
  isIncomplete : bool;
  items : list CompletionItem
}.

(** A marked string is plain text or a language-tagged block. *)
Inductive MarkedString : Type :=
| Text (s : string)
| Code (language : string) (value : string).

Record Hover : Type := {
  hover_range : option Range;
  contents : list MarkedString
}.

Record ParameterInformation : Type := {
  param_label : string;
  param_documentation : string
}.

Record SignatureInformation : Type := {
  sig_label : string;
  sig_documentation : option string;
  sig_parameters : list ParameterInformation
}.

Record SignatureHelp : Type := {
  activeSignature : Z;
  activeParameter : Z;
  signatures : list SignatureInformation
}.

Inductive DocumentHighlightKind : Set := HText | HRead | HWrite.

Record DocumentHighlight : Type := {
  highlight_range : Range;
  highlight_kind : DocumentHighlightKind
}.

Record Location : Type := { loc_uri : string; loc_range : Range }.

Record SymbolInformation : Type := {
  symbol_name : string;
  symbol_kind : Z;
  location : Location;
  containerName : option string
}.

Module CodeActionKind.
Definition QuickFix : string := "quickfix".
Definition Refactor : string := "refactor".
Definition RefactorExtract : string := "refactor.extract".
Definition RefactorInline : string := "refactor.inline".
Definition RefactorRewrite : string := "refactor.rewrite".
Definition Source : string := "source".
Definition SourceOrganizeImports : string := "source.organizeImports".
End CodeActionKind.

Record CodeActionContext : Type := {
  diagnostics : list Diagnostic;
  only : option (list string)
}.

Record FormattingOptions : Type := { tabSize : Z; insertSpaces : bool }.

End lsp.

(** ** [types.ts]: deferred code-action requests *)
Module Types.

Inductive CodeActionReqArguments : Type :=
| RefactorAction (refactorName actionName description : string)
| CombinedCodeFix (fixId : string)
| OrganizeImports.

(** The request's [kind] is the tag of its [arguments]. *)
Record CodeActionReq : Type := {
  fileName : string;
  textRange : ts.TextRange;
  formatSettings : ts.FormatCodeSettings;
  arguments : CodeActionReqArguments
}.

(** A command is either a request to compute edits later
    ([vetur.chooseTypeScriptCodeAction]) or edits to apply now
    ([vetur.applyWorkspaceEdits]), keyed by file URI. *)
Inductive Command : Type :=
| ChooseTypeScriptCodeAction (title : string) (action : CodeActionReq)
| ApplyWorkspaceEdits (title : string) (changes : gmap string (list lsp.TextEdit)).

Record CodeAction : Type := {
  title : string;
  kind : string;
  diagnostics : option (list lsp.Diagnostic);
  command : Command
}.

End Types.

(** ** [modes/script/javascript.ts] *)
Module Javascript.
Import lsp Types.

(** *** Collaborators *)

(** The settings [configure] delivers, as far as this file reads them. *)
Record Config : Type := {
  autoImport : bool;
  defaultFormatter_js : string;
  defaultFormatter_ts : string;
  scriptInitialIndent : bool;
  options_tabSize : Z;
  options_useTabs : bool;
  javascript_format : ts.FormatCodeSettings;
  typescript_format : ts.FormatCodeSettings
}.

(** [utils/prettier]: the three entry points of the external formatter. *)
Definition Prettierify : Type :=
  string -> string -> Range -> Config -> string -> bool -> list TextEdit.

(** Everything the mode closes over or imports from other files. *)
Record Host : Type := {
  updateCurrentVueTextDocument : TextDocument -> TextDocument * ts.LanguageService;
  firstScriptRegion : TextDocument -> option Range;
  getFileFsPath : string -> string;
  getFilePath : string -> string;
  Uri_file : string -> string;
  TextDocument_create : string -> string -> Z -> string -> TextDocument;
  displayPartsToString : list ts.SymbolDisplayPart -> string;
  flattenDiagnosticMessageText : string -> string -> string;
  getSupportedCodeFixes : list string;
  Number : string -> number;
  toCompletionItemKind : string -> Z;
  toSymbolKind : string -> Z;
  NULL_SIGNATURE : option SignatureHelp;
  prettierify : Prettierify;
  prettierEslintify : Prettierify;
  prettierTslintify : Prettierify
}.

(** *** The mode's state and its requests to the outside *)

(** A request to the language service or the compiler module. *)
Inductive Call : Type :=
| GetProgram
| GetSyntacticDiagnostics (file : string)
| GetSemanticDiagnostics (file : string)
| GetSuggestionDiagnostics (file : string)
| GetCompletionsAtPosition (file : string) (offset : Z)
| GetCompletionEntryDetails (file : string) (offset : Z) (entry : string)
| GetQuickInfoAtPosition (file : string) (offset : Z)
| GetSignatureHelpItems (file : string) (offset : Z)
| GetOccurrencesAtPosition (file : string) (offset : Z)
| GetNavigationBarItems (file : string)
| GetDefinitionAtPosition (file : string) (offset : Z)
| GetReferencesAtPosition (file : string) (offset : Z)
| GetApplicableRefactors (file : string)
| GetEditsForRefactor (file refactorName actionName : string)
| GetCodeFixesAtPosition (file : string) (errorCodes : list number)
| GetCombinedCodeFix (file fixId : string)
| OrganizeImportsCall (file : string)
| GetFormattingEditsForRange (file : string) (from to : Z)
| GetSupportedCodeFixes.

Global Instance Call_eq_dec : EqDecision Call.
Proof. solve_decision. Defined.

(** The variables [getJavascriptMode] closes over, and the requests made
    so far, latest first.  The states are those of a configured mode:
    [config] holds the settings of the latest [configure].  Before the
    first [configure] the source holds [config = {}], where every read of
    the settings but [doComplete]'s throws; a property that says an
    operation returns speaks of a configured mode only. *)
Record ModeState : Type := {
  config : Config;
  supportedCodeFixCodes : option (gset number);
  calls : list Call
}.

Definition M (A : Type) : Type := ModeState -> Res A * ModeState.

Global Instance M_ret : MRet M := fun A a st => (Ok a, st).
Global Instance M_bind : MBind M := fun A B f m st =>
  match m st with
  | (Ok a, st') => f a st'
  | (Throw, st') => (Throw, st')
  end.

Definition lift {A} (r : Res A) : M A := fun st => (r, st).
Definition get_config : M Config := fun st => (Ok (config st), st).
Definition set_config (c : Config) : M unit := fun st =>
  (Ok tt, {| config := c;
             supportedCodeFixCodes := supportedCodeFixCodes st;
             calls := calls st |}).
Definition get_supportedCodeFixCodes : M (option (gset number)) :=
  fun st => (Ok (supportedCodeFixCodes st), st).
Definition set_supportedCodeFixCodes (s : gset number) : M unit := fun st =>
  (Ok tt, {| config := config st;
             supportedCodeFixCodes := Some s;
             calls := calls st |}).

(** Make the request [c], whose answer is [r]. *)
Definition query {A} (c : Call) (r : A) : M A := fun st =>
  (Ok r, {| config := config st;
            supportedCodeFixCodes := supportedCodeFixCodes st;
            calls := c :: calls st |}).

(** [for (const x of xs) { acc = body(x, acc) }] *)
Fixpoint forM {A B} (body : A -> B -> M B) (xs : list A) (acc : B) : M B :=
  match xs with
  | [] => mret acc
  | x :: r => acc' ← body x acc; forM body r acc'
  end.

(** The mode right after its first [configure c]: no set of supported
    fix codes computed yet, no request made. *)
Definition initialState (c : Config) : ModeState :=
  {| config := c; supportedCodeFixCodes := None; calls := [] |}.

(** *** Module-level helpers *)

Definition NON_SCRIPT_TRIGGERS : list string := ["<"; "*"; ":"].

Definition convertRange (document : TextDocument) (span : ts.TextSpan) : Range :=
  let startPosition := positionAt document (ts.start span) in
  let endPosition := positionAt document (ts.start span + ts.length span) in
  {| range_start := startPosition; range_end := endPosition |}.

Definition convertOptions
    (formatSettings : ts.FormatCodeSettings) (options : FormattingOptions)
    (initialIndentLevel : Z) : ts.FormatCodeSettings :=
  {| ts.convertTabsToSpaces := Some (insertSpaces options);
     ts.tabSize := Some (tabSize options);
     ts.indentSize := Some (tabSize options);
     ts.baseIndentSize := Some (tabSize options * initialIndentLevel);
     ts.insertSpaceAfterCommaDelimiter :=
       ts.insertSpaceAfterCommaDelimiter formatSettings |}.

Definition getFormatCodeSettings (config : Config) : ts.FormatCodeSettings :=
  {| ts.tabSize := Some (options_tabSize config);
     ts.indentSize := Some (options_tabSize config);
     ts.baseIndentSize := None;
     ts.convertTabsToSpaces := Some (negb (options_useTabs config));
     ts.insertSpaceAfterCommaDelimiter := Some true |}.

Definition convertTSDiagnosticCategoryToDiagnosticSeverity
    (c : ts.DiagnosticCategory) : DiagnosticSeverity :=
  match c with
  | ts.Error => Error
  | ts.Warning => Warning
  | ts.Message => Information
  | ts.Suggestion => Hint
  end.

Definition createRequestCodeActionCommand
    (title : string) (action : CodeActionReq) : Command :=
  ChooseTypeScriptCodeAction title action.

Definition createApplyCodeActionCommand
    (title : string) (uriTextEditMapping : gmap string (list TextEdit)) : Command :=
  ApplyWorkspaceEdits title uriTextEditMapping.

Section Mode.
Variable host : Host.

Definition getSourceDoc (fileName : string) (program : option ts.Program)
    : Res TextDocument :=
  p ← deref program;
  sourceFile ← deref (ts.getSourceFile p fileName);
  mret (TextDocument_create host fileName "vue" 0 (ts.getFullText sourceFile)).

Definition languageServiceIncludesFile
    (ls : ts.LanguageService) (documentUri : string) : M bool :=
  program ← query GetProgram (ts.getProgram ls);
  p ← lift (deref program);
  let filePaths := ts.getRootFileNames p in
  let filePath := getFilePath host documentUri in
  mret (includes filePath filePaths).

Definition textEditOf (targetDoc : TextDocument) (tc : ts.TextChange) : TextEdit :=
  {| newText := ts.newText tc; edit_range := convertRange targetDoc (ts.span tc) |}.

(** URIs are never names of [Object.prototype], so the plain object
    that collects the edits behaves as a finite map. *)
Definition createUriMappingForEdits
    (changes : list ts.FileTextChanges) (service : ts.LanguageService)
    : M (gmap string (list TextEdit)) :=
  program ← query GetProgram (ts.getProgram service);
  forM (fun change result =>
          targetDoc ← lift (getSourceDoc (ts.fileName change) program);
          let edits := map (textEditOf targetDoc) (ts.textChanges change) in
          let uri := Uri_file host (ts.fileName change) in
          match result !! uri with
          | Some es => mret (<[uri := (es ++ edits)%list]> result)
          | None => mret (<[uri := edits]> result)
          end)
       changes ∅.

Definition convertCodeAction
    (doc : TextDocument) (codeActions : list ts.CodeAction) : Res (list TextEdit) :=
  region0 ← deref (firstScriptRegion host doc);
  let scriptStartOffset := offsetAt doc (range_start region0) in
  mret
    (flat_map
       (fun action =>
          flat_map
            (fun change =>
               map (fun tc =>
                      if (ts.start (ts.span tc) <=? scriptStartOffset)
                         && (ts.length (ts.span tc) =? 0)
                      then
                        match firstScriptRegion host doc with
                        | Some region =>
                            let line := line (range_start region) in
                            {| edit_range := Range_create4 (line + 1) 0 (line + 1) 0;
                               newText := ts.newText tc |}
                        | None =>
                            {| edit_range := convertRange doc (ts.span tc);
                               newText := ts.newText tc |}
                        end
                      else
                        {| edit_range := convertRange doc (ts.span tc);
                           newText := ts.newText tc |})
                   (ts.textChanges change))
            (ts.action_changes action))
       codeActions).

(** *** The operations of the language mode *)

Definition emptyCompletionList : CompletionList :=
  {| isIncomplete := false; items := [] |}.

Definition doValidation (doc : TextDocument) : M (list Diagnostic) :=
  let '(scriptDoc, service) := updateCurrentVueTextDocument host doc in
  included ← languageServiceIncludesFile service (uri doc);
  if negb included then mret []
  else
    let fileFsPath := getFileFsPath host (uri doc) in
    syntactic ← query (GetSyntacticDiagnostics fileFsPath)
                  (ts.getSyntacticDiagnostics service fileFsPath);
    semantic ← query (GetSemanticDiagnostics fileFsPath)
                 (ts.getSemanticDiagnostics service fileFsPath);
    suggestion ← query (GetSuggestionDiagnostics fileFsPath)
                   (ts.getSuggestionDiagnostics service fileFsPath);
    let rawScriptDiagnostics := (syntactic ++ semantic ++ suggestion)%list in
    mret
      (map (fun diag =>
              {| diag_range :=
                   convertRange scriptDoc
                     {| ts.start := ts.diag_start diag;
                        ts.length := ts.diag_length diag |};
                 severity :=
                   convertTSDiagnosticCategoryToDiagnosticSeverity (ts.category diag);
                 message :=
                   flattenDiagnosticMessageText host (ts.messageText diag) NL;
                 tags := if ts.reportsUnnecessary diag then [Unnecessary] else [];
                 code := Some (CodeNumber (Some (ts.diag_code diag)));
                 source := "Vetur" |})
           rawScriptDiagnostics).

(** A string is truthy when it is present and not empty. *)
Definition truthy (s : option string) : bool :=
  match s with
  | Some t => negb (String.eqb t "")
  | None => false
  end.

Definition endsWith (suffix s : string) : bool :=
  String.prefix (String.rev suffix) (String.rev s).

(** [s.slice(0, -n)] *)
Definition dropEnd (n : nat) (s : string) : string :=
  String.substring 0 (String.length s - n) s.

Definition calculateLabelAndDetailTextForPathImport
    (entry : ts.CompletionEntry) : string * option string :=
  let fallback := (ts.entry_name entry, None) in
  if String.eqb (ts.entry_kind entry) "script" then
    if truthy (ts.kindModifiers entry) then
      (ts.entry_name entry,
       Some (ts.entry_name entry +:+ default "" (ts.kindModifiers entry)))
    else if endsWith ".vue" (ts.entry_name entry) then
      (dropEnd 4 (ts.entry_name entry), Some (ts.entry_name entry))
    else fallback
  else fallback.

Definition completionItemOf
    (doc scriptDoc : TextDocument) (position : Position) (offset : Z)
    (entry : ts.CompletionEntry) : CompletionItem :=
  let range : option Range := convertRange scriptDoc <$> ts.replacementSpan entry in
  let filterText :=
    if truthy (ts.insertText entry) && bool_decide (is_Some range)
       && bool_decide (charAt (default "" (ts.insertText entry)) 0 = Some "[")
    then Some ("." +:+ ts.entry_name entry) else None in
  let '(label, detail) := calculateLabelAndDetailTextForPathImport entry in
  let kind := toCompletionItemKind host (ts.entry_kind entry) in
  let insertTextFormat :=
    if (kind =? CompletionItemKind.Function) || (kind =? CompletionItemKind.Method)
    then Some Snippet else None in
  let insertText :=
    if truthy (ts.insertText entry) then default "" (ts.insertText entry)
    else ts.entry_name entry in
  {| item_uri := uri doc;
     item_position := position;
     preselect := if ts.isRecommended entry then Some true else None;
     label := label;
     detail := detail;
     filterText := filterText;
     insertTextFormat := insertTextFormat;
     item_sortText := ts.sortText entry;
     item_kind := toCompletionItemKind host (ts.entry_kind entry);
     textEdit :=
       (fun r => {| edit_range := r; newText := insertText |}) <$> range;
     item_insertText := match range with Some _ => None | None => Some insertText end;
     additionalTextEdits := None;
     documentation := None;
     data := Some {| data_languageId := languageId scriptDoc;
                     data_uri := uri doc;
                     data_offset := offset;
                     data_source := ts.entry_source entry |} |}.

Definition doComplete (doc : TextDocument) (position : Position)
    : M CompletionList :=
  let '(scriptDoc, service) := updateCurrentVueTextDocument host doc in
  included ← languageServiceIncludesFile service (uri doc);
  if negb included then mret emptyCompletionList
  else
    let fileFsPath := getFileFsPath host (uri doc) in
    let offset := offsetAt scriptDoc position in
    let triggerChar := charAt (getText doc) (offset - 1) in
    if includes triggerChar (Some <$> NON_SCRIPT_TRIGGERS)
    then mret emptyCompletionList
    else
      cfg ← get_config;
      completions ← query (GetCompletionsAtPosition fileFsPath offset)
                      (ts.getCompletionsAtPosition service fileFsPath offset
                         (autoImport cfg));
      match completions with
      | None => mret emptyCompletionList
      | Some completions =>
          let entries :=
            List.filter
              (fun entry => negb (String.eqb (ts.entry_name entry) "__vueEditorBridge"))
              (ts.entries completions) in
          mret {| isIncomplete := false;
                  items := map (completionItemOf doc scriptDoc position offset)
                               entries |}
      end.

Definition appendDescriptions
    (codeActions : list ts.CodeAction) (value : string) : string :=
  fold_left
    (fun v action =>
       if String.eqb (ts.action_description action) "" then v
       else v +:+ NL +:+ ts.action_description action)
    codeActions value.

Definition doResolve (doc : TextDocument) (item : CompletionItem)
    : M CompletionItem :=
  let '(_, service) := updateCurrentVueTextDocument host doc in
  included ← languageServiceIncludesFile service (uri doc);
  if negb included then mret item
  else
    let fileFsPath := getFileFsPath host (uri doc) in
    d ← lift (deref (data item));
    cfg ← get_config;
    details ← query (GetCompletionEntryDetails fileFsPath (data_offset d) (label item))
                (ts.getCompletionEntryDetails service fileFsPath (data_offset d)
                   (label item) (getFormatCodeSettings cfg) (data_source d));
    match details with
    | Some details =>
        if negb (item_kind item =? CompletionItemKind.File)
           && negb (item_kind item =? CompletionItemKind.Folder)
        then
          let detail' := displayPartsToString host (ts.details_displayParts details) in
          let value0 := displayPartsToString host (ts.details_documentation details) in
          '(edits, value1) ←
            match ts.codeActions details with
            | Some codeActions =>
                if autoImport cfg then
                  textEdits ← lift (convertCodeAction doc codeActions);
                  mret (Some textEdits, appendDescriptions codeActions value0)
                else mret (additionalTextEdits item, value0)
            | None => mret (additionalTextEdits item, value0)
            end;
          mret {| item_uri := item_uri item;
                  item_position := item_position item;
                  preselect := preselect item;
                  label := label item;
                  detail := Some detail';
                  filterText := filterText item;
                  insertTextFormat := insertTextFormat item;
                  item_sortText := item_sortText item;
                  item_kind := item_kind item;
                  textEdit := textEdit item;
                  item_insertText := item_insertText item;
                  additionalTextEdits := edits;
                  documentation :=
                    Some {| markup_kind := "markdown"; value := value1 |};
                  data := None |}
        else mret item
    | None => mret item
    end.

Definition emptyHover : Hover := {| hover_range := None; contents := [] |}.

Definition doHover (doc : TextDocument) (position : Position) : M Hover :=
  let '(scriptDoc, service) := updateCurrentVueTextDocument host doc in
  included ← languageServiceIncludesFile service (uri doc);
  if negb included then mret emptyHover
  else
    let fileFsPath := getFileFsPath host (uri doc) in
    info ← query (GetQuickInfoAtPosition fileFsPath (offsetAt scriptDoc position))
             (ts.getQuickInfoAtPosition service fileFsPath (offsetAt scriptDoc position));
    match info with
    | Some info =>
        let display := displayPartsToString host (ts.info_displayParts info) in
        let docText := displayPartsToString host (ts.info_documentation info) in
        let markedContents := [Code "ts" display] in
        let markedContents :=
          if String.eqb docText "" then markedContents
          else Text docText :: Text NL :: markedContents in
        mret {| hover_range := Some (convertRange scriptDoc (ts.info_textSpan info));
                contents := markedContents |}
    | None => mret emptyHover
    end.

(** The label of the parameters: each followed by the separator, the
    last one excepted. *)
Fixpoint parametersLabel (separator : string) (labels : list string) : string :=
  match labels with
  | [] => ""
  | [l] => l
  | l :: r => l +:+ separator +:+ parametersLabel separator r
  end.

Definition signatureOf (item : ts.SignatureHelpItem) : SignatureInformation :=
  let parameters :=
    map (fun p =>
           {| param_label := displayPartsToString host (ts.param_displayParts p);
              param_documentation :=
                displayPartsToString host (ts.param_documentation p) |})
        (ts.parameters item) in
  {| sig_label :=
       displayPartsToString host (ts.prefixDisplayParts item) +:+
       parametersLabel (displayPartsToString host (ts.separatorDisplayParts item))
                       (map param_label parameters) +:+
       displayPartsToString host (ts.suffixDisplayParts item);
     sig_documentation := None;
     sig_parameters := parameters |}.

Definition doSignatureHelp (doc : TextDocument) (position : Position)
    : M (option SignatureHelp) :=
  let '(scriptDoc, service) := updateCurrentVueTextDocument host doc in
  included ← languageServiceIncludesFile service (uri doc);
  if negb included then mret (NULL_SIGNATURE host)
  else
    let fileFsPath := getFileFsPath host (uri doc) in
    signHelp ← query (GetSignatureHelpItems fileFsPath (offsetAt scriptDoc position))
                 (ts.getSignatureHelpItems service fileFsPath (offsetAt scriptDoc position));
    match signHelp with
    | None => mret (NULL_SIGNATURE host)
    | Some signHelp =>
        mret (Some {| activeSignature := ts.selectedItemIndex signHelp;
                      activeParameter := ts.argumentIndex signHelp;
                      signatures := map signatureOf (ts.items signHelp) |})
    end.

Definition findDocumentHighlight (doc : TextDocument) (position : Position)
    : M (list DocumentHighlight) :=
  let '(scriptDoc, service) := updateCurrentVueTextDocument host doc in
  included ← languageServiceIncludesFile service (uri doc);
  if negb included then mret []
  else
    let fileFsPath := getFileFsPath host (uri doc) in
    occurrences ← query (GetOccurrencesAtPosition fileFsPath (offsetAt scriptDoc position))
                    (ts.getOccurrencesAtPosition service fileFsPath
                       (offsetAt scriptDoc position));
    match occurrences with
    | Some occurrences =>
        mret (map (fun entry =>
                     {| highlight_range := convertRange scriptDoc (ts.ref_textSpan entry);
                        highlight_kind :=
                          if ts.isWriteAccess entry then HWrite else HText |})
                  occurrences)
    | None => mret []
    end.

(** The outline walk of [findDocumentSymbols]: [acc] is the pair of
    [result] and [existing], both updated in place by the source. *)
Definition symbolOf
    (doc scriptDoc : TextDocument) (text kind : string) (span0 : ts.TextSpan)
    (containerLabel : option string) : SymbolInformation :=
  {| symbol_name := text;
     symbol_kind := toSymbolKind host kind;
     location := {| loc_uri := uri doc;
                    loc_range := convertRange scriptDoc span0 |};
     containerName := containerLabel |}.

Fixpoint collectSymbols
    (doc scriptDoc : TextDocument) (item : ts.NavigationBarItem)
    (containerLabel : option string)
    (acc : list SymbolInformation * gmap string bool) {struct item}
    : Res (list SymbolInformation * gmap string bool) :=
  match item with
  | ts.MkNavigationBarItem text kind spans childItems =>
      span0 ← deref (spans !! 0%nat);
      let sig := text +:+ kind +:+ pretty (ts.start span0) in
      let '(result, existing) := acc in
      let fresh :=
        negb (String.eqb kind "script") && negb (default false (existing !! sig)) in
      let acc' :=
        if fresh
        then ((result ++ [symbolOf doc scriptDoc text kind span0 containerLabel])%list,
              <[sig := true]> existing)
        else acc in
      let containerLabel' := if fresh then Some text else containerLabel in
      forRes (fun child acc => collectSymbols doc scriptDoc child containerLabel' acc)
             childItems acc'
  end.

(** [items.forEach(item => collectSymbols(item))] *)
Definition collectAll
    (doc scriptDoc : TextDocument) (items : list ts.NavigationBarItem)
    (acc : list SymbolInformation * gmap string bool)
    : Res (list SymbolInformation * gmap string bool) :=
  forRes (fun item acc => collectSymbols doc scriptDoc item None acc) items acc.

Definition findDocumentSymbols (doc : TextDocument) : M (list SymbolInformation) :=
  let '(scriptDoc, service) := updateCurrentVueTextDocument host doc in
  included ← languageServiceIncludesFile service (uri doc);
  if negb included then mret []
  else
    let fileFsPath := getFileFsPath host (uri doc) in
    items ← query (GetNavigationBarItems fileFsPath)
              (ts.getNavigationBarItems service fileFsPath);
    match items with
    | None => mret []
    | Some items =>
        acc ← lift (collectAll doc scriptDoc items ([], ∅));
        mret (fst acc)
    end.

Definition locationOf (program : ts.Program) (r : ts.ReferenceEntry)
    : Res Location :=
  targetDoc ← getSourceDoc (ts.ref_fileName r) (Some program);
  mret {| loc_uri := Uri_file host (ts.ref_fileName r);
          loc_range := convertRange targetDoc (ts.ref_textSpan r) |}.

Definition findDefinition (doc : TextDocument) (position : Position)
    : M (list Location) :=
  let '(scriptDoc, service) := updateCurrentVueTextDocument host doc in
  included ← languageServiceIncludesFile service (uri doc);
  if negb included then mret []
  else
    let fileFsPath := getFileFsPath host (uri doc) in
    definitions ← query (GetDefinitionAtPosition fileFsPath (offsetAt scriptDoc position))
                    (ts.getDefinitionAtPosition service fileFsPath
                       (offsetAt scriptDoc position));
    match definitions with
    | None => mret []
    | Some definitions =>
        program ← query GetProgram (ts.getProgram service);
        match program with
        | None => mret []
        | Some program => lift (mapM (locationOf program) definitions)
        end
    end.

Definition findReferences (doc : TextDocument) (position : Position)
    : M (list Location) :=
  let '(scriptDoc, service) := updateCurrentVueTextDocument host doc in
  included ← languageServiceIncludesFile service (uri doc);
  if negb included then mret []
  else
    let fileFsPath := getFileFsPath host (uri doc) in
    references ← query (GetReferencesAtPosition fileFsPath (offsetAt scriptDoc position))
                   (ts.getReferencesAtPosition service fileFsPath
                      (offsetAt scriptDoc position));
    match references with
    | None => mret []
    | Some references =>
        program ← query GetProgram (ts.getProgram service);
        match program with
        | None => mret []
        | Some program => lift (mapM (locationOf program) references)
        end
    end.

(** *** Code actions *)

(** [+d.code!] *)
Definition codeNumber (d : Diagnostic) : number :=
  match code d with
  | Some (CodeNumber n) => n
  | Some (CodeString s) => Number host s
  | None => None
  end.

Definition has (codes : gset number) (c : number) : bool :=
  bool_decide (c ∈ codes).

Definition onlyAllows (allowed : list string) (context : CodeActionContext) : bool :=
  match only context with
  | Some kinds => existsb (fun el => includes el allowed) kinds
  | None => true
  end.

(** The test [if (!fixableDiagnosticCodes) return] of the source never
    fires: an array, even an empty one, is truthy. *)
Definition provideQuickFixCodeActions
    (fileName : string) (textRange : ts.TextRange) (context : CodeActionContext)
    (supportedCodeFixCodes : gset number) (formatSettings : ts.FormatCodeSettings)
    (service : ts.LanguageService) (result : list CodeAction)
    : M (list CodeAction) :=
  if negb (onlyAllows [CodeActionKind.QuickFix] context) then mret result
  else
    let fixableDiagnosticCodes :=
      List.filter (has supportedCodeFixCodes)
                  (map codeNumber (lsp.diagnostics context)) in
    fixes ← query (GetCodeFixesAtPosition fileName fixableDiagnosticCodes)
              (ts.getCodeFixesAtPosition service fileName (ts.pos textRange)
                 (ts.end_ textRange) fixableDiagnosticCodes formatSettings);
    forM (fun codeFix result =>
            mapping ← createUriMappingForEdits (ts.fix_changes codeFix) service;
            let result :=
              (result ++
               [{| title := ts.fix_description codeFix;
                   kind := CodeActionKind.QuickFix;
                   diagnostics := Some (lsp.diagnostics context);
                   command :=
                     createApplyCodeActionCommand (ts.fix_description codeFix) mapping |}])%list in
            if truthy (ts.fixAllDescription codeFix) && truthy (ts.fixId codeFix) then
              mret (result ++
                    [{| title := default "" (ts.fixAllDescription codeFix);
                        kind := CodeActionKind.QuickFix;
                        diagnostics := Some (lsp.diagnostics context);
                        command :=
                          createRequestCodeActionCommand
                            (default "" (ts.fixAllDescription codeFix))
                            {| fileName := fileName;
                               textRange := textRange;
                               formatSettings := formatSettings;
                               arguments :=
                                 CombinedCodeFix (default "" (ts.fixId codeFix)) |} |}])%list
            else mret result)
         fixes result.

Definition provideOrganizeImports
    (fileName : string) (textRange : ts.TextRange) (context : CodeActionContext)
    (formatSettings : ts.FormatCodeSettings) (result : list CodeAction)
    : list CodeAction :=
  match only context with
  | None => result
  | Some kinds =>
      if negb (includes CodeActionKind.SourceOrganizeImports kinds)
         && negb (includes CodeActionKind.Source kinds)
      then result
      else
        (result ++
         [{| title := "Organize Imports";
             kind := CodeActionKind.SourceOrganizeImports;
             diagnostics := None;
             command :=
               createRequestCodeActionCommand "Organize Imports"
                 {| fileName := fileName;
                    textRange := textRange;
                    formatSettings := formatSettings;
                    arguments := OrganizeImports |} |}])%list
  end.

Definition refactorRequests
    (fileName : string) (textRange : ts.TextRange)
    (formatSettings : ts.FormatCodeSettings)
    (refactoring : ts.ApplicableRefactorInfo) : list CodeActionReq :=
  let refactorName := ts.refactor_name refactoring in
  if ts.inlineable refactoring then
    [{| fileName := fileName;
        textRange := textRange;
        formatSettings := formatSettings;
        arguments :=
          RefactorAction refactorName refactorName
                         (ts.refactor_description refactoring) |}]
  else
    map (fun action =>
           {| fileName := fileName;
              textRange := textRange;
              formatSettings := formatSettings;
              arguments :=
                RefactorAction refactorName (ts.refactor_action_name action)
                               (ts.refactor_action_description action) |})
        (ts.actions refactoring).

Definition descriptionOf (action : CodeActionReq) : string :=
  match arguments action with
  | RefactorAction _ _ description => description
  | _ => ""
  end.

Definition provideRefactoringCommands
    (fileName : string) (textRange : ts.TextRange) (context : CodeActionContext)
    (formatSettings : ts.FormatCodeSettings) (service : ts.LanguageService)
    (result : list CodeAction) : M (list CodeAction) :=
  if negb (onlyAllows [CodeActionKind.Refactor; CodeActionKind.RefactorExtract;
                       CodeActionKind.RefactorInline; CodeActionKind.RefactorRewrite;
                       CodeActionKind.Source] context)
  then mret result
  else
    refactorings ← query (GetApplicableRefactors fileName)
                     (ts.getApplicableRefactors service fileName textRange);
    let actions := flat_map (refactorRequests fileName textRange formatSettings)
                            refactorings in
    mret (result ++
          map (fun action =>
                 {| title := descriptionOf action;
                    kind := CodeActionKind.Refactor;
                    diagnostics := None;
                    command :=
                      createRequestCodeActionCommand (descriptionOf action) action |})
              actions)%list.

Definition computeSupportedCodeFixCodes : M (gset number) :=
  codes ← query GetSupportedCodeFixes (getSupportedCodeFixes host);
  mret (list_to_set
          (List.filter (fun x => negb (isNaN x)) (map (Number host) codes))).

Definition getCodeActions
    (doc : TextDocument) (range : Range) (context : CodeActionContext)
    : M (list CodeAction) :=
  let '(scriptDoc, service) := updateCurrentVueTextDocument host doc in
  let fileName := getFileFsPath host (uri scriptDoc) in
  let start := offsetAt scriptDoc (range_start range) in
  let end_ := offsetAt scriptDoc (range_end range) in
  let textRange := {| ts.pos := start; ts.end_ := end_ |} in
  current ← get_supportedCodeFixCodes;
  supported ←
    match current with
    | Some codes => mret codes
    | None =>
        codes ← computeSupportedCodeFixCodes;
        _ ← set_supportedCodeFixCodes codes;
        mret codes
    end;
  cfg ← get_config;
  let formatSettings := getFormatCodeSettings cfg in
  result ← provideQuickFixCodeActions fileName textRange context supported
             formatSettings service [];
  let result := provideOrganizeImports fileName textRange context formatSettings result in
  provideRefactoringCommands fileName textRange context formatSettings service result.

Definition getCodeActionEdits (doc : TextDocument) (req : CodeActionReq)
    : M Command :=
  let '(_, service) := updateCurrentVueTextDocument host doc in
  match arguments req with
  | RefactorAction refactorName actionName _ =>
      response ← query (GetEditsForRefactor (fileName req) refactorName actionName)
                   (ts.getEditsForRefactor service (fileName req) (formatSettings req)
                      (textRange req) refactorName actionName);
      match response with
      | None => mret (createApplyCodeActionCommand "" ∅)
      | Some response =>
          uriMapping ← createUriMappingForEdits (ts.edits response) service;
          mret (createApplyCodeActionCommand "" uriMapping)
      end
  | CombinedCodeFix fixId =>
      combined ← query (GetCombinedCodeFix (fileName req) fixId)
                   (ts.getCombinedCodeFix service (fileName req) fixId (formatSettings req));
      combined ← lift (deref combined);
      uriMapping ← createUriMappingForEdits (ts.combined_changes combined) service;
      mret (createApplyCodeActionCommand "" uriMapping)
  | OrganizeImports =>
      response ← query (OrganizeImportsCall (fileName req))
                   (ts.organizeImports service (fileName req) (formatSettings req));
      response ← lift (deref response);
      uriMapping ← createUriMappingForEdits response service;
      mret (createApplyCodeActionCommand "" uriMapping)
  end.

(** *** Formatting *)

Definition set_format (js : bool) (f : ts.FormatCodeSettings) (c : Config) : Config :=
  {| autoImport := autoImport c;
     defaultFormatter_js := defaultFormatter_js c;
     defaultFormatter_ts := defaultFormatter_ts c;
     scriptInitialIndent := scriptInitialIndent c;
     options_tabSize := options_tabSize c;
     options_useTabs := options_useTabs c;
     javascript_format := if js then f else javascript_format c;
     typescript_format := if js then typescript_format c else f |}.

Definition format (doc : TextDocument) (range : Range) : M (list TextEdit) :=
  let '(scriptDoc, service) := updateCurrentVueTextDocument host doc in
  cfg ← get_config;
  let js := String.eqb (languageId scriptDoc) "javascript" in
  let defaultFormatter :=
    if js then defaultFormatter_js cfg else defaultFormatter_ts cfg in
  if String.eqb defaultFormatter "none" then mret []
  else
    let parser := if js then "babylon" else "typescript" in
    let needInitialIndent := scriptInitialIndent cfg in
    if includes defaultFormatter ["prettier"; "prettier-eslint"; "prettier-tslint"]
    then
      let code := getTextIn doc range in
      let filePath := getFileFsPath host (uri scriptDoc) in
      let doFormat :=
        if String.eqb defaultFormatter "prettier-eslint" then prettierEslintify host
        else if String.eqb defaultFormatter "prettier-tslint" then prettierTslintify host
        else prettierify host in
      mret (doFormat code filePath range cfg parser needInitialIndent)
    else
      let initialIndentLevel := if needInitialIndent then 1 else 0 in
      let formatSettings :=
        if js then javascript_format cfg else typescript_format cfg in
      let convertedFormatSettings :=
        convertOptions formatSettings
          {| tabSize := options_tabSize cfg;
             insertSpaces := negb (options_useTabs cfg) |}
          initialIndentLevel in
      _ ← set_config (set_format js convertedFormatSettings cfg);
      let fileFsPath := getFileFsPath host (uri doc) in
      let start := offsetAt scriptDoc (range_start range) in
      let end_ := offsetAt scriptDoc (range_end range) in
      edits ← query (GetFormattingEditsForRange fileFsPath start end_)
                (ts.getFormattingEditsForRange service fileFsPath start end_
                   convertedFormatSettings);
      match edits with
      | None => mret []
      | Some edits =>
          mret (map (fun edit =>
                       {| edit_range := convertRange scriptDoc (ts.span edit);
                          newText := ts.newText edit |})
                    (List.filter
                       (fun edit =>
                          (start <=? ts.start (ts.span edit))
                          && (ts.start (ts.span edit) + ts.length (ts.span edit) <=? end_))
                       edits))
      end.

(** *** The mode as a server: one request after another *)

Inductive Request : Type :=
| Configure (c : Config)
| DoValidation (doc : TextDocument)
| DoComplete (doc : TextDocument) (position : Position)
| DoResolve (doc : TextDocument) (item : CompletionItem)
| DoHover (doc : TextDocument) (position : Position)
| DoSignatureHelp (doc : TextDocument) (position : Position)
| FindDocumentHighlight (doc : TextDocument) (position : Position)
| FindDocumentSymbols (doc : TextDocument)
| FindDefinition (doc : TextDocument) (position : Position)
| FindReferences (doc : TextDocument) (position : Position)
| GetCodeActions (doc : TextDocument) (range : Range) (context : CodeActionContext)
| GetCodeActionEdits (doc : TextDocument) (req : CodeActionReq)
| Format (doc : TextDocument) (range : Range).

Definition discard {A} (m : M A) : M unit := _ ← m; mret tt.

Definition perform (r : Request) : M unit :=
  match r with
  | Configure c => set_config c
  | DoValidation doc => discard (doValidation doc)
  | DoComplete doc position => discard (doComplete doc position)
  | DoResolve doc item => discard (doResolve doc item)
  | DoHover doc position => discard (doHover doc position)
  | DoSignatureHelp doc position => discard (doSignatureHelp doc position)
  | FindDocumentHighlight doc position => discard (findDocumentHighlight doc position)
  | FindDocumentSymbols doc => discard (findDocumentSymbols doc)
  | FindDefinition doc position => discard (findDefinition doc position)
  | FindReferences doc position => discard (findReferences doc position)
  | GetCodeActions doc range context => discard (getCodeActions doc range context)
  | GetCodeActionEdits doc req => discard (getCodeActionEdits doc req)
  | Format doc range => discard (format doc range)
  end.

(** A request that throws is answered with an error; the mode and its
    state stay in service for the next one. *)
Definition serve (requests : list Request) (st : ModeState) : ModeState :=
  fold_left (fun st r => snd (perform r st)) requests st.

End Mode.

End Javascript.

(** * Specification-side definitions

    What the claims speak of, said once more without the code: these are
    compared with the code by the theorems below. *)
Module Spec.
Import ts VueInfo ComponentInfo.

(** The texts of the string literals among the elements, in order. *)
Fixpoint literalTexts (elements : list Node) : list string :=
  match elements with
  | [] => []
  | e :: rest =>
      match shape e with
      | StringLiteral t => t :: literalTexts rest
      | _ => literalTexts rest
      end
  end.

(** A statement that is an export assignment or a class declaration. *)
Definition exportsDefault (st : Node) : Prop :=
  kind st = SyntaxKind.ExportAssignment \/ kind st = SyntaxKind.ClassDeclaration.

(** [st] is the first top-level statement of [sf] that is an export
    assignment or a class declaration. *)
Definition firstExport (sf : SourceFile) (st : Node) : Prop :=
  exists pre post,
    statements sf = (pre ++ st :: post)%list
    /\ Forall (fun s => ~ exportsDefault s) pre
    /\ exportsDefault st.

(** A prop known by name only. *)
Definition undocumented (t : string) : PropInfo :=
  {| name := t; documentation := None |}.

(** [arg] is the first argument of the class-level decorator that is
    the first one named [Component], and that decorator is a call. *)
Inductive ComponentDecoratorArgument (d0 arg : Node) : Prop :=
| component_argument pre callNode callee rest post :
    decorators d0 = Some (pre ++ MkDecorator callNode :: post)%list ->
    Forall (fun d => decoratorName d <> "Component") pre ->
    shape callNode = CallExpression callee (arg :: rest) ->
    getText callee = "Component" ->
    ComponentDecoratorArgument d0 arg.

(** The four categories of members and their rules. *)
Inductive Category : Set := Props | Data | Computed | Methods.

Definition extractor (tsModule : T_TypeScript) (checker : TypeChecker)
    (c : Category) : Type_ -> Res (option (list MemberInfo)) :=
  match c with
  | Props => getProps tsModule checker
  | Data => getData tsModule checker
  | Computed => getComputed tsModule checker
  | Methods => getMethods tsModule checker
  end.

Definition classRule (defaultExportType : Type_) (c : Category)
    : Type_ -> Res (option (list MemberInfo)) :=
  match c with
  | Props => getClassProps
  | Data => getClassData
  | Computed => getClassComputed defaultExportType
  | Methods => getClassMethods
  end.

Definition objectRule (checker : TypeChecker) (c : Category)
    : Type_ -> Res (option (list MemberInfo)) :=
  match c with
  | Props => getObjectProps checker
  | Data => getObjectData checker
  | Computed => getObjectComputed checker
  | Methods => getObjectMethods checker
  end.




End Spec.

(** What the claims about the language mode speak of. *)
Module ModeSpec.
Import lsp Types Javascript.


(** The supported fix codes as the compiler module lists them: those
    that are numbers. *)
Definition supportedByCompiler (host : Host) : gset number :=
  list_to_set
    (List.filter (fun x => negb (isNaN x)) (map (Number host) (getSupportedCodeFixes host))).

(** How often the compiler module was asked for its supported codes. *)
Definition computations (st : ModeState) : nat :=
  count_occ Call_eq_dec (calls st) GetSupportedCodeFixes.

(** A computation that leaves the set of supported codes alone and makes
    only requests that satisfy [Q]. *)
Definition asks {A} (Q : Call -> Prop) (m : M A) : Prop :=
  forall st,
    supportedCodeFixCodes (snd (m st)) = supportedCodeFixCodes st
    /\ exists new, calls (snd (m st)) = (new ++ calls st)%list /\ Forall Q new.

(** Any request but the one for the supported codes. *)
Definition otherCall (c : Call) : Prop := c <> GetSupportedCodeFixes.



(** *** The outline walk, in the words of the claims *)

(** An ancestor of the item being visited: its name, its kind, and
    whether it was emitted as a symbol. *)
Record Ancestor : Type := {
  ancestor_name : string;
  ancestor_kind : string;
  ancestor_emitted : bool
}.

(** The whole-file grouping kind. *)
Definition isGrouping (kind : string) : bool := String.eqb kind "script".

(** The name of the nearest ancestor that was emitted; the ancestors are
    listed nearest first. *)
Definition nearestEmitted (ancestors : list Ancestor) : option string :=
  ancestor_name <$> List.find ancestor_emitted ancestors.

(** The name of the nearest ancestor that is not of the grouping kind. *)
Definition nearestUnskipped (ancestors : list Ancestor) : option string :=
  ancestor_name
    <$> List.find (fun a => negb (isGrouping (ancestor_kind a))) ancestors.

Definition firstSpan (item : ts.NavigationBarItem) : ts.TextSpan :=
  default {| ts.start := 0; ts.length := 0 |} (ts.spans item !! 0%nat).

(** The composite key (name, kind, start offset) of an outline item, and
    the text under which the walk remembers it. *)
Definition outlineKey (item : ts.NavigationBarItem) : string * string * Z :=
  (ts.nav_text item, ts.nav_kind item, ts.start (firstSpan item)).

Definition keyText (k : string * string * Z) : string :=
  k.1.1 +:+ k.1.2 +:+ pretty k.2.

(** Visit the items one after the other, handing on what was seen. *)
Fixpoint walkList {X}
    (visit : list string -> ts.NavigationBarItem -> list X * list string)
    (seen : list string) (items : list ts.NavigationBarItem)
    : list X * list string :=
  match items with
  | [] => ([], seen)
  | item :: rest =>
      let '(first, seen1) := visit seen item in
      let '(others, seen2) := walkList visit seen1 rest in
      ((first ++ others)%list, seen2)
  end.

(** The walk: an item is emitted when it is not of the grouping kind and
    its key was not seen before; it is emitted with the container that
    [container] reads off its ancestors; its children follow it. *)
Fixpoint walk
    (container : list Ancestor -> option string) (ancestors : list Ancestor)
    (seen : list string) (item : ts.NavigationBarItem) {struct item}
    : list (ts.NavigationBarItem * option string) * list string :=
  match item with
  | ts.MkNavigationBarItem text kind spans childItems =>
      let key := keyText (outlineKey item) in
      let emitted := negb (isGrouping kind) && negb (bool_decide (key ∈ seen)) in
      let me := {| ancestor_name := text; ancestor_kind := kind;
                   ancestor_emitted := emitted |} in
      let '(below, seen') :=
        walkList (fun seen child => walk container (me :: ancestors) seen child)
                 (if emitted then key :: seen else seen) childItems in
      ((if emitted then (item, container ancestors) :: below else below), seen')
  end.

Definition outline
    (container : list Ancestor -> option string) (items : list ts.NavigationBarItem)
    : list (ts.NavigationBarItem * option string) :=
  fst (walkList (walk container []) [] items).

(** The symbol of an emitted item: the item's name, the symbol kind of
    its kind, the document's uri, the range of its first span in the
    script, and the container the walk gave it. *)
Definition itemSymbol (host : Host) (doc scriptDoc : TextDocument)
    (emitted : ts.NavigationBarItem * option string) : SymbolInformation :=
  let span := firstSpan emitted.1 in
  {| symbol_name := ts.nav_text emitted.1;
     symbol_kind := toSymbolKind host (ts.nav_kind emitted.1);
     location :=
       {| loc_uri := uri doc;
          loc_range :=
            {| range_start := positionAt scriptDoc (ts.start span);
               range_end := positionAt scriptDoc (ts.start span + ts.length span) |} |};
     containerName := emitted.2 |}.

(** Every item of the outline carries a span. *)
Fixpoint hasSpans (item : ts.NavigationBarItem) : bool :=
  match item with
  | ts.MkNavigationBarItem _ _ spans childItems =>
      match spans with
      | [] => false
      | _ :: _ => forallb hasSpans childItems
      end
  end.

(** The plain object [existing] and the list of keys seen hold the same
    keys. *)
Definition agree (existing : gmap string bool) (seen : list string) : Prop :=
  forall s, default false (existing !! s) = bool_decide (s ∈ seen).

(** What the walk of the code does with one item: it appends the symbols
    of the items the specification's walk emits. *)
Definition visited (host : Host) (doc scriptDoc : TextDocument)
    (item : ts.NavigationBarItem) : Prop :=
  hasSpans item = true ->
  forall ancestors result existing seen,
    agree existing seen ->
    exists existing',
      collectSymbols host doc scriptDoc item (nearestEmitted ancestors) (result, existing)
      = Ok ((result ++
             map (itemSymbol host doc scriptDoc)
                 (walk nearestEmitted ancestors seen item).1)%list,
            existing')
      /\ agree existing' (walk nearestEmitted ancestors seen item).2.

Definition keyTexts (emitted : list (ts.NavigationBarItem * option string))
    : list string :=
  map (fun e => keyText (outlineKey e.1)) emitted.

(** What the walk of the specification emits and remembers. *)
Definition wellKept (container : list Ancestor -> option string)
    (item : ts.NavigationBarItem) : Prop :=
  forall ancestors seen,
    (walk container ancestors seen item).2
      = (rev (keyTexts (walk container ancestors seen item).1) ++ seen)%list
    /\ Forall (fun e => isGrouping (ts.nav_kind e.1) = false)
              (walk container ancestors seen item).1
    /\ (NoDup seen -> NoDup (walk container ancestors seen item).2).

(** The state after one more request. *)
Definition logged (c : Call) (st : ModeState) : ModeState :=
  {| config := config st;
     supportedCodeFixCodes := supportedCodeFixCodes st;
     calls := c :: calls st |}.

End ModeSpec.

(** * Sample inputs

    A small component, written in two ways, and a language service that
    knows one file; the examples below run the code on them. *)
Module Samples.
Import ts VueInfo ComponentInfo.

Definition node (s : NodeShape) (txt : string) (children : list Node) : Node :=
  MkNode s txt children None.
Definition str (t : string) : Node := node (StringLiteral t) ("'" +:+ t +:+ "'") [].
Definition ident (t : string) : Node := node (Plain Identifier) t [].

(** [props: ['a', x, 'b']] *)
Definition propsArray : Node :=
  node (ArrayLiteralExpression [str "a"; ident "x"; str "b"]) "['a', x, 'b']" [].
Definition propsAssignment : Node :=
  node (Plain PropertyAssignment) "props: ['a', x, 'b']" [ident "props"; propsArray].
Definition propsSymbol : Symbol :=
  {| ts.name := "props"; valueDeclaration := Some propsAssignment;
     declarations := [propsAssignment]; getDocumentationComment := [] |}.

Definition emptyType : Type_ :=
  {| isClass := Some false; flags := 0; objectFlags := 0; symbol := None;
     getProperties := []; getCallSignatures := [] |}.

(** The type of [{ props: ['a', x, 'b'] }], and of a variable [opts]
    bound to such an object. *)
Definition optionsType : Type_ :=
  {| isClass := Some false; flags := 524288; objectFlags := 16; symbol := None;
     getProperties := [propsSymbol]; getCallSignatures := [] |}.
Definition optionsLiteral : Node :=
  node (Plain ObjectLiteralExpression) "{ props: ['a', x, 'b'] }" [propsAssignment].

(** [get total() { return 1 }] and [set total(v) {}] as two members. *)
Definition getter : Node := node (Plain GetAccessor) "get total() { return 1 }" [].
Definition setter : Node := node (Plain SetAccessor) "set total(v) {}" [].
Definition totalGet : Symbol :=
  {| ts.name := "total"; valueDeclaration := Some getter;
     declarations := [getter]; getDocumentationComment := [] |}.
Definition totalSet : Symbol :=
  {| ts.name := "total"; valueDeclaration := Some setter;
     declarations := [setter]; getDocumentationComment := [] |}.

(** [@Component(opts) class App extends Vue { ... }]: the decorator's
    argument is an identifier. *)
Definition componentCall : Node :=
  node (CallExpression (ident "Component") [ident "opts"]) "Component(opts)" [].
Definition classDecl : Node :=
  MkNode (Plain ClassDeclaration) "class App extends Vue {}" []
         (Some [MkDecorator componentCall]).
Definition classSymbol : Symbol :=
  {| ts.name := "App"; valueDeclaration := Some classDecl;
     declarations := [classDecl]; getDocumentationComment := [] |}.
Definition classType : Type_ :=
  {| isClass := Some true; flags := 524288; objectFlags := 1;
     symbol := Some classSymbol;
     getProperties := [totalGet; totalSet]; getCallSignatures := [] |}.

Definition checker : TypeChecker :=
  {| getTypeAtLocation := fun n =>
       if String.eqb (getText n) "opts" then optionsType
       else if String.eqb (getText n) (getText optionsLiteral) then optionsType
       else if String.eqb (getText n) (getText classDecl) then classType
       else emptyType;
     getPropertyOfType := fun t key =>
       List.find (fun p => String.eqb (ts.name p) key) (getProperties t);
     getTypeOfSymbolAtLocation := fun _ _ => emptyType;
     getPropertiesOfType := getProperties;
     getReturnTypeOfSignature := fun _ => emptyType |}.

Definition tsModule : T_TypeScript :=
  {| TypeFlags_Object := 524288; ObjectFlags_Class := 1 |}.

Definition noChildren : ChildComponentsFinder := fun _ _ _ => None.

(** [import Vue from 'vue'; export default Vue.extend({ ... })] *)
Definition importStmt : Node := node (Plain (Unlisted 254)) "import Vue from 'vue'" [].
Definition extendCall : Node :=
  node (CallExpression (ident "Vue.extend") [optionsLiteral])
       "Vue.extend({ props: ['a', x, 'b'] })" [].
Definition exportStmt : Node :=
  node (ExportAssignment extendCall) "export default Vue.extend({ props: ['a', x, 'b'] })" [].
Definition appFile : SourceFile :=
  {| statements := [importStmt; exportStmt]; getFullText := "" |}.

(** [class Helper {}] before the export assignment. *)
Definition helperClass : Node := node (Plain ClassDeclaration) "class Helper {}" [].
Definition helperFile : SourceFile :=
  {| statements := [importStmt; helperClass; exportStmt]; getFullText := "" |}.

(** [export default options]: a bare identifier. *)
Definition exportIdent : Node :=
  node (ExportAssignment (ident "options")) "export default options" [].
Definition identFile : SourceFile :=
  {| statements := [importStmt; exportIdent]; getFullText := "" |}.

Definition appPath : string := "/app/App.vue".

Definition program : Program :=
  {| getRootFileNames := [appPath];
     getSourceFile := fun f =>
       if String.eqb f appPath then Some appFile
       else if String.eqb f "/app/Helper.vue" then Some helperFile
       else if String.eqb f "/app/Ident.vue" then Some identFile
       else None;
     getTypeChecker := checker |}.

(** A service that knows [program] and answers every request with
    nothing. *)
Definition service : LanguageService :=
  {| getProgram := Some program;
     getSyntacticDiagnostics := fun _ => [];
     getSemanticDiagnostics := fun _ => [];
     getSuggestionDiagnostics := fun _ => [];
     getCompletionsAtPosition := fun _ _ _ => None;
     getCompletionEntryDetails := fun _ _ _ _ _ => None;
     getQuickInfoAtPosition := fun _ _ => None;
     getSignatureHelpItems := fun _ _ => None;
     getOccurrencesAtPosition := fun _ _ => None;
     getNavigationBarItems := fun _ => None;
     getDefinitionAtPosition := fun _ _ => None;
     getReferencesAtPosition := fun _ _ => None;
     getApplicableRefactors := fun _ _ => [];
     getEditsForRefactor := fun _ _ _ _ _ => None;
     getCodeFixesAtPosition := fun _ _ _ _ _ => [];
     getCombinedCodeFix := fun _ _ _ => None;
     organizeImports := fun _ _ => None;
     getFormattingEditsForRange := fun _ _ _ _ => None |}.

End Samples.

(** Sample documents and collaborators of the language mode. *)
Module ModeSamples.
Import lsp Types Javascript.

(** A one-line document: an offset is a character index on line 0. *)
Definition textDocument (u lang txt : string) : TextDocument :=
  {| uri := u; languageId := lang; version := 1; getText := txt;
     getTextIn := fun _ => txt;
     offsetAt := fun p => character p;
     positionAt := fun o => {| line := 0; character := o |} |}.

Definition at_ (c : Z) : Position := {| line := 0; character := c |}.
Definition wholeLine : Range := {| range_start := at_ 0; range_end := at_ 40 |}.

Definition settings : ts.FormatCodeSettings :=
  {| ts.tabSize := None; ts.indentSize := None; ts.baseIndentSize := None;
     ts.convertTabsToSpaces := None; ts.insertSpaceAfterCommaDelimiter := None |}.

Definition cfg : Config :=
  {| autoImport := true;
     defaultFormatter_js := "prettier"; defaultFormatter_ts := "prettier";
     scriptInitialIndent := false; options_tabSize := 2; options_useTabs := false;
     javascript_format := settings; typescript_format := settings |}.

Definition echo : Prettierify := fun code _ range _ _ _ =>
  [{| edit_range := range; newText := code |}].

(** A host whose language service is [service] for every document. *)
Definition hostOf (service : ts.LanguageService) : Host :=
  {| updateCurrentVueTextDocument := fun doc =>
       (textDocument (uri doc) "javascript" (getText doc), service);
     firstScriptRegion := fun _ => Some wholeLine;
     getFileFsPath := fun u => u;
     getFilePath := fun u => u;
     Uri_file := fun f => "file://" +:+ f;
     TextDocument_create := fun f lang _ txt => textDocument f lang txt;
     displayPartsToString := fun parts => String.concat "" (map ts.part_text parts);
     flattenDiagnosticMessageText := fun m _ => m;
     getSupportedCodeFixes := ["2304"; "fixme"; "6133"];
     Number := fun s =>
       if String.eqb s "2304" then Some 2304
       else if String.eqb s "6133" then Some 6133 else None;
     toCompletionItemKind := fun _ => 6;
     toSymbolKind := fun _ => 13;
     NULL_SIGNATURE := None;
     prettierify := echo; prettierEslintify := echo; prettierTslintify := echo |}.

Definition host : Host := hostOf Samples.service.

(** A root file of the sample program, and a file that is none. *)
Definition appDoc : TextDocument :=
  textDocument Samples.appPath "vue" "<template><a :b=1>".
Definition otherDoc : TextDocument :=
  textDocument "/app/Other.vue" "vue" "const x = 1".

Definition request (args : CodeActionReqArguments) : CodeActionReq :=
  {| fileName := Samples.appPath;
     textRange := {| ts.pos := 0; ts.end_ := 5 |};
     formatSettings := settings;
     arguments := args |}.

(** A service that has edits for a refactoring of the sample file. *)
Definition renameEdit : ts.FileTextChanges :=
  {| ts.fileName := Samples.appPath;
     ts.textChanges := [{| ts.span := {| ts.start := 6; ts.length := 1 |};
                           ts.newText := "y" |}] |}.
Definition refactoringService : ts.LanguageService :=
  {| ts.getProgram := Some Samples.program;
     ts.getSyntacticDiagnostics := fun _ => [];
     ts.getSemanticDiagnostics := fun _ => [];
     ts.getSuggestionDiagnostics := fun _ => [];
     ts.getCompletionsAtPosition := fun _ _ _ => None;
     ts.getCompletionEntryDetails := fun _ _ _ _ _ => None;
     ts.getQuickInfoAtPosition := fun _ _ => None;
     ts.getSignatureHelpItems := fun _ _ => None;
     ts.getOccurrencesAtPosition := fun _ _ => None;
     ts.getNavigationBarItems := fun _ => None;
     ts.getDefinitionAtPosition := fun _ _ => None;
     ts.getReferencesAtPosition := fun _ _ => None;
     ts.getApplicableRefactors := fun _ _ => [];
     ts.getEditsForRefactor := fun _ _ _ _ _ => Some {| ts.edits := [renameEdit] |};
     ts.getCodeFixesAtPosition := fun _ _ _ _ _ => [];
     ts.getCombinedCodeFix := fun _ _ _ => Some {| ts.combined_changes := [] |};
     ts.organizeImports := fun _ _ => Some [];
     ts.getFormattingEditsForRange := fun _ _ _ _ => None |}.

Definition organizeOnly : CodeActionContext :=
  {| lsp.diagnostics := []; only := Some [CodeActionKind.SourceOrganizeImports] |}.

(** Two diagnostics: "cannot find name" has a fix, code 9999 has none. *)
Definition diagnosticWith (c : Z) (m : string) : Diagnostic :=
  {| diag_range := wholeLine; severity := lsp.Error; message := m; tags := [];
     code := Some (CodeNumber (Some c)); source := "Vetur" |}.
Definition cannotFindName : Diagnostic := diagnosticWith 2304 "Cannot find name 'x'.".
Definition unknownProblem : Diagnostic := diagnosticWith 9999 "Something else.".

Definition importFix : ts.CodeFixAction :=
  {| ts.fix_description := "Import 'x' from module './x'";
     ts.fix_changes := [renameEdit];
     ts.fixId := Some "fixMissingImport";
     ts.fixAllDescription := Some "Add all missing imports" |}.

(** A service with a fix for code 2304. *)
Definition fixingService : ts.LanguageService :=
  {| ts.getProgram := Some Samples.program;
     ts.getSyntacticDiagnostics := fun _ => [];
     ts.getSemanticDiagnostics := fun _ => [];
     ts.getSuggestionDiagnostics := fun _ => [];
     ts.getCompletionsAtPosition := fun _ _ _ => None;
     ts.getCompletionEntryDetails := fun _ _ _ _ _ => None;
     ts.getQuickInfoAtPosition := fun _ _ => None;
     ts.getSignatureHelpItems := fun _ _ => None;
     ts.getOccurrencesAtPosition := fun _ _ => None;
     ts.getNavigationBarItems := fun _ => None;
     ts.getDefinitionAtPosition := fun _ _ => None;
     ts.getReferencesAtPosition := fun _ _ => None;
     ts.getApplicableRefactors := fun _ _ => [];
     ts.getEditsForRefactor := fun _ _ _ _ _ => None;
     ts.getCodeFixesAtPosition := fun _ _ _ codes _ =>
       if includes (Some 2304) codes then [importFix] else [];
     ts.getCombinedCodeFix := fun _ _ _ => None;
     ts.organizeImports := fun _ _ => None;
     ts.getFormattingEditsForRange := fun _ _ _ _ => None |}.

(** The navigation bar of [class A { m() {} n() {} }]: the file-level
    entry lists the class, and the class comes once more with its
    members. *)
Definition navItem (text kind : string) (start length : Z)
    (childItems : list ts.NavigationBarItem) : ts.NavigationBarItem :=
  ts.MkNavigationBarItem text kind [{| ts.start := start; ts.length := length |}]
                         childItems.
Definition methodM : ts.NavigationBarItem := navItem "m" "method" 10 6 [].
Definition methodN : ts.NavigationBarItem := navItem "n" "method" 17 6 [].
Definition classOutline : list ts.NavigationBarItem :=
  [navItem "<global>" "script" 0 25 [navItem "A" "class" 0 25 []];
   navItem "A" "class" 0 25 [methodM; methodN]].

Definition outlineService : ts.LanguageService :=
  {| ts.getProgram := Some Samples.program;
     ts.getSyntacticDiagnostics := fun _ => [];
     ts.getSemanticDiagnostics := fun _ => [];
     ts.getSuggestionDiagnostics := fun _ => [];
     ts.getCompletionsAtPosition := fun _ _ _ => None;
     ts.getCompletionEntryDetails := fun _ _ _ _ _ => None;
     ts.getQuickInfoAtPosition := fun _ _ => None;
     ts.getSignatureHelpItems := fun _ _ => None;
     ts.getOccurrencesAtPosition := fun _ _ => None;
     ts.getNavigationBarItems := fun _ => Some classOutline;
     ts.getDefinitionAtPosition := fun _ _ => None;
     ts.getReferencesAtPosition := fun _ _ => None;
     ts.getApplicableRefactors := fun _ _ => [];
     ts.getEditsForRefactor := fun _ _ _ _ _ => None;
     ts.getCodeFixesAtPosition := fun _ _ _ _ _ => [];
     ts.getCombinedCodeFix := fun _ _ _ => None;
     ts.organizeImports := fun _ _ => None;
     ts.getFormattingEditsForRange := fun _ _ _ _ => None |}.

(** The script document the host derives from [appDoc]. *)
Definition appScriptDoc : TextDocument :=
  textDocument Samples.appPath "javascript" "<template><a :b=1>".

End ModeSamples.

(** * What the further properties speak of *)
Module Behaviour.
Import ts VueInfo ComponentInfo.

(** A text without a line feed. *)
Fixpoint singleLine (s : string) : bool :=
  match s with
  | EmptyString => true
  | String c r => negb (Ascii.eqb c newline) && singleLine r
  end.

(** The names [getPropertyDecoratorNames] reads, for a member that has a
    value declaration. *)
Definition decoratorNamesOf (k : SyntaxKind.t) (property : Symbol) : list string :=
  match valueDeclaration property with
  | Some d =>
      if isKind k d then
        match declarations property with
        | d0 :: _ => map decoratorName (default [] (decorators d0))
        | [] => []
        end
      else []
  | None => []
  end.

(** The class rules as tests on one member that has a value declaration. *)
Definition decoratedAmong
    (names : list string) (k : SyntaxKind.t) (property : Symbol) : bool :=
  existsb (fun n => includes n names) (decoratorNamesOf k property).

Definition propMember (property : Symbol) : bool :=
  decoratedAmong ["Prop"; "Model"; "PropSync"] SyntaxKind.PropertyDeclaration property.

Definition dataMember (property : Symbol) : bool :=
  negb (decoratedAmong ["Prop"; "Model"; "Provide"; "ProvideReactive"; "Ref"]
          SyntaxKind.PropertyDeclaration property)
  && negb (startsWith "_" (ts.name property))
  && negb (startsWith "$" (ts.name property)).

Definition methodMember (property : Symbol) : bool :=
  negb (decoratedAmong ["Watch"] SyntaxKind.MethodDeclaration property)
  && negb (isInternalHook (ts.name property)).

(** Every member of the type has a value declaration. *)
Definition declared (t : Type_) : Prop :=
  Forall (fun p => is_Some (valueDeclaration p)) (getProperties t).

(** The fields of a child component. *)
Definition childName (c : ChildComponent) : string :=
  match c with MkChildComponent n _ _ _ => n end.
Definition childDocumentation (c : ChildComponent) : option string :=
  match c with MkChildComponent _ d _ _ => d end.
Definition childDefinition (c : ChildComponent) : option (string * TextSpan) :=
  match c with MkChildComponent _ _ d _ => d end.
Definition childInfo (c : ChildComponent) : option VueFileInfo :=
  match c with MkChildComponent _ _ _ i => i end.

(** A child component as [getComponentInfo] stores it: the three fields
    the finder reports, and the analysis of its default export, if it has
    one. *)
Definition storedAs (tsModule : T_TypeScript) (checker : TypeChecker)
    (found : InternalChildComponent) (stored : ChildComponent) : Prop :=
  childName stored = child_name found
  /\ childDocumentation stored = child_documentation found
  /\ childDefinition stored = child_definition found
  /\ match child_defaultExportNode found with
     | Some n =>
         exists i,
           analyzeDefaultExportExpr tsModule checker n = Ok i
           /\ childInfo stored = Some i
     | None => childInfo stored = None
     end.

(** The default export of the child, if any, has a type that is no
    class. *)
Definition objectChild (tsModule : T_TypeScript) (checker : TypeChecker)
    (found : InternalChildComponent) : Prop :=
  forall n,
    child_defaultExportNode found = Some n ->
    isClassType tsModule (getTypeAtLocation checker n) = false.

(** A text of white space only. *)
Fixpoint blank (s : string) : bool :=
  match s with
  | EmptyString => true
  | String c r => isWhiteSpace c && blank r
  end.

End Behaviour.

(** What the further properties of the language mode speak of. *)
Module ModeBehaviour.
Import lsp Types Javascript.

(** The document [getSourceDoc] makes of a file the program knows. *)
Definition sourceDocOf (host : Host) (program : ts.Program) (fileName : string)
    : TextDocument :=
  TextDocument_create host fileName "vue" 0
    (from_option ts.getFullText "" (ts.getSourceFile program fileName)).

Definition known (program : ts.Program) (fileName : string) : Prop :=
  is_Some (ts.getSourceFile program fileName).

(** The location of a definition or reference in a known file. *)
Definition targetLocation (host : Host) (program : ts.Program)
    (r : ts.ReferenceEntry) : Location :=
  {| loc_uri := Uri_file host (ts.ref_fileName r);
     loc_range :=
       convertRange (sourceDocOf host program (ts.ref_fileName r)) (ts.ref_textSpan r) |}.

(** The edits of one file's changes, and all the edits for one URI, in
    the order of the changes. *)
Definition editsOf (host : Host) (program : ts.Program) (change : ts.FileTextChanges)
    : list TextEdit :=
  map (textEditOf (sourceDocOf host program (ts.fileName change)))
      (ts.textChanges change).

Definition urisOf (host : Host) (changes : list ts.FileTextChanges) : list string :=
  map (fun change => Uri_file host (ts.fileName change)) changes.

Definition editsFor (host : Host) (program : ts.Program) (u : string)
    (changes : list ts.FileTextChanges) : list TextEdit :=
  flat_map (fun change =>
              if bool_decide (Uri_file host (ts.fileName change) = u)
              then editsOf host program change else [])
           changes.

(** The edits of the changes, grouped by URI. *)
Definition grouped (host : Host) (program : ts.Program)
    (changes : list ts.FileTextChanges) : gmap string (list TextEdit) :=
  list_to_map (map (fun u => (u, editsFor host program u changes))
                   (urisOf host changes)).

(** The actions of one code fix: the fix itself, to apply now, and after
    it the request to fix all of its sort, if the fix names one. *)
Definition fixActions (host : Host) (program : ts.Program)
    (fileName : string) (textRange : ts.TextRange)
    (formatSettings : ts.FormatCodeSettings) (context : CodeActionContext)
    (codeFix : ts.CodeFixAction) : list CodeAction :=
  {| title := ts.fix_description codeFix;
     kind := CodeActionKind.QuickFix;
     diagnostics := Some (lsp.diagnostics context);
     command :=
       ApplyWorkspaceEdits (ts.fix_description codeFix)
         (grouped host program (ts.fix_changes codeFix)) |}
  :: match ts.fixAllDescription codeFix, ts.fixId codeFix with
     | Some description, Some fixId =>
         if bool_decide (description <> "" /\ fixId <> "") then
           [{| title := description;
               kind := CodeActionKind.QuickFix;
               diagnostics := Some (lsp.diagnostics context);
               command :=
                 ChooseTypeScriptCodeAction description
                   {| fileName := fileName; textRange := textRange;
                      formatSettings := formatSettings;
                      arguments := CombinedCodeFix fixId |} |}]
         else []
     | _, _ => []
     end.

(** The action of one refactoring request. *)
Definition refactorAction (action : CodeActionReq) : CodeAction :=
  {| title := descriptionOf action;
     kind := CodeActionKind.Refactor;
     diagnostics := None;
     command := ChooseTypeScriptCodeAction (descriptionOf action) action |}.

(** What [getCodeActions] answers: the quick fixes, then the action to
    organize imports, then the refactorings, each sort only if the
    context allows it. *)
Definition codeActionsOf (host : Host) (program : ts.Program)
    (service : ts.LanguageService) (fileName : string) (textRange : ts.TextRange)
    (formatSettings : ts.FormatCodeSettings) (supported : gset number)
    (context : CodeActionContext) : list CodeAction :=
  let fixes :=
    ts.getCodeFixesAtPosition service fileName (ts.pos textRange) (ts.end_ textRange)
      (List.filter (has supported) (map (codeNumber host) (lsp.diagnostics context)))
      formatSettings in
  let quick :=
    if onlyAllows [CodeActionKind.QuickFix] context
    then flat_map (fixActions host program fileName textRange formatSettings context)
                  fixes
    else [] in
  let organize := provideOrganizeImports fileName textRange context formatSettings [] in
  let refactorings :=
    if onlyAllows [CodeActionKind.Refactor; CodeActionKind.RefactorExtract;
                   CodeActionKind.RefactorInline; CodeActionKind.RefactorRewrite;
                   CodeActionKind.Source] context
    then map refactorAction
             (flat_map (refactorRequests fileName textRange formatSettings)
                       (ts.getApplicableRefactors service fileName textRange))
    else [] in
  (quick ++ organize ++ refactorings)%list.

(** The program knows every file the fixes change. *)
Definition fixesKnown (program : ts.Program) (fixes : list ts.CodeFixAction) : Prop :=
  Forall (fun codeFix =>
            Forall (fun change => known program (ts.fileName change))
                   (ts.fix_changes codeFix))
         fixes.

(** Positions in document order, and a range inside another. *)
Definition before (p q : Position) : Prop :=
  line p < line q \/ (line p = line q /\ character p <= character q).

Definition within (outer inner : Range) : Prop :=
  before (range_start outer) (range_start inner)
  /\ before (range_end inner) (range_end outer).

(** The document's positions follow its offsets. *)
Definition monotone (document : TextDocument) : Prop :=
  forall a b, a <= b -> before (positionAt document a) (positionAt document b).

(** All text changes of the code actions, in order. *)
Definition textChangesOf (codeActions : list ts.CodeAction) : list ts.TextChange :=
  flat_map (fun action => flat_map ts.textChanges (ts.action_changes action))
           codeActions.

(** The edit made of a text change keeps its text, and an insertion is
    placed at or after the start of [region]. *)
Definition placedIn (region : Range) (tc : ts.TextChange) (edit : TextEdit) : Prop :=
  newText edit = ts.newText tc
  /\ (ts.length (ts.span tc) = 0 ->
      before (range_start region) (range_start (edit_range edit))).

(** A computation whose result, when it returns one, satisfies [post]. *)
Definition ensures {A} (m : M A) (post : A -> Prop) : Prop :=
  forall st a, fst (m st) = Ok a -> post a.

(** The context asks for one of the kinds [allowed], or for any kind. *)
Definition requested (allowed : list string) (context : CodeActionContext) : Prop :=
  match only context with
  | Some kinds => exists k, k ∈ kinds /\ k ∈ allowed
  | None => True
  end.

(** The kind of a code action and what the context must have asked for. *)
Definition kindHonoured (context : CodeActionContext) (a : CodeAction) : Prop :=
  (kind a = CodeActionKind.QuickFix
   /\ requested [CodeActionKind.QuickFix] context)
  \/ (kind a = CodeActionKind.SourceOrganizeImports
      /\ exists kinds,
           only context = Some kinds
           /\ (CodeActionKind.SourceOrganizeImports ∈ kinds
               \/ CodeActionKind.Source ∈ kinds))
  \/ (kind a = CodeActionKind.Refactor
      /\ requested [CodeActionKind.Refactor; CodeActionKind.RefactorExtract;
                    CodeActionKind.RefactorInline; CodeActionKind.RefactorRewrite;
                    CodeActionKind.Source] context).

(** A code action that defers its edits: its command is the request to
    compute them for [file], [range] and [settings]. *)
Definition deferredFor (file : string) (range : ts.TextRange)
    (settings : ts.FormatCodeSettings) (a : CodeAction) : Prop :=
  kind a <> CodeActionKind.QuickFix
  /\ exists args,
       command a
       = ChooseTypeScriptCodeAction (title a)
           {| fileName := file; textRange := range; formatSettings := settings;
              arguments := args |}.

(** The formatter the configuration names for the language of the
    script. *)
Definition formatterOf (cfg : Config) (scriptDoc : TextDocument) : string :=
  if String.eqb (languageId scriptDoc) "javascript"
  then defaultFormatter_js cfg else defaultFormatter_ts cfg.

(** The formatter is the one of the language service. *)
Definition builtIn (formatter : string) : Prop :=
  formatter ∉ ["none"; "prettier"; "prettier-eslint"; "prettier-tslint"].

(** The format settings of the script's language, and the options
    [format] converts. *)
Definition languageFormat (cfg : Config) (scriptDoc : TextDocument)
    : ts.FormatCodeSettings :=
  if String.eqb (languageId scriptDoc) "javascript"
  then javascript_format cfg else typescript_format cfg.

Definition convertedFormat (cfg : Config) (scriptDoc : TextDocument)
    : ts.FormatCodeSettings :=
  convertOptions (languageFormat cfg scriptDoc)
    {| tabSize := options_tabSize cfg; insertSpaces := negb (options_useTabs cfg) |}
    (if scriptInitialIndent cfg then 1 else 0).

(** Two configurations that differ at most in the format settings of the
    two languages. *)
Definition sameOptions (c1 c2 : Config) : Prop :=
  autoImport c1 = autoImport c2
  /\ defaultFormatter_js c1 = defaultFormatter_js c2
  /\ defaultFormatter_ts c1 = defaultFormatter_ts c2
  /\ scriptInitialIndent c1 = scriptInitialIndent c2
  /\ options_tabSize c1 = options_tabSize c2
  /\ options_useTabs c1 = options_useTabs c2.

(** A computation that leaves the configuration as it is. *)
Definition keepsConfig {A} (m : M A) : Prop :=
  forall st, config (snd (m st)) = config st.

(** The requests that are neither [configure] nor [format]. *)
Definition quiet (r : Request) : bool :=
  match r with
  | Configure _ | Format _ _ => false
  | _ => true
  end.

End ModeBehaviour.

(** A class component with members of every sort, and an outline, edits
    and answers of the language service for the further examples. *)
Module MoreSamples.
Import ts VueInfo ComponentInfo Samples.

Definition decoratedWith (callee call : string) (k : PlainKind) (txt : string) : Node :=
  MkNode (Plain k) txt []
         (Some [MkDecorator (node (CallExpression (ident callee) []) call [])]).
Definition member (n : string) (d : Node) : Symbol :=
  {| ts.name := n; valueDeclaration := Some d; declarations := [d];
     getDocumentationComment := [] |}.

(** [class Widget extends Vue { @Prop() title; count = 0;
    @Watch('count') onCount() {}; mounted() {}; greet() {} }] *)
Definition titleField : Node :=
  decoratedWith "Prop" "Prop()" PropertyDeclaration "@Prop() title".
Definition countField : Node := node (Plain PropertyDeclaration) "count = 0" [].
Definition onCountMethod : Node :=
  decoratedWith "Watch" "Watch('count')" MethodDeclaration
                "@Watch('count') onCount() {}".
Definition mountedMethod : Node := node (Plain MethodDeclaration) "mounted() {}" [].
Definition greetMethod : Node := node (Plain MethodDeclaration) "greet() {}" [].

Definition title : Symbol := member "title" titleField.
Definition count : Symbol := member "count" countField.
Definition onCount : Symbol := member "onCount" onCountMethod.
Definition mounted : Symbol := member "mounted" mountedMethod.
Definition greet : Symbol := member "greet" greetMethod.

(** The type comes from a compiler without [isClass]. *)
Definition widgetType : Type_ :=
  {| isClass := None; flags := 524288; objectFlags := 1; symbol := None;
     getProperties := [title; count; onCount; mounted; greet];
     getCallSignatures := [] |}.

(** [class Cart extends Vue { get total() { return 1 } set total(v) {} }]:
    in the member table of a class an accessor pair is one member, with
    both declarations; its value declaration is the first of them. *)
Definition accessorPair : Symbol :=
  {| ts.name := "total"; valueDeclaration := Some getter;
     declarations := [getter; setter]; getDocumentationComment := [] |}.
Definition cartDecl : Node :=
  node (Plain ClassDeclaration) "class Cart extends Vue {}" [].
Definition cartType : Type_ :=
  {| isClass := Some true; flags := 524288; objectFlags := 1;
     symbol := Some (member "Cart" cartDecl);
     getProperties := [accessorPair]; getCallSignatures := [] |}.

(** A class with a member that has no value declaration. *)
Definition ghost : Symbol :=
  {| ts.name := "ghost"; valueDeclaration := None; declarations := [];
     getDocumentationComment := [] |}.
Definition hauntedType : Type_ :=
  {| isClass := Some true; flags := 524288; objectFlags := 1; symbol := None;
     getProperties := [greet; ghost]; getCallSignatures := [] |}.

(** [{ props: options, data: {}, computed: list }]: no member has the
    shape its rule reads. *)
Definition looseProps : Symbol :=
  member "props" (node (Plain PropertyAssignment) "props: options"
                       [ident "props"; ident "options"]).
Definition looseData : Symbol :=
  member "data" (node (Plain PropertyAssignment) "data: {}"
                      [ident "data"; node (Plain ObjectLiteralExpression) "{}" []]).
Definition looseComputed : Symbol :=
  member "computed" (node (Plain PropertyAssignment) "computed: list"
                          [ident "computed"; ident "list"]).
Definition looseType : Type_ :=
  {| isClass := Some false; flags := 524288; objectFlags := 16; symbol := None;
     getProperties := [looseProps; looseData; looseComputed];
     getCallSignatures := [] |}.

(** Two child components: one with a default export, one without. *)
Definition children : list InternalChildComponent :=
  [{| child_name := "child-a"; child_documentation := None;
      child_definition := None;
      child_defaultExportNode := Some optionsLiteral |};
   {| child_name := "child-b"; child_documentation := Some "A child.";
      child_definition := None; child_defaultExportNode := None |}].
Definition twoChildren : ChildComponentsFinder := fun _ _ _ => Some children.

Definition emptyInfo : VueFileInfo := MkVueFileInfo None None None None None.

End MoreSamples.

(** Language services with answers, for the further examples. *)
Module MoreModeSamples.
Import lsp Types Javascript ModeSamples.

Definition serviceWith
    (program : option ts.Program)
    (completions : option ts.CompletionInfo)
    (details : option ts.CompletionEntryDetails)
    (definitions : option (list ts.ReferenceEntry))
    (outline : option (list ts.NavigationBarItem))
    (refactors : list ts.ApplicableRefactorInfo)
    (formatting : option (list ts.TextChange)) : ts.LanguageService :=
  {| ts.getProgram := program;
     ts.getSyntacticDiagnostics := fun _ => [];
     ts.getSemanticDiagnostics := fun _ => [];
     ts.getSuggestionDiagnostics := fun _ => [];
     ts.getCompletionsAtPosition := fun _ _ _ => completions;
     ts.getCompletionEntryDetails := fun _ _ _ _ _ => details;
     ts.getQuickInfoAtPosition := fun _ _ => None;
     ts.getSignatureHelpItems := fun _ _ => None;
     ts.getOccurrencesAtPosition := fun _ _ => None;
     ts.getNavigationBarItems := fun _ => outline;
     ts.getDefinitionAtPosition := fun _ _ => definitions;
     ts.getReferencesAtPosition := fun _ _ => definitions;
     ts.getApplicableRefactors := fun _ _ => refactors;
     ts.getEditsForRefactor := fun _ _ _ _ _ => None;
     ts.getCodeFixesAtPosition := fun _ _ _ _ _ => [];
     ts.getCombinedCodeFix := fun _ _ _ => None;
     ts.organizeImports := fun _ _ => None;
     ts.getFormattingEditsForRange := fun _ _ _ _ => formatting |}.

(** A service that has not built a program yet. *)
Definition idleService : ts.LanguageService :=
  serviceWith None None None None None [] None.

(** Completions: a variable, the editor's bridge and a component path. *)
Definition entry (name kind : string) : ts.CompletionEntry :=
  {| ts.entry_name := name; ts.entry_kind := kind; ts.kindModifiers := None;
     ts.sortText := "0"; ts.insertText := None; ts.replacementSpan := None;
     ts.isRecommended := false; ts.entry_source := None |}.
Definition childPath : ts.CompletionEntry := entry "./Child.vue" "script".
Definition completingService : ts.LanguageService :=
  serviceWith (Some Samples.program)
    (Some {| ts.entries := [entry "total" "var"; entry "__vueEditorBridge" "var";
                            childPath] |})
    (Some {| ts.details_displayParts :=
               [{| ts.part_text := "const total: number"; ts.part_kind := "text" |}];
             ts.details_documentation := [];
             ts.codeActions := None |})
    None None [] None.

(** The item [doComplete] makes of the variable, at offset 5. *)
Definition totalItem : CompletionItem :=
  completionItemOf (hostOf completingService) appDoc appScriptDoc (at_ 5) 5
    (entry "total" "var").

(** Definitions: one in the sample file, one in a file the program does
    not know. *)
Definition inApp : ts.ReferenceEntry :=
  {| ts.ref_fileName := Samples.appPath;
     ts.ref_textSpan := {| ts.start := 6; ts.length := 1 |};
     ts.isWriteAccess := false |}.
Definition inMissing : ts.ReferenceEntry :=
  {| ts.ref_fileName := "/app/Missing.vue";
     ts.ref_textSpan := {| ts.start := 0; ts.length := 1 |};
     ts.isWriteAccess := false |}.
Definition definingService : ts.LanguageService :=
  serviceWith (Some Samples.program) None None (Some [inApp; inApp]) None [] None.
Definition strayService : ts.LanguageService :=
  serviceWith (Some Samples.program) None None (Some [inApp; inMissing]) None [] None.

(** Changes to two files, the first file changed twice. *)
Definition change (file : string) (start : Z) (text : string) : ts.FileTextChanges :=
  {| ts.fileName := file;
     ts.textChanges := [{| ts.span := {| ts.start := start; ts.length := 0 |};
                           ts.newText := text |}] |}.
Definition threeChanges : list ts.FileTextChanges :=
  [change Samples.appPath 1 "a"; change "/app/Helper.vue" 2 "b";
   change Samples.appPath 3 "c"].

(** An outline whose class has a member without a span. *)
Definition spanlessOutline : list ts.NavigationBarItem :=
  [navItem "A" "class" 0 25 [methodM; ts.MkNavigationBarItem "n" "method" [] []]].
Definition spanlessService : ts.LanguageService :=
  serviceWith (Some Samples.program) None None None (Some spanlessOutline) [] None.

(** Refactorings: one that is inlineable, one with two actions. *)
Definition refactors : list ts.ApplicableRefactorInfo :=
  [{| ts.refactor_name := "Convert export"; ts.refactor_description := "Convert export";
      ts.inlineable := true; ts.actions := [] |};
   {| ts.refactor_name := "Extract Symbol"; ts.refactor_description := "Extract";
      ts.inlineable := false;
      ts.actions :=
        [{| ts.refactor_action_name := "constant_scope_0";
            ts.refactor_action_description := "Extract to constant" |};
         {| ts.refactor_action_name := "function_scope_0";
            ts.refactor_action_description := "Extract to function" |}] |}].
Definition refactorOnly : CodeActionContext :=
  {| lsp.diagnostics := []; only := Some [CodeActionKind.Refactor] |}.
Definition suggestingService : ts.LanguageService :=
  serviceWith (Some Samples.program) None None None None refactors None.

(** The formatter of the language service, and edits inside and outside
    the range [wholeLine]. *)
Definition nativeCfg : Config :=
  {| autoImport := true;
     defaultFormatter_js := "vscode-typescript";
     defaultFormatter_ts := "vscode-typescript";
     scriptInitialIndent := true; options_tabSize := 4; options_useTabs := false;
     javascript_format := settings; typescript_format := settings |}.
Definition edit (start length : Z) (text : string) : ts.TextChange :=
  {| ts.span := {| ts.start := start; ts.length := length |}; ts.newText := text |}.
Definition formattingService : ts.LanguageService :=
  serviceWith (Some Samples.program) None None None None []
    (Some [edit 3 2 " "; edit 38 5 ""; edit 40 0 ";"]).

(** A context that names the fixable diagnostic and no kinds. *)
Definition anyKind : CodeActionContext :=
  {| lsp.diagnostics := [cannotFindName]; only := None |}.

(** The code action of an automatic import: an insertion at the very
    start of the file, and a replacement further on. *)
Definition importAction : ts.CodeAction :=
  {| ts.action_description := "Import 'x' from module './x'";
     ts.action_changes :=
       [{| ts.fileName := Samples.appPath;
           ts.textChanges := [edit 0 0 "import x from './x'"; edit 12 1 "x"] |}] |}.

End MoreModeSamples.

(** * Properties *)

(** ** The default export node *)
Section DefaultExport.
Import ts VueInfo ComponentInfo.

Lemma filter_none {A} (p : A -> bool) (l : list A) :
  Forall (fun x => p x = false) l -> List.filter p l = [].
Proof.
  induction 1 as [|x l Hx _ IH]; simpl; [done|]. by rewrite Hx.
Qed.

(** The head of the filtered list is the first element that passes. *)
Lemma filter_first {A} (p : A -> bool) (pre post : list A) (x : A) :
  Forall (fun y => p y = false) pre -> p x = true ->
  List.filter p (pre ++ x :: post) = x :: List.filter p post.
Proof.
  intros Hpre Hx. rewrite List.filter_app, (filter_none _ _ Hpre). simpl.
  by rewrite Hx.
Qed.

Lemma getDefaultExportNode_first (sf : SourceFile) pre st post :
  statements sf = (pre ++ st :: post)%list ->
  Forall (fun s => isExportStmt s = false) pre ->
  isExportStmt st = true ->
  getDefaultExportNode sf = getNodeFromExportNode (exportNodeOf st).
Proof.
  intros Hst Hpre Hx. unfold getDefaultExportNode.
  by rewrite Hst, (filter_first _ _ _ _ Hpre Hx).
Qed.

Lemma getDefaultExportNode_none (sf : SourceFile) :
  Forall (fun s => isExportStmt s = false) (statements sf) ->
  getDefaultExportNode sf = None.
Proof.
  intros H. unfold getDefaultExportNode. by rewrite (filter_none _ _ H).
Qed.

Lemma getComponentInfo_node tsModule finder service file casing program sf :
  getProgram service = Some program ->
  getSourceFile program file = Some sf ->
  getComponentInfo tsModule finder service file casing =
    match getDefaultExportNode sf with
    | None => Ok None
    | Some n =>
        i ← analyzeDefaultExportExpr tsModule (getTypeChecker program) n;
        i' ← attachChildComponents tsModule finder (getTypeChecker program) casing n i;
        mret (Some i')
    end.
Proof. intros Hp Hsf. unfold getComponentInfo. by rewrite Hp, Hsf. Qed.

Lemma isExportStmt_exportsDefault (st : Node) :
  isExportStmt st = true <-> Spec.exportsDefault st.
Proof.
  unfold isExportStmt, isKind, Spec.exportsDefault.
  by rewrite orb_true_iff, !bool_decide_eq_true.
Qed.

Lemma no_exportsDefault (l : list Node) :
  Forall (fun s => ~ Spec.exportsDefault s) l ->
  Forall (fun s => isExportStmt s = false) l.
Proof.
  intros Hl. eapply Forall_impl; [exact Hl|]. intros st Hst.
  apply not_true_is_false. by rewrite isExportStmt_exportsDefault.
Qed.

(** C5: the default export node comes from the first top-level statement
    that is an export assignment or a class declaration, and it is the
    node [getComponentInfo] analyses.  A class declaration is that node
    itself; an export assignment gives its expression when that is an
    object literal or a class declaration, the first argument when it is
    a call (no node when the call has no argument), and no node
    otherwise.  In a file with no such statement
    there is no default export node, and [getComponentInfo] returns
    [undefined]: no props, data, computed or methods. *)
Theorem default_export_from_first_statement
    tsModule finder service file casing program sf :
  getProgram service = Some program ->
  getSourceFile program file = Some sf ->
  let analysis (n : Node) : Res (option VueFileInfo) :=
    i ← analyzeDefaultExportExpr tsModule (getTypeChecker program) n;
    i' ← attachChildComponents tsModule finder (getTypeChecker program) casing n i;
    mret (Some i') in
  (forall st,
      Spec.firstExport sf st ->
      (kind st = SyntaxKind.ClassDeclaration ->
       getDefaultExportNode sf = Some st
       /\ getComponentInfo tsModule finder service file casing = analysis st)
      /\ (forall e,
            shape st = ExportAssignment e ->
            (kind e = SyntaxKind.ObjectLiteralExpression
             \/ kind e = SyntaxKind.ClassDeclaration ->
             getDefaultExportNode sf = Some e
             /\ getComponentInfo tsModule finder service file casing = analysis e)
            /\ (forall callee args,
                  shape e = CallExpression callee args ->
                  getDefaultExportNode sf = args !! 0%nat
                  /\ getComponentInfo tsModule finder service file casing
                     = match args !! 0%nat with
                       | Some arg => analysis arg
                       | None => Ok None
                       end)
            /\ (kind e <> SyntaxKind.CallExpression ->
                kind e <> SyntaxKind.ObjectLiteralExpression ->
                kind e <> SyntaxKind.ClassDeclaration ->
                getDefaultExportNode sf = None
                /\ getComponentInfo tsModule finder service file casing = Ok None)))
  /\ (Forall (fun s => ~ Spec.exportsDefault s) (statements sf) ->
      getDefaultExportNode sf = None
      /\ getComponentInfo tsModule finder service file casing = Ok None).
Proof.
  intros Hp Hsf analysis.
  pose proof (getComponentInfo_node tsModule finder service file casing program sf
                Hp Hsf) as Hinfo.
  fold analysis in Hinfo.
  split.
  - intros st (pre & post & Hst & Hpre & Hfirst).
    apply no_exportsDefault in Hpre.
    apply isExportStmt_exportsDefault in Hfirst.
    pose proof (getDefaultExportNode_first sf pre st post Hst Hpre Hfirst) as Hnode.
    rewrite Hinfo, Hnode. clear Hinfo Hnode. split.
    + intros Hclass.
      assert (shape st = Plain ClassDeclaration) as Hshape.
      { unfold kind in Hclass. destruct (shape st) as [| | | |[]]; by try discriminate. }
      unfold exportNodeOf. rewrite Hshape. unfold getNodeFromExportNode.
      by rewrite Hshape.
    + intros e Hshape. unfold exportNodeOf. rewrite Hshape.
      unfold getNodeFromExportNode. split; [|split].
      * intros He.
        assert (shape e = Plain ObjectLiteralExpression
                \/ shape e = Plain ClassDeclaration) as [->| ->]; [|done..].
        unfold kind in He.
        destruct He as [He|He]; destruct (shape e) as [| | | |[]];
          try discriminate He; (by left) || (by right).
      * intros callee args ->. by destruct (args !! 0%nat).
      * intros Hcall Hobject Hclass. unfold kind in *.
        destruct (shape e) as [| | | |[]]; done.
  - intros Hnone. apply no_exportsDefault in Hnone.
    rewrite Hinfo. by rewrite (getDefaultExportNode_none _ Hnone).
Qed.

(** C10, as the code has it: the export assignment must be the first
    statement among export assignments and class declarations.  Then a
    call expression hands its first argument to the analysis, and an
    exported expression that is no call, object literal or class
    declaration leaves no default export node and no metadata. *)
Theorem export_assignment_call_argument
    tsModule finder service file casing program sf pre st e post :
  getProgram service = Some program ->
  getSourceFile program file = Some sf ->
  statements sf = (pre ++ st :: post)%list ->
  Forall (fun s => isExportStmt s = false) pre ->
  shape st = ExportAssignment e ->
  (forall callee args,
      shape e = CallExpression callee args ->
      getDefaultExportNode sf = args !! 0%nat
      /\ getComponentInfo tsModule finder service file casing =
           match args !! 0%nat with
           | None => Ok None
           | Some arg =>
               i ← analyzeDefaultExportExpr tsModule (getTypeChecker program) arg;
               i' ← attachChildComponents tsModule finder (getTypeChecker program)
                      casing arg i;
               mret (Some i')
           end)
  /\ (kind e <> SyntaxKind.CallExpression ->
      kind e <> SyntaxKind.ObjectLiteralExpression ->
      kind e <> SyntaxKind.ClassDeclaration ->
      getDefaultExportNode sf = None
      /\ getComponentInfo tsModule finder service file casing = Ok None).
Proof.
  intros Hp Hsf Hst Hpre Hshape.
  assert (Hnode : getDefaultExportNode sf = getNodeFromExportNode e).
  { rewrite (getDefaultExportNode_first sf pre st post Hst Hpre).
    - unfold exportNodeOf. by rewrite Hshape.
    - unfold isExportStmt, isKind, kind. by rewrite Hshape. }
  rewrite (getComponentInfo_node _ _ _ _ _ _ _ Hp Hsf), Hnode.
  split.
  - intros callee args He. unfold getNodeFromExportNode. rewrite He. done.
  - intros Hcall Hobj Hclass.
    assert (getNodeFromExportNode e = None) as ->; [|done].
    unfold getNodeFromExportNode. unfold kind in *.
    destruct (shape e) as [| | | |[]]; simpl in *; congruence.
Qed.

Import Samples.

(** Two sample files: in one the export assignment of a call follows an
    import, in the other a class declaration comes before it. *)
Lemma default_export_from_first_statement_witness :
  getDefaultExportNode appFile = Some optionsLiteral
  /\ getDefaultExportNode helperFile = Some helperClass
  /\ getComponentInfo tsModule noChildren service "/app/Helper.vue" "kebab"
     = (i ← analyzeDefaultExportExpr tsModule checker helperClass;
        i' ← attachChildComponents tsModule noChildren checker "kebab" helperClass i;
        mret (Some i')).
Proof.
  split.
  - refine (proj1 (proj1 (proj2 (proj2 (proj1
              (default_export_from_first_statement
                 tsModule noChildren service appPath "kebab" program appFile
                 eq_refl eq_refl)
              exportStmt _) extendCall eq_refl))
            (ident "Vue.extend") [optionsLiteral] eq_refl)).
    exists [importStmt], []. split; [reflexivity|]. split; [|by left].
    apply Forall_singleton. intros [Hkind|Hkind]; discriminate Hkind.
  - refine (proj1 (proj1 (default_export_from_first_statement
                            tsModule noChildren service "/app/Helper.vue" "kebab"
                            program helperFile eq_refl eq_refl)
                     helperClass _) eq_refl).
    exists [importStmt], [exportStmt]. split; [reflexivity|]. split; [|by right].
    apply Forall_singleton. intros [Hkind|Hkind]; discriminate Hkind.
Defined.

(** A class declaration that precedes the export assignment is taken as
    the default export, not the call's first argument. *)
Lemma class_declaration_precedes_export_assignment :
  statements helperFile = [importStmt; helperClass; exportStmt]
  /\ shape exportStmt = ExportAssignment extendCall
  /\ shape extendCall = CallExpression (ident "Vue.extend") [optionsLiteral]
  /\ getDefaultExportNode helperFile = Some helperClass
  /\ getDefaultExportNode helperFile <> Some optionsLiteral.
Proof. repeat split; try reflexivity. discriminate. Qed.

Lemma export_assignment_call_argument_witness :
  getDefaultExportNode appFile = Some optionsLiteral
  /\ getDefaultExportNode identFile = None
  /\ getComponentInfo tsModule noChildren service "/app/Ident.vue" "kebab" = Ok None.
Proof.
  split.
  - refine (proj1 (proj1 (export_assignment_call_argument
                    tsModule noChildren service appPath "kebab" program appFile
                    [importStmt] exportStmt extendCall []
                    eq_refl eq_refl eq_refl _ eq_refl)
                 (ident "Vue.extend") [optionsLiteral] eq_refl)).
    repeat constructor.
  - refine (proj2 (export_assignment_call_argument
                    tsModule noChildren service "/app/Ident.vue" "kebab" program identFile
                    [importStmt] exportIdent (ident "options") []
                    eq_refl eq_refl eq_refl _ eq_refl) _ _ _);
      [repeat constructor | discriminate..].
Defined.

End DefaultExport.

(** ** The model at work *)
Section Runs.
Import ts VueInfo ComponentInfo Samples.

(** The continuation lines lose the indentation of the last line. *)
Example formatJSLikeDocumentation_deindents :
  formatJSLikeDocumentation
    ("foo() {" +:+ NL +:+ "      return 1" +:+ NL +:+ "    }")
  = "foo() {" +:+ NL +:+ "  return 1" +:+ NL +:+ "}".
Proof. reflexivity. Qed.

(** A last line of white space only gives [-1]: each line keeps its last
    character. *)
Example formatJSLikeDocumentation_blank_last_line :
  formatJSLikeDocumentation ("ab" +:+ NL +:+ "cd" +:+ NL +:+ "  ")
  = "ab" +:+ NL +:+ "d" +:+ NL +:+ " ".
Proof. reflexivity. Qed.

Example analysis_of_the_sample_component :
  getComponentInfo tsModule noChildren service appPath "kebab"
  = Ok (Some (MkVueFileInfo None
                (Some [{| VueInfo.name := "a"; documentation := None |};
                       {| VueInfo.name := "b"; documentation := None |}])
                None None None)).
Proof. reflexivity. Qed.

Example computed_of_the_sample_class :
  getComputed tsModule checker classType
  = Ok (Some [{| VueInfo.name := "total";
                 documentation :=
                   Some (NL +:+ "```js" +:+ NL +:+ "get total() { return 1 }" +:+ NL
                         +:+ "```" +:+ NL +:+ NL +:+ "```js" +:+ NL
                         +:+ "set total(v) {}" +:+ NL +:+ "```" +:+ NL) |}]).
Proof. reflexivity. Qed.

End Runs.

(** ** Members of the component *)
Section Members.
Import ts VueInfo ComponentInfo Spec.

Lemma filterM_ok {A} (p : A -> Res bool) (q : A -> bool) (l : list A) :
  Forall (fun x => p x = Ok (q x)) l -> filterM p l = Ok (List.filter q l).
Proof.
  induction 1 as [|x l Hx _ IH]; simpl; [done|].
  rewrite Hx, IH. simpl. by destruct (q x).
Qed.

Lemma literalTexts_filter elements :
  map stringLiteralText (List.filter (isKind SyntaxKind.StringLiteral) elements)
  = literalTexts elements.
Proof.
  induction elements as [|e rest IH]; simpl; [done|].
  unfold isKind at 1, kind.
  destruct (shape e) as [| | | |[]] eqn:He; simpl;
    try case_bool_decide; try congruence; simpl;
    unfold stringLiteralText at 1; rewrite ?He, ?IH; done.
Qed.

(** C8: an object-literal default export whose [props] is declared as an
    array literal has one prop per string-literal element, named by the
    literal's text, without documentation, in element order; the other
    elements give nothing; with no string literal the result is
    [undefined], not an empty list, and nothing is thrown. *)
Theorem array_props_are_the_string_literals
    tsModule checker t propsSymbol vd arr elements :
  isClassType tsModule t = false ->
  getPropertyOfType checker t "props" = Some propsSymbol ->
  valueDeclaration propsSymbol = Some vd ->
  getLastChild vd = Some arr ->
  shape arr = ArrayLiteralExpression elements ->
  getProps tsModule checker t =
    Ok (match literalTexts elements with
        | [] => None
        | texts => Some (map undocumented texts)
        end).
Proof.
  intros Hclass Hsym Hvd Hlast Harr.
  unfold getProps, getClassAndObjectInfo, getObjectProps.
  rewrite Hclass, Hsym, Hvd, Hlast, Harr. simpl.
  rewrite <- literalTexts_filter.
  destruct (List.filter _ elements) as [|e l]; simpl; [done|].
  by rewrite map_map.
Qed.

Lemma append_empty_r (s : string) : s +:+ "" = s.
Proof.
  induction s as [|c s IH]; [done|].
  change (String c s +:+ "") with (String c (s +:+ "")). by rewrite IH.
Qed.

Lemma find_first {A} (p : A -> bool) (pre post : list A) (x : A) :
  Forall (fun y => p y = false) pre -> p x = true ->
  List.find p (pre ++ x :: post) = Some x.
Proof.
  induction 1 as [|y pre Hy _ IH]; intros Hx; simpl.
  - by rewrite Hx.
  - rewrite Hy. by apply IH.
Qed.

Lemma find_split {A} (p : A -> bool) (l : list A) (x : A) :
  List.find p l = Some x ->
  exists pre post,
    l = (pre ++ x :: post)%list /\ Forall (fun y => p y = false) pre /\ p x = true.
Proof.
  induction l as [|y l IH]; simpl; [done|].
  destruct (p y) eqn:Hy.
  - intros [= ->]. by exists [], l.
  - intros Hfind. destruct (IH Hfind) as (pre & post & -> & Hpre & Hx).
    exists (y :: pre), post. repeat split; [|done]. by constructor.
Qed.






Lemma getObjectMembers_total checker key t :
  exists r, getObjectMembers checker key t = Ok r.
Proof.
  unfold getObjectMembers. repeat case_match; eauto.
Qed.

Lemma same_name_same_member (l : list Symbol) (x y : Symbol) :
  NoDup (map ts.name l) -> x ∈ l -> y ∈ l -> ts.name x = ts.name y -> x = y.
Proof.
  induction l as [|z l IH]; intros Hnd Hx Hy Hname; [by apply elem_of_nil in Hx|].
  cbn [map] in Hnd. apply NoDup_cons in Hnd as [Hz Hnd].
  apply elem_of_cons in Hx as [->|Hx]; apply elem_of_cons in Hy as [->|Hy].
  - done.
  - exfalso. apply Hz. rewrite Hname. by apply list_elem_of_fmap_2.
  - exfalso. apply Hz. rewrite <- Hname. by apply list_elem_of_fmap_2.
  - by apply IH.
Qed.




Lemma decoratorName_call callNode callee args :
  shape callNode = CallExpression callee args ->
  decoratorName (MkDecorator callNode) = getText callee.
Proof. intros H. unfold decoratorName. simpl. by rewrite H. Qed.

Lemma decorator_argument_found checker t sym d0 rest arg :
  symbol t = Some sym ->
  declarations sym = d0 :: rest ->
  ComponentDecoratorArgument d0 arg ->
  getComponentDecoratorArgumentType checker t
    = Ok (Some (getTypeAtLocation checker arg)).
Proof.
  intros Hsym Hdecl [pre callNode callee more post Hd Hpre Hcall Hname].
  unfold getComponentDecoratorArgumentType.
  rewrite Hsym. simpl. rewrite Hdecl. simpl. rewrite Hd.
  assert (Hfind : List.find (fun el => String.eqb (decoratorName el) "Component")
                    (pre ++ MkDecorator callNode :: post)
                  = Some (MkDecorator callNode)).
  { apply find_first.
    - eapply Forall_impl; [exact Hpre|]. intros x Hx. by apply String.eqb_neq.
    - apply String.eqb_eq. by rewrite (decoratorName_call _ _ _ Hcall). }
  destruct (pre ++ MkDecorator callNode :: post)%list eqn:Hl.
  { by destruct pre. }
  rewrite Hfind. simpl. by rewrite Hcall.
Qed.

Lemma decorator_argument_missing checker t sym d0 rest :
  symbol t = Some sym ->
  declarations sym = d0 :: rest ->
  ~ (exists arg, ComponentDecoratorArgument d0 arg) ->
  getComponentDecoratorArgumentType checker t = Ok None.
Proof.
  intros Hsym Hdecl Hnone. unfold getComponentDecoratorArgumentType.
  rewrite Hsym. simpl. rewrite Hdecl. simpl.
  destruct (decorators d0) as [[|d ds]|] eqn:Hd; [done| |done].
  destruct (List.find _ (d :: ds)) as [[callNode]|] eqn:Hfind; [|done].
  simpl. destruct (shape callNode) as [|callee [|arg more]| | |] eqn:Hshape; try done.
  exfalso. apply Hnone. exists arg.
  destruct (find_split _ _ _ Hfind) as (pre & post & Hl & Hpre & Hx).
  apply String.eqb_eq in Hx. rewrite (decoratorName_call _ _ _ Hshape) in Hx.
  econstructor; [by rewrite Hd, Hl| |exact Hshape|exact Hx].
  eapply Forall_impl; [exact Hpre|]. intros x. by apply String.eqb_neq.
Qed.

Lemma extractor_unfold tsModule checker c t :
  extractor tsModule checker c t =
    (result ← getClassAndObjectInfo tsModule checker t
               (classRule t c) (objectRule checker c);
     mret (nonEmpty result)).
Proof. by destruct c. Qed.

(** C4, as the code has it: for a class-shaped default export every
    category extractor appends the object-literal rule's members, read
    from the type of the first argument of the class-level decorator
    named [Component], after the class rule's members; it does so
    whenever that decorator is a call with an argument, whatever kind of
    expression the argument is, and only then. *)
Theorem class_members_then_decorator_members
    tsModule checker t sym d0 rest (c : Category) :
  isClassType tsModule t = true ->
  symbol t = Some sym ->
  declarations sym = d0 :: rest ->
  (forall arg,
      ComponentDecoratorArgument d0 arg ->
      extractor tsModule checker c t =
        (fromClass ← classRule t c t;
         fromObject ← objectRule checker c (getTypeAtLocation checker arg);
         mret (nonEmpty (orEmpty fromClass ++ orEmpty fromObject)%list)))
  /\ (~ (exists arg, ComponentDecoratorArgument d0 arg) ->
      extractor tsModule checker c t =
        (fromClass ← classRule t c t;
         mret (nonEmpty (orEmpty fromClass)))).
Proof.
  intros Hclass Hsym Hdecl. rewrite extractor_unfold.
  unfold getClassAndObjectInfo. rewrite Hclass. split.
  - intros arg Harg.
    rewrite (decorator_argument_found checker t sym d0 rest arg Hsym Hdecl Harg).
    destruct (classRule t c t) as [fromClass|]; simpl; [|done].
    by destruct (objectRule checker c _).
  - intros Hnone.
    rewrite (decorator_argument_missing checker t sym d0 rest Hsym Hdecl Hnone).
    by destruct (classRule t c t).
Qed.

Import Samples.

Lemma array_props_are_the_string_literals_witness :
  getProps tsModule checker optionsType
  = Ok (Some [undocumented "a"; undocumented "b"]).
Proof.
  apply (array_props_are_the_string_literals
           tsModule checker optionsType propsSymbol propsAssignment propsArray
           [str "a"; ident "x"; str "b"]
           eq_refl eq_refl eq_refl eq_refl eq_refl).
Defined.


(** C7: the class [Cart] declares a get accessor and a set accessor of
    the name [total]; they are one member, whose value declaration is
    the get accessor.  [getComputed] gives one entry for it, and the
    entry's documentation is the getter's alone: the setter's is not
    appended, since no member has a set accessor as value declaration. *)
Theorem accessor_pair_documents_the_getter_only :
  getProperties MoreSamples.cartType = [MoreSamples.accessorPair]
  /\ declarations MoreSamples.accessorPair = [getter; setter]
  /\ valueDeclaration MoreSamples.accessorPair = Some getter
  /\ isClassType tsModule MoreSamples.cartType = true
  /\ getComputed tsModule checker MoreSamples.cartType
     = Ok (Some [{| VueInfo.name := "total";
                    documentation := Some (buildDocumentation totalGet) |}])
  /\ buildDocumentation totalGet
     <> buildDocumentation totalGet +:+ buildDocumentation totalSet.
Proof. repeat split. vm_compute. discriminate. Qed.

(** The decorator's first argument is the identifier [opts], no object
    literal, and its props are merged all the same. *)
Lemma identifier_argument_is_merged :
  isClassType tsModule classType = true
  /\ decorators classDecl = Some [MkDecorator componentCall]
  /\ shape componentCall = CallExpression (ident "Component") [ident "opts"]
  /\ kind (ident "opts") <> SyntaxKind.ObjectLiteralExpression
  /\ getClassProps classType = Ok None
  /\ getProps tsModule checker classType
     = Ok (Some [undocumented "a"; undocumented "b"]).
Proof. repeat split; try reflexivity. discriminate. Qed.

Lemma class_members_then_decorator_members_witness :
  extractor tsModule checker Computed classType =
    (fromClass ← getClassComputed classType classType;
     fromObject ← getObjectComputed checker optionsType;
     mret (nonEmpty (orEmpty fromClass ++ orEmpty fromObject)%list)).
Proof.
  apply (proj1 (class_members_then_decorator_members
                  tsModule checker classType classSymbol classDecl [] Computed
                  eq_refl eq_refl eq_refl)
               (ident "opts")).
  by apply (component_argument classDecl (ident "opts")
              [] componentCall (ident "Component") [] []).
Defined.

End Members.

(** ** The language mode's operations *)
Section Operations.
Import lsp Types Javascript ModeSpec.

Variable host : Host.

Lemma bind_run {A B} (m : M A) (f : A -> M B) (st : ModeState) :
  (m ≫= f) st =
    match m st with
    | (Ok a, st') => f a st'
    | (Throw, st') => (Throw, st')
    end.
Proof. reflexivity. Qed.

Lemma languageServiceIncludesFile_run service documentUri program st :
  ts.getProgram service = Some program ->
  languageServiceIncludesFile host service documentUri st
  = (Ok (includes (getFilePath host documentUri) (ts.getRootFileNames program)),
     logged GetProgram st).
Proof.
  intros Hp. unfold languageServiceIncludesFile.
  rewrite bind_run. unfold query. rewrite Hp. reflexivity.
Qed.

Lemma includes_false `{EqDecision A} (x : A) (l : list A) :
  x ∉ l -> includes x l = false.
Proof. intros H. unfold includes. by apply bool_decide_eq_false. Qed.

(** What every guarded operation does first, when the file is no root
    file: ask for the program, and stop. *)
Lemma not_included_run service documentUri program st :
  ts.getProgram service = Some program ->
  getFilePath host documentUri ∉ ts.getRootFileNames program ->
  languageServiceIncludesFile host service documentUri st
  = (Ok false, logged GetProgram st).
Proof.
  intros Hp Hnot. rewrite (languageServiceIncludesFile_run _ _ _ _ Hp).
  by rewrite (includes_false _ _ Hnot).
Qed.

(** C1, as the code has it: the nine operations that test root-file
    membership ([doValidation], [doComplete], [doResolve], [doHover],
    [doSignatureHelp], [findDocumentHighlight], [findDocumentSymbols],
    [findDefinition], [findReferences]) return their neutral result
    and do not throw when the service has a program whose root files do
    not contain the document's path; the only request they make is the
    one for the program. *)
Theorem guarded_operations_are_neutral doc scriptDoc service program st :
  updateCurrentVueTextDocument host doc = (scriptDoc, service) ->
  ts.getProgram service = Some program ->
  getFilePath host (uri doc) ∉ ts.getRootFileNames program ->
  doValidation host doc st = (Ok [], logged GetProgram st)
  /\ (forall position,
        doComplete host doc position st
        = (Ok {| isIncomplete := false; items := [] |}, logged GetProgram st))
  /\ (forall item, doResolve host doc item st = (Ok item, logged GetProgram st))
  /\ (forall position,
        doHover host doc position st
        = (Ok {| hover_range := None; contents := [] |}, logged GetProgram st))
  /\ (forall position,
        doSignatureHelp host doc position st
        = (Ok (NULL_SIGNATURE host), logged GetProgram st))
  /\ (forall position,
        findDocumentHighlight host doc position st = (Ok [], logged GetProgram st))
  /\ findDocumentSymbols host doc st = (Ok [], logged GetProgram st)
  /\ (forall position,
        findDefinition host doc position st = (Ok [], logged GetProgram st))
  /\ (forall position,
        findReferences host doc position st = (Ok [], logged GetProgram st)).
Proof.
  intros Hupd Hp Hnot.
  pose proof (not_included_run service (uri doc) program st Hp Hnot) as Hrun.
  unfold doValidation, doComplete, doResolve, doHover, doSignatureHelp,
    findDocumentHighlight, findDocumentSymbols, findDefinition, findReferences.
  rewrite Hupd.
  repeat split; intros; rewrite bind_run, Hrun; reflexivity.
Qed.

(** C3, as the code has it: when the service has a program and the
    character just before the cursor is [<], [*] or [:], [doComplete]
    returns the empty, complete list, and the service is not asked for
    completions: the program that the root-file test reads is its only
    request. *)
Theorem trigger_character_suppresses_completion
    doc position scriptDoc service program c st :
  updateCurrentVueTextDocument host doc = (scriptDoc, service) ->
  ts.getProgram service = Some program ->
  charAt (getText doc) (offsetAt scriptDoc position - 1) = Some c ->
  c ∈ ["<"; "*"; ":"] ->
  doComplete host doc position st
  = (Ok {| isIncomplete := false; items := [] |}, logged GetProgram st).
Proof.
  intros Hupd Hp Hchar Hc. unfold doComplete. rewrite Hupd, bind_run.
  rewrite (languageServiceIncludesFile_run _ _ _ _ Hp).
  destruct (includes _ (ts.getRootFileNames program)); simpl; [|done].
  rewrite Hchar.
  assert (includes (Some c) [Some "<"; Some "*"; Some ":"] = true) as ->; [|done].
  unfold includes. apply bool_decide_eq_true.
  change (Some c ∈ Some <$> ["<"; "*"; ":"]).
  apply list_elem_of_fmap. by exists c.
Qed.

Lemma createUriMappingForEdits_nil service st :
  createUriMappingForEdits host [] service st = (Ok ∅, logged GetProgram st).
Proof. reflexivity. Qed.

(** C2, as the code has it: a refactor request whose edits the service
    reports as absent is answered with a command that carries the empty
    map, and nothing is thrown; so is a combined-fix or organize-imports
    request whose result carries no changes.  (The results of the
    latter two are read without a test for absence.) *)
Theorem absent_refactor_edits_give_empty_map doc scriptDoc service req st :
  updateCurrentVueTextDocument host doc = (scriptDoc, service) ->
  (forall refactorName actionName description,
      arguments req = RefactorAction refactorName actionName description ->
      ts.getEditsForRefactor service (fileName req) (formatSettings req)
        (textRange req) refactorName actionName = None ->
      getCodeActionEdits host doc req st
      = (Ok (ApplyWorkspaceEdits "" ∅),
         logged (GetEditsForRefactor (fileName req) refactorName actionName) st))
  /\ (forall fixId,
        arguments req = CombinedCodeFix fixId ->
        ts.getCombinedCodeFix service (fileName req) fixId (formatSettings req)
          = Some {| ts.combined_changes := [] |} ->
        fst (getCodeActionEdits host doc req st) = Ok (ApplyWorkspaceEdits "" ∅))
  /\ (arguments req = OrganizeImports ->
      ts.organizeImports service (fileName req) (formatSettings req) = Some [] ->
      fst (getCodeActionEdits host doc req st) = Ok (ApplyWorkspaceEdits "" ∅)).
Proof.
  intros Hupd. unfold getCodeActionEdits. rewrite Hupd. repeat split.
  - intros refactorName actionName description -> Hnone.
    rewrite bind_run. unfold query. by rewrite Hnone.
  - intros fixId -> Hsome. rewrite bind_run. unfold query. by rewrite Hsome.
  - intros -> Hsome. rewrite bind_run. unfold query. by rewrite Hsome.
Qed.

End Operations.

Section OperationExamples.
Import lsp Types Javascript ModeSpec ModeSamples.

Lemma guarded_operations_are_neutral_witness :
  doValidation host otherDoc (initialState cfg)
    = (Ok [], logged GetProgram (initialState cfg))
  /\ findDocumentSymbols host otherDoc (initialState cfg)
    = (Ok [], logged GetProgram (initialState cfg)).
Proof.
  destruct (guarded_operations_are_neutral host otherDoc
              (textDocument "/app/Other.vue" "javascript" "const x = 1")
              Samples.service Samples.program (initialState cfg)
              eq_refl eq_refl)
    as (Hvalidate & _ & _ & _ & _ & _ & Hsymbols & _).
  - vm_compute. intros H. inversion H as [|? ? ? H']; inversion H'.
  - split; [exact Hvalidate | exact Hsymbols].
Defined.

(** The three operations without the root-file test, on a document that
    is no root file: [getCodeActions] offers an action, [format] returns
    the formatter's edit, [getCodeActionEdits] returns edits for a file. *)
Lemma unguarded_operations_answer_for_other_files :
  (getFilePath host (uri otherDoc) ∉ ts.getRootFileNames Samples.program)
  /\ (exists action,
        fst (getCodeActions host otherDoc wholeLine organizeOnly (initialState cfg))
        = Ok [action])
  /\ (exists edit, fst (format host otherDoc wholeLine (initialState cfg)) = Ok [edit])
  /\ (exists changes edit,
        fst (getCodeActionEdits (hostOf refactoringService) otherDoc
               (request (RefactorAction "extract" "constant" "Extract constant"))
               (initialState cfg))
        = Ok (ApplyWorkspaceEdits "" changes)
        /\ changes !! "file:///app/App.vue" = Some [edit]).
Proof.
  split; [|split; [|split]].
  - vm_compute. intros H. inversion H as [|? ? ? H']; inversion H'.
  - eexists. vm_compute. reflexivity.
  - eexists. vm_compute. reflexivity.
  - eexists _, _. split; [reflexivity|]. vm_compute. reflexivity.
Qed.

Lemma trigger_character_suppresses_completion_witness :
  doComplete host appDoc (at_ 14) (initialState cfg)
  = (Ok {| isIncomplete := false; items := [] |},
     logged GetProgram (initialState cfg)).
Proof.
  apply (trigger_character_suppresses_completion host appDoc (at_ 14)
           (textDocument Samples.appPath "javascript" "<template><a :b=1>")
           Samples.service Samples.program ":" (initialState cfg)
           eq_refl eq_refl eq_refl).
  repeat constructor.
Defined.

(** With [:] just before the cursor, [doComplete] still asks the service
    for its program, since the root-file test comes first; and where the
    service has no program, it throws. *)
Lemma trigger_character_still_reads_the_program :
  charAt (getText appDoc) (offsetAt appScriptDoc (at_ 14) - 1) = Some ":"
  /\ calls (snd (doComplete host appDoc (at_ 14) (initialState cfg)))
     = [GetProgram]
  /\ doComplete host appDoc (at_ 14) (initialState cfg)
     <> (Ok {| isIncomplete := false; items := [] |}, initialState cfg)
  /\ ts.getProgram MoreModeSamples.idleService = None
  /\ fst (doComplete (hostOf MoreModeSamples.idleService) appDoc (at_ 14)
            (initialState cfg))
     = Throw.
Proof. repeat split. discriminate. Qed.

(** An absent result of [organizeImports] or [getCombinedCodeFix] makes
    [getCodeActionEdits] throw. *)
Lemma absent_organize_imports_result_throws :
  ts.organizeImports Samples.service Samples.appPath settings = None
  /\ fst (getCodeActionEdits host appDoc (request OrganizeImports) (initialState cfg))
     = Throw
  /\ ts.getCombinedCodeFix Samples.service Samples.appPath "fixAll" settings = None
  /\ fst (getCodeActionEdits host appDoc (request (CombinedCodeFix "fixAll"))
            (initialState cfg))
     = Throw.
Proof. repeat split. Qed.

Lemma absent_refactor_edits_give_empty_map_witness :
  getCodeActionEdits host appDoc
    (request (RefactorAction "extract" "constant" "Extract constant"))
    (initialState cfg)
  = (Ok (ApplyWorkspaceEdits "" ∅),
     logged (GetEditsForRefactor Samples.appPath "extract" "constant")
            (initialState cfg)).
Proof.
  apply (proj1 (absent_refactor_edits_give_empty_map host appDoc
                  (textDocument Samples.appPath "javascript" "<template><a :b=1>")
                  Samples.service
                  (request (RefactorAction "extract" "constant" "Extract constant"))
                  (initialState cfg) eq_refl)
               "extract" "constant" "Extract constant" eq_refl eq_refl).
Defined.

End OperationExamples.

(** ** The supported fix codes *)
Section SupportedFixCodes.
Import lsp Types Javascript ModeSpec.

Variable host : Host.

Section Asks.
Variable Q : Call -> Prop.

Lemma asks_ret {A} (a : A) : asks Q (mret a).
Proof. intros st. split; [done|]. by exists []. Qed.

Lemma asks_bind {A B} (m : M A) (f : A -> M B) :
  asks Q m -> (forall a, asks Q (f a)) -> asks Q (m ≫= f).
Proof.
  intros Hm Hf st. rewrite bind_run.
  destruct (Hm st) as (H1 & new1 & H2 & H3).
  destruct (m st) as [[a|] st']; simpl in *; [|by eauto].
  destruct (Hf a st') as (H4 & new2 & H5 & H6). split; [congruence|].
  exists (new2 ++ new1)%list. rewrite H5, H2, app_assoc.
  split; [done|]. by apply Forall_app.
Qed.

Lemma asks_query {A} (c : Call) (r : A) : Q c -> asks Q (query c r).
Proof.
  intros Hc st. split; [done|]. exists [c]. split; [done|]. by constructor.
Qed.

Lemma asks_lift {A} (r : Res A) : asks Q (lift r).
Proof. intros st. split; [done|]. by exists []. Qed.

Lemma asks_get_config : asks Q get_config.
Proof. intros st. split; [done|]. by exists []. Qed.

Lemma asks_set_config c : asks Q (set_config c).
Proof. intros st. split; [done|]. by exists []. Qed.

Lemma asks_forM {A B} (body : A -> B -> M B) (xs : list A) (acc : B) :
  (forall x b, asks Q (body x b)) -> asks Q (forM body xs acc).
Proof.
  intros Hbody. revert acc. induction xs as [|x xs IH]; intros acc; simpl.
  - apply asks_ret.
  - apply asks_bind; [apply Hbody | apply IH].
Qed.

End Asks.

(** One step of a proof about the requests of a computation; [side]
    shows that a request is one of those allowed. *)
Ltac asks_step side :=
  match goal with
  | |- asks _ (mret _) => apply asks_ret
  | |- asks _ (lift _) => apply asks_lift
  | |- asks _ get_config => apply asks_get_config
  | |- asks _ (set_config _) => apply asks_set_config
  | |- asks _ (query _ _) => apply asks_query; side
  | |- asks _ (forM _ _ _) => apply asks_forM; intros
  | |- asks _ (_ ≫= _) => apply asks_bind; [|intros]
  | |- asks _ (let '(_, _) := ?p in _) => destruct p
  | |- asks _ (if ?b then _ else _) => destruct b
  | |- asks _ (match ?x with _ => _ end) => destruct x
  end.

Ltac other_call := unfold otherCall; discriminate.
Ltac program_call := exact eq_refl.

Lemma languageServiceIncludesFile_asks ls documentUri :
  asks otherCall (languageServiceIncludesFile host ls documentUri).
Proof. unfold languageServiceIncludesFile. repeat asks_step other_call. Qed.

Lemma createUriMappingForEdits_asks changes service :
  asks (fun c => c = GetProgram) (createUriMappingForEdits host changes service).
Proof. unfold createUriMappingForEdits. repeat asks_step program_call. Qed.

Lemma asks_weaken {A} (Q1 Q2 : Call -> Prop) (m : M A) :
  (forall c, Q1 c -> Q2 c) -> asks Q1 m -> asks Q2 m.
Proof.
  intros HQ Hm st. destruct (Hm st) as (H1 & new & H2 & H3).
  split; [done|]. exists new. split; [done|].
  eapply Forall_impl; [exact H3 | exact HQ].
Qed.

Lemma createUriMappingForEdits_other changes service :
  asks otherCall (createUriMappingForEdits host changes service).
Proof.
  eapply asks_weaken; [|apply createUriMappingForEdits_asks].
  intros c ->. other_call.
Qed.

Create HintDb asks.
Local Hint Resolve languageServiceIncludesFile_asks createUriMappingForEdits_other : asks.

Ltac asks_all :=
  repeat (first [asks_step other_call | solve [auto with asks]]).












Lemma provideQuickFixCodeActions_asks
    fileName textRange context supported formatSettings service result :
  asks otherCall
    (provideQuickFixCodeActions host fileName textRange context supported
       formatSettings service result).
Proof. unfold provideQuickFixCodeActions. asks_all. Qed.

Lemma provideRefactoringCommands_asks
    fileName textRange context formatSettings service result :
  asks otherCall
    (provideRefactoringCommands fileName textRange context formatSettings
       service result).
Proof. unfold provideRefactoringCommands. asks_all. Qed.


Local Hint Resolve provideQuickFixCodeActions_asks provideRefactoringCommands_asks : asks.













End SupportedFixCodes.

Section SupportedFixCodesExamples.
Import lsp Types Javascript ModeSpec ModeSamples.


(** Two requests for code actions, one computation of the set. *)
Example supported_codes_computed_once :
  computations
    (serve (hostOf fixingService)
       [GetCodeActions appDoc wholeLine
          {| lsp.diagnostics := [cannotFindName; unknownProblem]; only := None |};
        DoValidation appDoc;
        GetCodeActions appDoc wholeLine
          {| lsp.diagnostics := [unknownProblem]; only := None |}]
       (initialState cfg))
  = 1%nat.
Proof. vm_compute. reflexivity. Qed.

End SupportedFixCodesExamples.

(** ** The symbol outline *)
Section Outline.
Import lsp Types Javascript ModeSpec.

Variable host : Host.
Variables doc scriptDoc : TextDocument.

Lemma agree_empty : agree ∅ [].
Proof. intros s. by rewrite lookup_empty. Qed.

Lemma agree_insert existing seen k :
  agree existing seen -> agree (<[k := true]> existing) (k :: seen).
Proof.
  intros Hagree s. destruct (decide (s = k)) as [->|Hne].
  - rewrite lookup_insert_eq. simpl. symmetry. apply bool_decide_eq_true. by left.
  - rewrite lookup_insert_ne by done. rewrite Hagree.
    apply bool_decide_ext. rewrite elem_of_cons.
    split; [by right | intros [?|?]; [congruence | done]].
Qed.

Local Abbreviation symbols := (map (itemSymbol host doc scriptDoc)).

Lemma visited_list items ancestors :
  Forall (visited host doc scriptDoc) items ->
  forallb hasSpans items = true ->
  forall result existing seen,
    agree existing seen ->
    exists existing',
      forRes (fun item acc =>
                collectSymbols host doc scriptDoc item (nearestEmitted ancestors) acc)
             items (result, existing)
      = Ok ((result ++
             symbols (walkList (fun seen item => walk nearestEmitted ancestors seen item)
                               seen items).1)%list,
            existing')
      /\ agree existing'
           (walkList (fun seen item => walk nearestEmitted ancestors seen item)
                     seen items).2.
Proof.
  induction 1 as [|item items Hitem _ IH]; intros Hspans result existing seen Hagree.
  - exists existing. simpl. by rewrite app_nil_r.
  - simpl in Hspans. apply andb_prop in Hspans as [Hs1 Hs2].
    destruct (Hitem Hs1 ancestors result existing seen Hagree) as (e1 & Hrun1 & Hagree1).
    simpl. rewrite Hrun1.
    destruct (walk nearestEmitted ancestors seen item) as [first seen1] eqn:Hw1.
    simpl in *.
    destruct (IH Hs2 (result ++ symbols first)%list e1 seen1 Hagree1)
      as (e2 & Hrun2 & Hagree2).
    rewrite Hrun2.
    destruct (walkList _ seen1 items) as [others seen2] eqn:Hw2. simpl in *.
    exists e2. split; [|done]. by rewrite map_app, app_assoc.
Qed.

Lemma visited_all item : visited host doc scriptDoc item.
Proof.
  induction item as [text kind spans childItems IH] using ts.NavigationBarItem_nested_ind.
  intros Hspans ancestors result existing seen Hagree.
  simpl in Hspans. destruct spans as [|span0 spans]; [done|].
  set (item := ts.MkNavigationBarItem text kind (span0 :: spans) childItems).
  set (key := keyText (outlineKey item)).
  set (emitted := negb (isGrouping kind) && negb (bool_decide (key ∈ seen))).
  set (me := {| ancestor_name := text; ancestor_kind := kind;
                ancestor_emitted := emitted |}).
  assert (Hfresh :
            negb (String.eqb kind "script") && negb (default false (existing !! key))
            = emitted).
  { unfold emitted, isGrouping. by rewrite Hagree. }
  assert (Hlabel : (if emitted then Some text else nearestEmitted ancestors)
                   = nearestEmitted (me :: ancestors)).
  { unfold nearestEmitted. simpl. by destruct emitted. }
  destruct (visited_list childItems (me :: ancestors) IH Hspans
              (if emitted
               then (result ++ [symbolOf host doc scriptDoc text kind span0
                                  (nearestEmitted ancestors)])%list
               else result)
              (if emitted then <[key := true]> existing else existing)
              (if emitted then key :: seen else seen))
    as (existing' & Hrun & Hagree').
  { destruct emitted; [by apply agree_insert | done]. }
  exists existing'.
  change (collectSymbols host doc scriptDoc item (nearestEmitted ancestors)
            (result, existing))
    with (forRes (fun child acc =>
                    collectSymbols host doc scriptDoc child
                      (if negb (String.eqb kind "script")
                          && negb (default false (existing !! key))
                       then Some text else nearestEmitted ancestors) acc)
                 childItems
                 (if negb (String.eqb kind "script")
                     && negb (default false (existing !! key))
                  then ((result ++ [symbolOf host doc scriptDoc text kind span0
                                      (nearestEmitted ancestors)])%list,
                        <[key := true]> existing)
                  else (result, existing))).
  rewrite Hfresh, Hlabel.
  change (walk nearestEmitted ancestors seen item)
    with (let '(below, seen') :=
            walkList (fun seen child => walk nearestEmitted (me :: ancestors) seen child)
                     (if emitted then key :: seen else seen) childItems in
          ((if emitted then (item, nearestEmitted ancestors) :: below else below), seen')).
  destruct (walkList _ _ childItems) as [below seen'] eqn:Hwalk.
  simpl in Hrun, Hagree'. split; [|exact Hagree'].
  destruct emitted; simpl.
  - rewrite Hrun. by rewrite <- app_assoc.
  - exact Hrun.
Qed.

Lemma wellKept_list container items ancestors :
  Forall (wellKept container) items ->
  forall seen,
    (walkList (fun seen item => walk container ancestors seen item) seen items).2
      = (rev (keyTexts
                (walkList (fun seen item => walk container ancestors seen item)
                          seen items).1) ++ seen)%list
    /\ Forall (fun e => isGrouping (ts.nav_kind e.1) = false)
              (walkList (fun seen item => walk container ancestors seen item)
                        seen items).1
    /\ (NoDup seen ->
        NoDup (walkList (fun seen item => walk container ancestors seen item)
                        seen items).2).
Proof.
  induction 1 as [|item items Hitem _ IH]; intros seen; [done|].
  simpl. destruct (Hitem ancestors seen) as (H1 & H2 & H3).
  destruct (walk container ancestors seen item) as [first seen1]. simpl in *.
  destruct (IH seen1) as (H4 & H5 & H6).
  destruct (walkList _ seen1 items) as [others seen2]. simpl in *.
  split; [|split].
  - unfold keyTexts in *. rewrite map_app, rev_app_distr, H4, H1.
    by rewrite app_assoc.
  - by apply Forall_app.
  - auto.
Qed.

Lemma wellKept_all container item : wellKept container item.
Proof.
  induction item as [text kind spans childItems IH] using ts.NavigationBarItem_nested_ind.
  intros ancestors seen.
  set (item := ts.MkNavigationBarItem text kind spans childItems).
  set (key := keyText (outlineKey item)).
  set (emitted := negb (isGrouping kind) && negb (bool_decide (key ∈ seen))).
  set (me := {| ancestor_name := text; ancestor_kind := kind;
                ancestor_emitted := emitted |}).
  change (walk container ancestors seen item)
    with (let '(below, seen') :=
            walkList (fun seen child => walk container (me :: ancestors) seen child)
                     (if emitted then key :: seen else seen) childItems in
          ((if emitted then (item, container ancestors) :: below else below), seen')).
  destruct (wellKept_list container childItems (me :: ancestors) IH
              (if emitted then key :: seen else seen)) as (H1 & H2 & H3).
  destruct (walkList _ _ childItems) as [below seen']. simpl in *.
  destruct emitted eqn:Hemitted.
  - apply andb_prop in Hemitted as [Hkind Hnew].
    apply negb_true_iff in Hkind. apply negb_true_iff, bool_decide_eq_false in Hnew.
    split; [|split].
    + unfold keyTexts in *. simpl. fold key. by rewrite H1, <- app_assoc.
    + by constructor.
    + intros Hseen. apply H3. by constructor.
  - done.
Qed.

Lemma NoDup_rev_app_nil {A} (l : list A) : NoDup (rev l ++ []) -> NoDup l.
Proof.
  rewrite app_nil_r. intros H. apply NoDup_ListNoDup in H.
  apply NoDup_ListNoDup. apply List.NoDup_rev in H. by rewrite rev_involutive in H.
Qed.

(** X29: For an outline whose items all carry a span, the symbols
    [findDocumentSymbols] returns for a root file are those of the
    outline's items in walking order, an item being left out when it is
    of the whole-file grouping kind or when its key was seen before.
    Each symbol has the name of its item, the symbol kind of the item's
    kind, and the range of the item's first span; no two emitted items
    have the same (name, kind, start offset), none is of the grouping
    kind, and the container of a symbol is the name of the nearest
    ancestor that was itself emitted, if any. *)
Theorem outline_symbols_are_distinct service program items st :
  updateCurrentVueTextDocument host doc = (scriptDoc, service) ->
  ts.getProgram service = Some program ->
  getFilePath host (uri doc) ∈ ts.getRootFileNames program ->
  ts.getNavigationBarItems service (getFileFsPath host (uri doc)) = Some items ->
  forallb hasSpans items = true ->
  fst (findDocumentSymbols host doc st)
    = Ok (map (itemSymbol host doc scriptDoc) (outline nearestEmitted items))
  /\ NoDup (map (fun e => outlineKey e.1) (outline nearestEmitted items))
  /\ Forall (fun e => ts.nav_kind e.1 <> "script") (outline nearestEmitted items).
Proof.
  intros Hupd Hp Hroot Hitems Hspans.
  assert (Hall : Forall (wellKept nearestEmitted) items).
  { apply Forall_forall. intros item _. apply wellKept_all. }
  destruct (wellKept_list nearestEmitted items [] Hall []) as (Hseen & Hkinds & Hnodup).
  split; [|split].
  - unfold findDocumentSymbols. rewrite Hupd, bind_run.
    rewrite (languageServiceIncludesFile_run host _ _ _ _ Hp).
    assert (includes (getFilePath host (uri doc)) (ts.getRootFileNames program) = true)
      as -> by (by apply bool_decide_eq_true).
    simpl. rewrite bind_run. unfold query. rewrite Hitems. simpl.
    rewrite bind_run. unfold lift, collectAll.
    destruct (visited_list items []
                ltac:(apply Forall_forall; intros item _; apply visited_all)
                Hspans [] ∅ [] agree_empty) as (existing' & Hrun & _).
    change (nearestEmitted []) with (@None string) in Hrun.
    rewrite Hrun. reflexivity.
  - unfold outline. specialize (Hnodup (NoDup_nil_2)). rewrite Hseen in Hnodup.
    apply NoDup_rev_app_nil in Hnodup. unfold keyTexts in Hnodup.
    eapply (NoDup_fmap_1 keyText). by rewrite <- list_fmap_compose.
  - unfold outline. eapply Forall_impl; [exact Hkinds|].
    intros e He Hscript. unfold isGrouping in He. rewrite Hscript in He. done.
Qed.

End Outline.

Section OutlineExamples.
Import lsp Types Javascript ModeSpec ModeSamples.

Lemma outline_symbols_are_distinct_witness :
  fst (findDocumentSymbols (hostOf outlineService) appDoc (initialState cfg))
    = Ok (map (itemSymbol (hostOf outlineService) appDoc appScriptDoc)
              (outline nearestEmitted classOutline))
  /\ NoDup (map (fun e => outlineKey e.1) (outline nearestEmitted classOutline))
  /\ Forall (fun e => ts.nav_kind e.1 <> "script") (outline nearestEmitted classOutline).
Proof.
  apply (outline_symbols_are_distinct (hostOf outlineService) appDoc appScriptDoc
           outlineService Samples.program classOutline (initialState cfg)
           eq_refl eq_refl);
    [repeat constructor | reflexivity | reflexivity].
Defined.

(** The class is emitted once, under the file-level entry; where it comes
    again with its members it is a duplicate, and the members are emitted
    without a container. *)
Example duplicate_ancestor_lends_no_name :
  outline nearestEmitted classOutline
  = [(navItem "A" "class" 0 25 [], None); (methodM, None); (methodN, None)].
Proof. reflexivity. Qed.

(** C9: on the navigation bar of [class A { m() {} n() {} }] the class is
    emitted once, under the file-level entry; where it comes again with
    its members it is a duplicate, and the label of the container is not
    set: the symbols of [m] and [n] carry no container, where their
    nearest ancestor that is not of the grouping kind is the class [A]. *)
Theorem duplicate_class_entry_gives_members_no_container :
  ts.getNavigationBarItems outlineService
    (getFileFsPath (hostOf outlineService) (uri appDoc))
  = Some classOutline
  /\ (exists a m n,
        fst (findDocumentSymbols (hostOf outlineService) appDoc (initialState cfg))
        = Ok [a; m; n]
        /\ (symbol_name a, containerName a) = ("A", None)
        /\ (symbol_name m, containerName m) = ("m", None)
        /\ (symbol_name n, containerName n) = ("n", None))
  /\ map (fun e => (ts.nav_text e.1, e.2)) (outline nearestUnskipped classOutline)
     = [("A", None); ("m", Some "A"); ("n", Some "A")].
Proof.
  split; [reflexivity|]. split; [|reflexivity].
  eexists _, _, _. split; [vm_compute; reflexivity|]. by repeat split.
Qed.

End OutlineExamples.

(** * Further properties

    Properties of the code beyond the claims above. *)

(** ** Documentation text *)
Section Text.
Import ts VueInfo ComponentInfo Behaviour.

Lemma append_cons (c : Ascii.ascii) (a b : string) :
  String c a +:+ b = String c (a +:+ b).
Proof. reflexivity. Qed.

Lemma append_nil_l (b : string) : "" +:+ b = b.
Proof. reflexivity. Qed.

Lemma split_newline_cons (c : Ascii.ascii) (r : string) :
  split_newline (String c r) =
    if Ascii.eqb c newline then "" :: split_newline r
    else match split_newline r with
         | [] => [String c ""]
         | h :: t => String c h :: t
         end.
Proof. reflexivity. Qed.

Lemma split_newline_single (s : string) :
  singleLine s = true -> split_newline s = [s].
Proof.
  induction s as [|c r IH]; [done|].
  cbn [singleLine]. intros [Hc Hr]%andb_prop.
  rewrite split_newline_cons. apply negb_true_iff in Hc. rewrite Hc.
  by rewrite (IH Hr).
Qed.

Lemma split_newline_line (a b : string) :
  singleLine a = true ->
  split_newline (a +:+ NL +:+ b) = a :: split_newline b.
Proof.
  induction a as [|c r IH]; intros Ha.
  - rewrite append_nil_l. unfold NL. rewrite append_cons, append_nil_l.
    rewrite split_newline_cons. by rewrite Ascii.eqb_refl.
  - cbn [singleLine] in Ha. apply andb_prop in Ha as [Hc Hr].
    apply negb_true_iff in Hc.
    rewrite append_cons, split_newline_cons, Hc, (IH Hr). done.
Qed.

Lemma split_newline_lines (s : string) :
  Forall (fun l => singleLine l = true) (split_newline s).
Proof.
  induction s as [|c r IH]; [by repeat constructor|].
  rewrite split_newline_cons. destruct (Ascii.eqb c newline) eqn:Hc.
  - by constructor.
  - destruct (split_newline r) as [|h t]; [by repeat constructor; cbn; rewrite Hc|].
    apply Forall_cons in IH as [Hh Ht]. constructor; [|done].
    cbn. by rewrite Hc, Hh.
Qed.

Lemma split_newline_first (s : string) :
  exists first rest, split_newline s = first :: rest.
Proof.
  induction s as [|c r IH]; [by eexists _, _|].
  rewrite split_newline_cons. destruct (Ascii.eqb c newline); [by eexists _, _|].
  destruct (split_newline r); by eexists _, _.
Qed.

Lemma concat_cons (sep x y : string) (l : list string) :
  String.concat sep (x :: y :: l) = x +:+ sep +:+ String.concat sep (y :: l).
Proof. reflexivity. Qed.

Lemma split_newline_concat (l : list string) :
  l <> [] -> Forall (fun x => singleLine x = true) l ->
  split_newline (String.concat NL l) = l.
Proof.
  induction l as [|x [|y l] IH]; intros Hne Hl; [done|..].
  - apply Forall_cons in Hl as [Hx _]. by apply split_newline_single.
  - apply Forall_cons in Hl as [Hx Hl].
    rewrite concat_cons, (split_newline_line _ _ Hx), IH; done.
Qed.

Lemma concat_split_newline (s : string) :
  String.concat NL (split_newline s) = s.
Proof.
  induction s as [|c r IH]; [done|].
  rewrite split_newline_cons. destruct (Ascii.eqb c newline) eqn:Hc.
  - apply Ascii.eqb_eq in Hc as ->.
    destruct (split_newline_first r) as (h & t & Hr). rewrite Hr in *.
    rewrite concat_cons, IH. reflexivity.
  - destruct (split_newline_first r) as (h & t & Hr). rewrite Hr in *.
    destruct t as [|y t].
    + cbn in IH. subst h. reflexivity.
    + rewrite concat_cons in *. rewrite append_cons. by rewrite IH.
Qed.

Lemma string_drop_single (n : nat) (s : string) :
  singleLine s = true -> singleLine (string_drop n s) = true.
Proof.
  revert s. induction n as [|n IH]; intros s Hs; [done|].
  destruct s as [|c r]; [done|].
  cbn [singleLine] in Hs. apply andb_prop in Hs as [_ Hr]. by apply IH.
Qed.

Lemma slice_from_single (start : Z) (s : string) :
  singleLine s = true -> singleLine (slice_from start s) = true.
Proof. apply string_drop_single. Qed.

Lemma slice_from_zero (s : string) : slice_from 0 s = s.
Proof.
  unfold slice_from. change (0 <? 0) with false. cbn beta iota.
  replace (Z.to_nat (Z.min 0 (Zlength_string s))) with 0%nat; [done|].
  unfold Zlength_string. lia.
Qed.

(** X1: [formatJSLikeDocumentation] works line by line: the result has the
    lines of the source, the first one unchanged and every later one cut
    at the column where the text of the last line begins. *)
Theorem formatJSLikeDocumentation_line_by_line (src : string) :
  exists first rest,
    split_newline src = first :: rest
    /\ split_newline (formatJSLikeDocumentation src)
       = first :: map (slice_from (search_non_space (List.last (first :: rest) "")))
                      rest.
Proof.
  destruct (split_newline_first src) as (h & t & Hsrc).
  exists h, t. split; [done|].
  pose proof (split_newline_lines src) as Hlines. rewrite Hsrc in Hlines.
  apply Forall_cons in Hlines as [Hh Ht].
  unfold formatJSLikeDocumentation. rewrite Hsrc.
  case_bool_decide as Hlen.
  - destruct t; [done|discriminate].
  - cbn [List.hd List.tl].
    rewrite (split_newline_line _ _ Hh). f_equal.
    apply split_newline_concat.
    + destruct t; [done|discriminate].
    + apply Forall_fmap. eapply Forall_impl; [exact Ht|].
      intros l Hl. by apply slice_from_single.
Qed.

(** X2: A source whose last line is not indented is returned as it is. *)
Theorem formatJSLikeDocumentation_flush_last_line (src : string) :
  search_non_space (List.last (split_newline src) "") = 0 ->
  formatJSLikeDocumentation src = src.
Proof.
  intros Hflush. unfold formatJSLikeDocumentation.
  case_bool_decide as Hlen; [done|].
  rewrite Hflush.
  destruct (split_newline_first src) as (h & t & Hsrc).
  pose proof (concat_split_newline src) as Hjoin.
  rewrite Hsrc in *. cbn [List.hd List.tl].
  replace (map (slice_from 0) t) with t.
  - destruct t as [|y t]; [done|]. by rewrite <- concat_cons.
  - clear. induction t as [|y t IH]; [done|].
    cbn [map]. by rewrite slice_from_zero, <- IH.
Qed.

Lemma search_blank (i : Z) (s : string) :
  blank s = true -> search_non_space_from i s = -1.
Proof.
  revert i. induction s as [|c r IH]; intros i Hs; [done|].
  cbn [blank] in Hs. apply andb_prop in Hs as [Hc Hr].
  cbn [search_non_space_from]. rewrite Hc. by apply IH.
Qed.

Lemma search_text (i : Z) (s : string) :
  blank s = false ->
  exists (k : nat) c r,
    search_non_space_from i s = i + Z.of_nat k
    /\ (k < String.length s)%nat
    /\ string_drop k s = String c r
    /\ isWhiteSpace c = false.
Proof.
  revert i. induction s as [|c r IH]; intros i Hs; [done|].
  cbn [blank] in Hs. cbn [search_non_space_from].
  destruct (isWhiteSpace c) eqn:Hc.
  - destruct (IH (i + 1) Hs) as (k & c' & r' & Hk & Hlen & Hdrop & Hc').
    exists (S k), c', r'. cbn [string_drop String.length].
    repeat split; [lia|lia|done|done].
  - exists 0%nat, c, r. cbn [string_drop String.length].
    repeat split; [lia|lia|done].
Qed.

Lemma string_drop_blank (n : nat) (s : string) :
  blank s = true -> blank (string_drop n s) = true.
Proof.
  revert s. induction n as [|n IH]; intros s Hs; [done|].
  destruct s as [|c r]; [done|].
  cbn [blank] in Hs. apply andb_prop in Hs as [_ Hr]. by apply IH.
Qed.

Lemma string_drop_length (n : nat) (s : string) :
  String.length (string_drop n s) = (String.length s - n)%nat.
Proof.
  revert s. induction n as [|n IH]; intros s; [cbn; lia|].
  destruct s as [|c r]; [done|]. cbn [string_drop String.length]. by rewrite IH.
Qed.

(** [s.slice(-1)] of [s.slice(-1)]. *)
Lemma slice_last_again (s : string) :
  slice_from (-1) (slice_from (-1) s) = slice_from (-1) s.
Proof.
  assert (forall t, (String.length t <= 1)%nat -> slice_from (-1) t = t) as Hshort.
  { intros t Ht. unfold slice_from, Zlength_string.
    change (-1 <? 0) with true. cbn beta iota.
    replace (Z.to_nat (Z.max (Z.of_nat (String.length t) + -1) 0)) with 0%nat by lia.
    done. }
  apply Hshort. unfold slice_from at 1. rewrite string_drop_length.
  unfold Zlength_string. change (-1 <? 0) with true. cbn beta iota. lia.
Qed.

Lemma last_map {A B} (f : A -> B) (l : list A) (a : A) (b : B) :
  l <> [] -> List.last (map f l) b = f (List.last l a).
Proof.
  induction l as [|x [|y l] IH]; intros Hne; [done|done|].
  change (List.last (map f (y :: l)) b = f (List.last (y :: l) a)). by apply IH.
Qed.

Lemma last_cons {A} (x : A) (l : list A) (a : A) :
  l <> [] -> List.last (x :: l) a = List.last l a.
Proof. by destruct l. Qed.

(** The lines of a source of several lines, once formatted. *)
Lemma formatted_lines (src h : string) (t : list string) :
  split_newline src = h :: t -> t <> [] ->
  formatJSLikeDocumentation src
  = String.concat NL
      (h :: map (slice_from (search_non_space (List.last t ""))) t)
  /\ split_newline (formatJSLikeDocumentation src)
     = h :: map (slice_from (search_non_space (List.last t ""))) t.
Proof.
  intros Hsrc Ht.
  pose proof (split_newline_lines src) as Hlines. rewrite Hsrc in Hlines.
  assert (formatJSLikeDocumentation src
          = String.concat NL
              (h :: map (slice_from (search_non_space (List.last t ""))) t)) as Hout.
  { unfold formatJSLikeDocumentation. rewrite Hsrc.
    rewrite bool_decide_eq_false_2 by (destruct t; [done|discriminate]).
    cbn [List.hd List.tl]. rewrite (last_cons _ _ _ Ht).
    destruct t as [|y t]; [done|]. reflexivity. }
  split; [done|]. rewrite Hout. apply split_newline_concat; [done|].
  apply Forall_cons in Hlines as [Hh Hrest]. constructor; [done|].
  apply Forall_fmap. eapply Forall_impl; [exact Hrest|].
  intros l Hl. by apply slice_from_single.
Qed.

(** Cutting the lines at the column of the last line's text, a second
    time. *)
Lemma slice_at_text_again (final : string) :
  let cut := slice_from (search_non_space final) in
  forall line,
    slice_from (search_non_space (cut final)) (cut line) = cut line.
Proof.
  intros cut line. unfold cut, search_non_space.
  destruct (blank final) eqn:Hfinal.
  - rewrite (search_blank 0 final Hfinal).
    rewrite (search_blank 0 (slice_from (-1) final));
      [|by apply string_drop_blank].
    apply slice_last_again.
  - destruct (search_text 0 final Hfinal) as (k & c & r & -> & Hk & Hdrop & Hc).
    assert (slice_from (0 + Z.of_nat k) final = String c r) as ->.
    { unfold slice_from, Zlength_string.
      replace (0 + Z.of_nat k <? 0) with false by (symmetry; apply Z.ltb_ge; lia).
      cbn beta iota.
      replace (Z.to_nat (Z.min (0 + Z.of_nat k) (Z.of_nat (String.length final))))
        with k by lia.
      done. }
    cbn [search_non_space_from]. rewrite Hc. apply slice_from_zero.
Qed.

(** X26: [formatJSLikeDocumentation] is idempotent: formatting a
    formatted source changes nothing. *)
Theorem formatJSLikeDocumentation_idempotent (src : string) :
  formatJSLikeDocumentation (formatJSLikeDocumentation src)
  = formatJSLikeDocumentation src.
Proof.
  destruct (split_newline_first src) as (h & t & Hsrc).
  destruct (decide (t = [])) as [->|Ht].
  - assert (formatJSLikeDocumentation src = src) as Hsame.
    { unfold formatJSLikeDocumentation. by rewrite Hsrc. }
    by rewrite Hsame.
  - destruct (formatted_lines src h t Hsrc Ht) as [Hout Hlines].
    set (cut := slice_from (search_non_space (List.last t ""))) in *.
    destruct (formatted_lines (formatJSLikeDocumentation src) h (map cut t) Hlines)
      as [Hagain _]; [by destruct t|].
    rewrite Hagain, Hout. do 2 f_equal.
    rewrite (last_map cut t "" "" Ht), <- list_fmap_compose.
    apply list_fmap_ext. intros i line _. apply slice_at_text_again.
Qed.

End Text.

Section TextExamples.
Import ts VueInfo ComponentInfo Behaviour.

Lemma formatJSLikeDocumentation_flush_last_line_witness :
  formatJSLikeDocumentation ("a: {" +:+ NL +:+ "  b: 1" +:+ NL +:+ "}")
  = "a: {" +:+ NL +:+ "  b: 1" +:+ NL +:+ "}".
Proof.
  apply (formatJSLikeDocumentation_flush_last_line
           ("a: {" +:+ NL +:+ "  b: 1" +:+ NL +:+ "}")).
  reflexivity.
Defined.

End TextExamples.

(** ** The class rules, member by member *)
Section ClassMembers.
Import ts VueInfo ComponentInfo Behaviour.

Lemma filterM_throw {A} (p : A -> Res bool) (l : list A) (x : A) :
  x ∈ l -> p x = Throw -> filterM p l = Throw.
Proof.
  intros Hx Hp. induction Hx as [x l|x y l Hx IH]; cbn [filterM].
  - by rewrite Hp.
  - rewrite (IH Hp). by destruct (p y) as [[]|].
Qed.

Lemma getPropertyDecoratorNames_declared k p :
  is_Some (valueDeclaration p) ->
  getPropertyDecoratorNames p k = Ok (decoratorNamesOf k p).
Proof.
  intros [d Hd]. unfold getPropertyDecoratorNames, decoratorNamesOf.
  rewrite Hd. cbn. destruct (isKind k d); [|done]. cbn.
  destruct (declarations p) as [|d0 ?]; [done|].
  by destruct (decorators d0).
Qed.

Lemma decoratorNamesOf_decorated k p d d0 rest ds dec :
  valueDeclaration p = Some d -> isKind k d = true ->
  declarations p = d0 :: rest -> decorators d0 = Some ds -> dec ∈ ds ->
  decoratorName dec ∈ decoratorNamesOf k p.
Proof.
  intros Hd Hk Hdecl Hds Hdec. unfold decoratorNamesOf.
  rewrite Hd, Hk, Hdecl, Hds. cbn. by apply list_elem_of_fmap_2.
Qed.

Lemma decoratorNamesOf_other_kind k p d :
  valueDeclaration p = Some d -> isKind k d = false -> decoratorNamesOf k p = [].
Proof. intros Hd Hk. unfold decoratorNamesOf. by rewrite Hd, Hk. Qed.

Lemma hasDecoratorIn_declared names k p :
  is_Some (valueDeclaration p) ->
  hasDecoratorIn names k p
  = Ok (existsb (fun n => includes n names) (decoratorNamesOf k p)).
Proof.
  intros Hp. unfold hasDecoratorIn.
  by rewrite (getPropertyDecoratorNames_declared _ _ Hp).
Qed.

Lemma existsb_includes (names ns : list string) (n : string) :
  n ∈ ns -> n ∈ names -> existsb (fun n => includes n names) ns = true.
Proof.
  intros Hns Hnames. apply existsb_exists. exists n. split.
  - by apply list_elem_of_In.
  - unfold includes. by apply bool_decide_eq_true.
Qed.

Lemma orEmpty_nonEmpty {A} (l : list A) : orEmpty (nonEmpty l) = l.
Proof. by destruct l. Qed.

Lemma documented_name (l : list Symbol) :
  map VueInfo.name (map documented l) = map ts.name l.
Proof. induction l; [done|]. cbn. by f_equal. Qed.

Lemma hasDecoratorIn_decoratedAmong names k p :
  is_Some (valueDeclaration p) ->
  hasDecoratorIn names k p = Ok (decoratedAmong names k p).
Proof. apply hasDecoratorIn_declared. Qed.

Lemma getClassProps_members (t : Type_) :
  declared t ->
  getClassProps t
  = Ok (nonEmpty (map documented (List.filter propMember (getProperties t)))).
Proof.
  intros Ht. unfold getClassProps.
  rewrite (filterM_ok _ propMember).
  - by destruct (List.filter propMember (getProperties t)).
  - eapply Forall_impl; [exact Ht|]. intros p Hp.
    by apply hasDecoratorIn_decoratedAmong.
Qed.

Lemma getClassData_members (t : Type_) :
  declared t ->
  getClassData t
  = Ok (nonEmpty (map documented (List.filter dataMember (getProperties t)))).
Proof.
  intros Ht. unfold getClassData.
  rewrite (filterM_ok isClassDataMember dataMember).
  - by destruct (List.filter dataMember (getProperties t)).
  - eapply Forall_impl; [exact Ht|]. intros p Hp.
    unfold isClassDataMember. by rewrite (hasDecoratorIn_decoratedAmong _ _ _ Hp).
Qed.

Lemma getClassMethods_members (t : Type_) :
  declared t ->
  getClassMethods t
  = Ok (nonEmpty (map documented (List.filter methodMember (getProperties t)))).
Proof.
  intros Ht. unfold getClassMethods.
  rewrite (filterM_ok isClassMethodMember methodMember).
  - by destruct (List.filter methodMember (getProperties t)).
  - eapply Forall_impl; [exact Ht|]. intros p Hp.
    unfold isClassMethodMember. by rewrite (hasDecoratorIn_decoratedAmong _ _ _ Hp).
Qed.

Lemma listed (test : Symbol -> bool) (l : list Symbol) (p : Symbol) :
  p ∈ l -> test p = true ->
  exists ms,
    nonEmpty (map documented (List.filter test l)) = Some ms /\ documented p ∈ ms.
Proof.
  intros Hp Htest.
  assert (documented p ∈ map documented (List.filter test l)) as Hin.
  { apply list_elem_of_fmap_2, list_elem_of_In, filter_In.
    split; [by apply list_elem_of_In|done]. }
  destruct (map documented (List.filter test l)) as [|m ms] eqn:Hms.
  - by apply elem_of_nil in Hin.
  - by eexists.
Qed.

Lemma not_listed (test : Symbol -> bool) (l : list Symbol) (p : Symbol) :
  NoDup (map ts.name l) -> p ∈ l -> test p = false ->
  ts.name p ∉
    map VueInfo.name (orEmpty (nonEmpty (map documented (List.filter test l)))).
Proof.
  intros Hnd Hp Htest. rewrite orEmpty_nonEmpty, documented_name.
  intros (q & Hname & Hq)%list_elem_of_fmap.
  apply list_elem_of_In, filter_In in Hq as [Hq Hqtest].
  apply list_elem_of_In in Hq.
  assert (p = q) as -> by (by apply (same_name_same_member l)).
  congruence.
Qed.

(** X3: In a class component, a field decorated with [Prop] or [Model]
    is listed among the props and is not listed among the data. *)
Theorem prop_decorated_field_is_prop_not_data
    (t : Type_) (p : Symbol) (d d0 : Node) (rest : list Node)
    (ds : list Decorator) (dec : Decorator) :
  declared t ->
  NoDup (map ts.name (getProperties t)) ->
  p ∈ getProperties t ->
  valueDeclaration p = Some d ->
  isKind SyntaxKind.PropertyDeclaration d = true ->
  declarations p = d0 :: rest ->
  decorators d0 = Some ds ->
  dec ∈ ds ->
  decoratorName dec ∈ ["Prop"; "Model"] ->
  (exists ps, getClassProps t = Ok (Some ps) /\ documented p ∈ ps)
  /\ (exists r,
        getClassData t = Ok r
        /\ ts.name p ∉ map VueInfo.name (orEmpty r)).
Proof.
  intros Ht Hnd Hp Hd Hk Hdecl Hds Hdec Hname.
  pose proof (decoratorNamesOf_decorated _ _ _ _ _ _ _ Hd Hk Hdecl Hds Hdec) as Hn.
  split.
  - rewrite (getClassProps_members _ Ht).
    destruct (listed propMember (getProperties t) p Hp) as (ps & -> & Hin).
    + unfold propMember, decoratedAmong.
      apply (existsb_includes _ _ _ Hn).
      apply elem_of_cons in Hname as [->|Hname]; [repeat constructor|].
      apply elem_of_cons in Hname as [->|Hname]; [repeat constructor|].
      by apply elem_of_nil in Hname.
    + by eexists.
  - eexists. split; [by apply getClassData_members|].
    apply not_listed; [done..|].
    unfold dataMember, decoratedAmong.
    rewrite (existsb_includes _ _ _ Hn); [done|].
    apply elem_of_cons in Hname as [->|Hname]; [repeat constructor|].
    apply elem_of_cons in Hname as [->|Hname]; [repeat constructor|].
    by apply elem_of_nil in Hname.
Qed.

(** X4: The class rules test the kind of a member only to read its
    decorators: a member that is no property declaration, such as a
    method, is listed among the data unless its name begins with [_] or
    [$], and a member that is no method declaration, such as a field, is
    listed among the methods unless it is named like a lifecycle hook. *)
Theorem members_of_another_kind_are_listed (t : Type_) (p : Symbol) (d : Node) :
  declared t ->
  p ∈ getProperties t ->
  valueDeclaration p = Some d ->
  (isKind SyntaxKind.PropertyDeclaration d = false ->
   startsWith "_" (ts.name p) = false ->
   startsWith "$" (ts.name p) = false ->
   exists entries, getClassData t = Ok (Some entries) /\ documented p ∈ entries)
  /\ (isKind SyntaxKind.MethodDeclaration d = false ->
      isInternalHook (ts.name p) = false ->
      exists entries, getClassMethods t = Ok (Some entries) /\ documented p ∈ entries).
Proof.
  intros Ht Hp Hd. split.
  - intros Hk H1 H2. rewrite (getClassData_members _ Ht).
    destruct (listed dataMember (getProperties t) p Hp) as (ms & -> & Hin).
    + unfold dataMember, decoratedAmong.
      by rewrite (decoratorNamesOf_other_kind _ _ _ Hd Hk), H1, H2.
    + by eexists.
  - intros Hk Hhook. rewrite (getClassMethods_members _ Ht).
    destruct (listed methodMember (getProperties t) p Hp) as (ms & -> & Hin).
    + unfold methodMember, decoratedAmong.
      by rewrite (decoratorNamesOf_other_kind _ _ _ Hd Hk), Hhook.
    + by eexists.
Qed.

(** X5: No method entry of a class component is named like a lifecycle
    hook, and a method decorated with [Watch] is not listed. *)
Theorem hooks_and_watchers_are_no_methods (t : Type_) :
  declared t ->
  exists r,
    getClassMethods t = Ok r
    /\ (forall e, e ∈ orEmpty r -> isInternalHook (VueInfo.name e) = false)
    /\ (forall p d d0 rest ds dec,
          NoDup (map ts.name (getProperties t)) ->
          p ∈ getProperties t ->
          valueDeclaration p = Some d ->
          isKind SyntaxKind.MethodDeclaration d = true ->
          declarations p = d0 :: rest ->
          decorators d0 = Some ds ->
          dec ∈ ds ->
          decoratorName dec = "Watch" ->
          ts.name p ∉ map VueInfo.name (orEmpty r)).
Proof.
  intros Ht. eexists. split; [by apply getClassMethods_members|]. split.
  - intros e. rewrite orEmpty_nonEmpty.
    intros (q & -> & Hq)%list_elem_of_fmap.
    apply list_elem_of_In, filter_In in Hq as [_ Hq].
    unfold methodMember in Hq. apply andb_prop in Hq as [_ Hq].
    by apply negb_true_iff in Hq.
  - intros p d d0 rest ds dec Hnd Hp Hd Hk Hdecl Hds Hdec Hname.
    apply not_listed; [done..|].
    pose proof (decoratorNamesOf_decorated _ _ _ _ _ _ _ Hd Hk Hdecl Hds Hdec) as Hn.
    unfold methodMember, decoratedAmong.
    rewrite (existsb_includes _ _ _ Hn); [done|].
    rewrite Hname. repeat constructor.
Qed.

Lemma getClassAndObjectInfo_class_throws {A} tsModule checker t
    (classRule objectRule : Type_ -> Res (option (list A))) :
  isClassType tsModule t = true ->
  classRule t = Throw ->
  getClassAndObjectInfo tsModule checker t classRule objectRule = Throw.
Proof. intros Hclass Hrule. unfold getClassAndObjectInfo. by rewrite Hclass, Hrule. Qed.

Lemma hasDecoratorIn_undeclared names k p :
  valueDeclaration p = None -> hasDecoratorIn names k p = Throw.
Proof.
  intros Hp. unfold hasDecoratorIn, getPropertyDecoratorNames. by rewrite Hp.
Qed.

(** X6: A member without a value declaration makes every class rule
    throw, and with them the analysis of the class component. *)
Theorem member_without_declaration_breaks_class_analysis
    tsModule checker (t : Type_) (p : Symbol) :
  isClassType tsModule t = true ->
  p ∈ getProperties t ->
  valueDeclaration p = None ->
  getProps tsModule checker t = Throw
  /\ getData tsModule checker t = Throw
  /\ getComputed tsModule checker t = Throw
  /\ getMethods tsModule checker t = Throw
  /\ (forall n,
        getTypeAtLocation checker n = t ->
        analyzeDefaultExportExpr tsModule checker n = Throw).
Proof.
  intros Hclass Hp Hd.
  assert (getProps tsModule checker t = Throw) as Hprops.
  { unfold getProps. rewrite getClassAndObjectInfo_class_throws; [done..|].
    unfold getClassProps.
    by rewrite (filterM_throw _ _ p Hp (hasDecoratorIn_undeclared _ _ _ Hd)). }
  repeat split; [done|..].
  - unfold getData. rewrite getClassAndObjectInfo_class_throws; [done..|].
    unfold getClassData. rewrite (filterM_throw _ _ p Hp); [done|].
    unfold isClassDataMember. by rewrite (hasDecoratorIn_undeclared _ _ _ Hd).
  - unfold getComputed. rewrite getClassAndObjectInfo_class_throws; [done..|].
    unfold getClassComputed.
    rewrite (filterM_throw (hasValueDeclarationKind SyntaxKind.GetAccessor) _ p Hp);
      [done|].
    unfold hasValueDeclarationKind. by rewrite Hd.
  - unfold getMethods. rewrite getClassAndObjectInfo_class_throws; [done..|].
    unfold getClassMethods. rewrite (filterM_throw _ _ p Hp); [done|].
    unfold isClassMethodMember. by rewrite (hasDecoratorIn_undeclared _ _ _ Hd).
  - intros n Hn. unfold analyzeDefaultExportExpr. by rewrite Hn, Hprops.
Qed.

Lemma getObjectProps_total checker t : exists r, getObjectProps checker t = Ok r.
Proof.
  unfold getObjectProps.
  destruct (getPropertyOfType checker t "props") as [s|]; [|by eexists].
  destruct (valueDeclaration s) as [vd|]; [|by eexists].
  destruct (getLastChild vd) as [n|]; [|by eexists].
  destruct (shape n) as [| | | |[]]; by eexists.
Qed.

Lemma getObjectData_total checker t : exists r, getObjectData checker t = Ok r.
Proof.
  unfold getObjectData.
  destruct (getPropertyOfType checker t "data") as [s|]; [|by eexists].
  destruct (valueDeclaration s) as [vd|]; [|by eexists].
  destruct (getCallSignatures _); by eexists.
Qed.

Lemma getClassAndObjectInfo_object {A} tsModule checker t
    (classRule objectRule : Type_ -> Res (option (list A))) r :
  isClassType tsModule t = false ->
  objectRule t = Ok r ->
  getClassAndObjectInfo tsModule checker t classRule objectRule = Ok (orEmpty r).
Proof. intros Hclass Hrule. unfold getClassAndObjectInfo. by rewrite Hclass, Hrule. Qed.

(** X7: The analysis of a component whose type is no class never throws:
    each category is what its object rule finds, and no child components
    are set. *)
Theorem object_component_analysis_returns tsModule checker (n : Node) :
  isClassType tsModule (getTypeAtLocation checker n) = false ->
  exists props data computed methods,
    getObjectProps checker (getTypeAtLocation checker n) = Ok props
    /\ getObjectData checker (getTypeAtLocation checker n) = Ok data
    /\ getObjectComputed checker (getTypeAtLocation checker n) = Ok computed
    /\ getObjectMethods checker (getTypeAtLocation checker n) = Ok methods
    /\ analyzeDefaultExportExpr tsModule checker n
       = Ok (MkVueFileInfo None
               (nonEmpty (orEmpty props)) (nonEmpty (orEmpty data))
               (nonEmpty (orEmpty computed)) (nonEmpty (orEmpty methods))).
Proof.
  intros Hclass. set (t := getTypeAtLocation checker n) in *.
  destruct (getObjectProps_total checker t) as [props Hprops].
  destruct (getObjectData_total checker t) as [data Hdata].
  destruct (getObjectMembers_total checker "computed" t) as [computed Hcomputed].
  destruct (getObjectMembers_total checker "methods" t) as [methods Hmethods].
  exists props, data, computed, methods. repeat split; [done..|].
  unfold analyzeDefaultExportExpr, getProps, getData, getComputed, getMethods.
  fold t.
  rewrite (getClassAndObjectInfo_object _ _ _ _ _ props Hclass Hprops).
  rewrite (getClassAndObjectInfo_object _ _ _ _ _ data Hclass Hdata).
  rewrite (getClassAndObjectInfo_object _ _ _ _ _ computed Hclass Hcomputed).
  rewrite (getClassAndObjectInfo_object _ _ _ _ _ methods Hclass Hmethods).
  reflexivity.
Qed.

Lemma land_pow2 (a i : Z) :
  0 <= i -> Z.land a (2 ^ i) = if Z.testbit a i then 2 ^ i else 0.
Proof.
  intros Hi. apply Z.bits_inj'. intros k Hk.
  rewrite Z.land_spec, (Z.pow2_bits_eqb i k Hi).
  destruct (Z.eqb_spec i k) as [->|Hne].
  - destruct (Z.testbit a k) eqn:Hbit; cbn [andb].
    + by rewrite Z.pow2_bits_true.
    + by rewrite Z.bits_0.
  - rewrite andb_false_r. destruct (Z.testbit a i).
    + rewrite (Z.pow2_bits_eqb i k Hi). symmetry. by apply Z.eqb_neq.
    + by rewrite Z.bits_0.
Qed.

Lemma bitAnd_pow2_eqb (a i : Z) :
  0 <= i < 32 -> (bitAnd a (2 ^ i) =? 0) = negb (Z.testbit a i).
Proof.
  intros Hi. unfold bitAnd.
  assert (0 < 2 ^ i < 2 ^ 32) as Hpow.
  { split; [apply Z.pow_pos_nonneg; lia|apply Z.pow_lt_mono_r; lia]. }
  rewrite (Z.mod_small (2 ^ i)) by lia.
  rewrite land_pow2 by lia.
  rewrite Z.mod_pow2_bits_low by lia.
  destruct (Z.testbit a i); cbn [negb].
  - apply Z.eqb_neq. unfold toInt32. rewrite (Z.mod_small (2 ^ i)) by lia.
    destruct (2 ^ i <? 2 ^ 31); lia.
  - reflexivity.
Qed.

(** X8: Where the type has no [isClass] method, [isClassType] reads two
    bits: the object bit of [flags] and the class bit of [objectFlags],
    both among the 32 bits that [&] works on. *)
Theorem isClassType_reads_two_bits tsModule (t : Type_) (i j : Z) :
  isClass t = None ->
  0 <= i < 32 -> 0 <= j < 32 ->
  TypeFlags_Object tsModule = 2 ^ i ->
  ObjectFlags_Class tsModule = 2 ^ j ->
  isClassType tsModule t = Z.testbit (flags t) i && Z.testbit (objectFlags t) j.
Proof.
  intros Hnone Hi Hj Hobject Hclass. unfold isClassType.
  rewrite Hnone, Hobject, Hclass, (bitAnd_pow2_eqb _ i Hi), negb_involutive.
  destruct (Z.testbit (flags t) i); cbn [andb].
  - by rewrite (bitAnd_pow2_eqb _ j Hj), negb_involutive.
  - rewrite (bitAnd_pow2_eqb _ j Hj), negb_involutive. apply Z.bits_0.
Qed.

Lemma analysis_of_object_returns tsModule checker (n : Node) :
  isClassType tsModule (getTypeAtLocation checker n) = false ->
  exists i, analyzeDefaultExportExpr tsModule checker n = Ok i.
Proof.
  intros Hclass. set (t := getTypeAtLocation checker n) in *.
  destruct (getObjectProps_total checker t) as [props Hprops].
  destruct (getObjectData_total checker t) as [data Hdata].
  destruct (getObjectMembers_total checker "computed" t) as [computed Hcomputed].
  destruct (getObjectMembers_total checker "methods" t) as [methods Hmethods].
  unfold analyzeDefaultExportExpr, getProps, getData, getComputed, getMethods.
  fold t.
  rewrite (getClassAndObjectInfo_object _ _ _ _ _ props Hclass Hprops).
  rewrite (getClassAndObjectInfo_object _ _ _ _ _ data Hclass Hdata).
  rewrite (getClassAndObjectInfo_object _ _ _ _ _ computed Hclass Hcomputed).
  rewrite (getClassAndObjectInfo_object _ _ _ _ _ methods Hclass Hmethods).
  by eexists.
Qed.

Lemma mapM_related {A B} (f : A -> Res B) (R : A -> B -> Prop) (l : list A) :
  Forall (fun x => exists y, f x = Ok y /\ R x y) l ->
  exists ys, mapM f l = Ok ys /\ Forall2 R l ys.
Proof.
  induction 1 as [|x l (y & Hy & Hxy) Hl (ys & Hys & Hrel)].
  - by exists [].
  - exists (y :: ys). cbn [mapM]. rewrite Hy, Hys. split; [done|].
    by constructor.
Qed.

(** X22: The child components are stored as the finder reports them, in
    its order, each with the analysis of its own default export, and the
    members of the root stay as they were analysed; this for children
    whose default exports are no classes, whose analysis cannot throw. *)
Theorem child_components_follow_the_finder
    tsModule (finder : ChildComponentsFinder) checker casing
    (n : Node) (info : VueFileInfo) (found : list InternalChildComponent) :
  finder (getTypeAtLocation checker n) checker casing = Some found ->
  Forall (objectChild tsModule checker) found ->
  exists info' stored,
    attachChildComponents tsModule finder checker casing n info = Ok info'
    /\ childComponents info' = Some stored
    /\ Forall2 (storedAs tsModule checker) found stored
    /\ props info' = props info
    /\ data info' = data info
    /\ computed info' = computed info
    /\ methods info' = methods info.
Proof.
  intros Hfound Hobject. unfold attachChildComponents. rewrite Hfound.
  match goal with
  | |- context [mapM ?f found] =>
      destruct (mapM_related f (storedAs tsModule checker) found)
        as (stored & -> & Hstored)
  end.
  - eapply Forall_impl; [exact Hobject|]. intros c Hc. unfold objectChild in Hc.
    unfold storedAs. destruct (child_defaultExportNode c) as [m|].
    + destruct (analysis_of_object_returns tsModule checker m (Hc m eq_refl))
        as [i Hi].
      rewrite Hi. eexists. split; [reflexivity|]. repeat split. by exists i.
    + eexists. split; [reflexivity|]. by repeat split.
  - exists (set_childComponents stored info), stored.
    split; [done|]. by destruct info.
Qed.

(** X23: The object rules read a declaration of the expected shape only:
    [props] that are neither an array literal nor an object literal,
    [data] that cannot be called, and [computed] or [methods] that are no
    object literal give no entries. *)
Theorem object_rules_need_their_shape tsModule checker (t : Type_) :
  isClassType tsModule t = false ->
  (forall s vd value,
      getPropertyOfType checker t "props" = Some s ->
      valueDeclaration s = Some vd ->
      getLastChild vd = Some value ->
      kind value <> SyntaxKind.ArrayLiteralExpression ->
      kind value <> SyntaxKind.ObjectLiteralExpression ->
      getProps tsModule checker t = Ok None)
  /\ (forall s vd,
        getPropertyOfType checker t "data" = Some s ->
        valueDeclaration s = Some vd ->
        getCallSignatures (getTypeOfSymbolAtLocation checker s vd) = [] ->
        getData tsModule checker t = Ok None)
  /\ (forall s vd value,
        getPropertyOfType checker t "computed" = Some s ->
        valueDeclaration s = Some vd ->
        getLastChild vd = Some value ->
        kind value <> SyntaxKind.ObjectLiteralExpression ->
        getComputed tsModule checker t = Ok None)
  /\ (forall s vd value,
        getPropertyOfType checker t "methods" = Some s ->
        valueDeclaration s = Some vd ->
        getLastChild vd = Some value ->
        kind value <> SyntaxKind.ObjectLiteralExpression ->
        getMethods tsModule checker t = Ok None).
Proof.
  intros Hclass.
  assert (forall key s vd value,
            getPropertyOfType checker t key = Some s ->
            valueDeclaration s = Some vd ->
            getLastChild vd = Some value ->
            kind value <> SyntaxKind.ObjectLiteralExpression ->
            getObjectMembers checker key t = Ok None) as Hmembers.
  { intros key s vd value Hs Hvd Hvalue Hkind. unfold getObjectMembers.
    rewrite Hs, Hvd, Hvalue. unfold isKind. by rewrite bool_decide_eq_false_2. }
  repeat split.
  - intros s vd value Hs Hvd Hvalue Harray Hobject. unfold getProps.
    rewrite (getClassAndObjectInfo_object _ _ _ _ _ None Hclass); [done|].
    unfold getObjectProps. rewrite Hs, Hvd, Hvalue.
    unfold kind in Harray, Hobject.
    by destruct (shape value) as [| | | |[]].
  - intros s vd Hs Hvd Hsignatures. unfold getData.
    rewrite (getClassAndObjectInfo_object _ _ _ _ _ None Hclass); [done|].
    unfold getObjectData. by rewrite Hs, Hvd, Hsignatures.
  - intros s vd value Hs Hvd Hvalue Hkind. unfold getComputed.
    rewrite (getClassAndObjectInfo_object _ _ _ _ _ None Hclass); [done|].
    by apply (Hmembers "computed" s vd value).
  - intros s vd value Hs Hvd Hvalue Hkind. unfold getMethods.
    rewrite (getClassAndObjectInfo_object _ _ _ _ _ None Hclass); [done|].
    by apply (Hmembers "methods" s vd value).
Qed.

End ClassMembers.

Section ClassMemberExamples.
Import ts VueInfo ComponentInfo Behaviour Samples MoreSamples.

Lemma widget_declared : declared widgetType.
Proof. repeat constructor; by eexists. Qed.

Lemma widget_names : NoDup (map ts.name (getProperties widgetType)).
Proof. apply (bool_decide_unpack _). vm_compute. exact I. Qed.

Lemma prop_decorated_field_is_prop_not_data_witness :
  (exists ps, getClassProps widgetType = Ok (Some ps) /\ documented title ∈ ps)
  /\ (exists r,
        getClassData widgetType = Ok r
        /\ "title" ∉ map VueInfo.name (orEmpty r)).
Proof.
  apply (prop_decorated_field_is_prop_not_data widgetType title titleField titleField []
           [MkDecorator (node (CallExpression (ident "Prop") []) "Prop()" [])]
           (MkDecorator (node (CallExpression (ident "Prop") []) "Prop()" []))
           widget_declared widget_names);
    first [reflexivity | repeat constructor].
Defined.

Lemma members_of_another_kind_are_listed_witness :
  (exists entries, getClassData widgetType = Ok (Some entries)
                   /\ documented greet ∈ entries)
  /\ (exists entries, getClassMethods widgetType = Ok (Some entries)
                      /\ documented count ∈ entries).
Proof.
  split.
  - apply (members_of_another_kind_are_listed widgetType greet greetMethod
             widget_declared); first [reflexivity | repeat constructor].
  - apply (members_of_another_kind_are_listed widgetType count countField
             widget_declared); first [reflexivity | repeat constructor].
Defined.

Lemma hooks_and_watchers_are_no_methods_witness :
  exists r,
    getClassMethods widgetType = Ok r
    /\ (forall e, e ∈ orEmpty r -> isInternalHook (VueInfo.name e) = false)
    /\ "onCount" ∉ map VueInfo.name (orEmpty r).
Proof.
  destruct (hooks_and_watchers_are_no_methods widgetType widget_declared)
    as (r & Hr & Hhooks & Hwatch).
  exists r. split; [done|]. split; [done|].
  apply (Hwatch onCount onCountMethod onCountMethod []
           [MkDecorator (node (CallExpression (ident "Watch") []) "Watch('count')" [])]
           (MkDecorator (node (CallExpression (ident "Watch") []) "Watch('count')" []))
           widget_names);
    first [reflexivity | repeat constructor].
Defined.

Lemma member_without_declaration_breaks_class_analysis_witness :
  getProps tsModule checker hauntedType = Throw
  /\ getMethods tsModule checker hauntedType = Throw.
Proof.
  destruct (member_without_declaration_breaks_class_analysis
              tsModule checker hauntedType ghost)
    as (Hprops & _ & _ & Hmethods & _);
    first [done | reflexivity | repeat constructor].
Defined.

Lemma object_component_analysis_returns_witness :
  exists props data computed methods,
    analyzeDefaultExportExpr tsModule checker optionsLiteral
    = Ok (MkVueFileInfo None props data computed methods).
Proof.
  destruct (object_component_analysis_returns tsModule checker optionsLiteral eq_refl)
    as (props & data & computed & methods & _ & _ & _ & _ & Hinfo).
  by eexists _, _, _, _.
Defined.

Lemma isClassType_reads_two_bits_witness :
  isClassType tsModule widgetType = true.
Proof.
  rewrite (isClassType_reads_two_bits tsModule widgetType 19 0);
    first [reflexivity | lia].
Defined.

End ClassMemberExamples.

(** ** The operations on a root file *)
Section RootFile.
Import lsp Types Javascript ModeSpec Behaviour.

Variable host : Host.

Lemma languageServiceIncludesFile_absent service documentUri st :
  ts.getProgram service = None ->
  languageServiceIncludesFile host service documentUri st
  = (Throw, logged GetProgram st).
Proof.
  intros Hp. unfold languageServiceIncludesFile.
  rewrite bind_run. unfold query. rewrite Hp. reflexivity.
Qed.

Lemma included_run service documentUri program st :
  ts.getProgram service = Some program ->
  getFilePath host documentUri ∈ ts.getRootFileNames program ->
  languageServiceIncludesFile host service documentUri st
  = (Ok true, logged GetProgram st).
Proof.
  intros Hp Hin. rewrite (languageServiceIncludesFile_run host _ _ program st Hp).
  unfold includes. by rewrite bool_decide_eq_true_2.
Qed.

(** X9: While the language service has no program, each of the nine
    guarded operations throws, after the one request for the program. *)
Theorem guarded_operations_need_a_program doc scriptDoc service st :
  updateCurrentVueTextDocument host doc = (scriptDoc, service) ->
  ts.getProgram service = None ->
  doValidation host doc st = (Throw, logged GetProgram st)
  /\ (forall position,
        doComplete host doc position st = (Throw, logged GetProgram st))
  /\ (forall item, doResolve host doc item st = (Throw, logged GetProgram st))
  /\ (forall position, doHover host doc position st = (Throw, logged GetProgram st))
  /\ (forall position,
        doSignatureHelp host doc position st = (Throw, logged GetProgram st))
  /\ (forall position,
        findDocumentHighlight host doc position st = (Throw, logged GetProgram st))
  /\ findDocumentSymbols host doc st = (Throw, logged GetProgram st)
  /\ (forall position,
        findDefinition host doc position st = (Throw, logged GetProgram st))
  /\ (forall position,
        findReferences host doc position st = (Throw, logged GetProgram st)).
Proof.
  intros Hupd Hp.
  pose proof (languageServiceIncludesFile_absent service (uri doc) st Hp) as Hrun.
  unfold doValidation, doComplete, doResolve, doHover, doSignatureHelp,
    findDocumentHighlight, findDocumentSymbols, findDefinition, findReferences.
  rewrite Hupd.
  repeat split; intros; rewrite bind_run, Hrun; reflexivity.
Qed.

(** X10: When the language service has a program, [doComplete] always
    answers: the list is complete, the configuration is as before, and
    every item is for the document and the position asked about and
    carries the data [doResolve] reads, with the offset of the position
    in the script. *)
Theorem completion_items_carry_resolution_data
    doc position scriptDoc service program st :
  updateCurrentVueTextDocument host doc = (scriptDoc, service) ->
  ts.getProgram service = Some program ->
  exists l,
    fst (doComplete host doc position st) = Ok l
    /\ isIncomplete l = false
    /\ config (snd (doComplete host doc position st)) = config st
    /\ (forall item,
          item ∈ items l ->
          item_uri item = uri doc
          /\ item_position item = position
          /\ exists source,
               data item
               = Some {| data_languageId := languageId scriptDoc;
                         data_uri := uri doc;
                         data_offset := offsetAt scriptDoc position;
                         data_source := source |}).
Proof.
  intros Hupd Hp. unfold doComplete. rewrite Hupd, bind_run.
  rewrite (languageServiceIncludesFile_run host _ _ program st Hp).
  assert (forall st',
            config st' = config st ->
            exists l,
              fst (Ok emptyCompletionList, st') = Ok l
              /\ isIncomplete l = false
              /\ config (snd (Ok emptyCompletionList, st')) = config st
              /\ (forall item,
                    item ∈ items l ->
                    item_uri item = uri doc
                    /\ item_position item = position
                    /\ exists source,
                         data item
                         = Some {| data_languageId := languageId scriptDoc;
                                   data_uri := uri doc;
                                   data_offset := offsetAt scriptDoc position;
                                   data_source := source |})) as Hempty.
  { intros st' Hst'. exists emptyCompletionList.
    split; [done|]. split; [done|]. split; [done|].
    intros item Hitem. by apply elem_of_nil in Hitem. }
  destruct (includes _ (ts.getRootFileNames program)); cbn [negb];
    [|by apply Hempty].
  destruct (includes (charAt _ _) _); [by apply Hempty|].
  rewrite bind_run. cbn [get_config]. rewrite bind_run. cbn [query].
  destruct (ts.getCompletionsAtPosition _ _ _ _) as [completions|];
    [|by apply Hempty].
  eexists. split; [reflexivity|]. split; [reflexivity|]. split; [reflexivity|].
  cbn [items]. intros item (entry & -> & _)%list_elem_of_fmap.
  unfold completionItemOf.
  destruct (calculateLabelAndDetailTextForPathImport entry) as [label detail].
  split; [done|]. split; [done|]. by eexists.
Qed.

Lemma convertCodeAction_region doc codeActions region :
  firstScriptRegion host doc = Some region ->
  exists edits, convertCodeAction host doc codeActions = Ok edits.
Proof. intros Hregion. unfold convertCodeAction. rewrite Hregion. by eexists. Qed.

(** X11: The data of a completion item is spent by its resolution: once
    the language service has details for an item that is no file and no
    folder, [doResolve] returns the item with the details and without
    its data, and resolving that item once more throws. *)
Theorem resolved_item_is_resolved_once
    doc scriptDoc service program item d details region st :
  updateCurrentVueTextDocument host doc = (scriptDoc, service) ->
  ts.getProgram service = Some program ->
  getFilePath host (uri doc) ∈ ts.getRootFileNames program ->
  firstScriptRegion host doc = Some region ->
  data item = Some d ->
  item_kind item <> CompletionItemKind.File ->
  item_kind item <> CompletionItemKind.Folder ->
  ts.getCompletionEntryDetails service (getFileFsPath host (uri doc))
    (data_offset d) (label item) (getFormatCodeSettings (config st)) (data_source d)
    = Some details ->
  exists resolved,
    fst (doResolve host doc item st) = Ok resolved
    /\ label resolved = label item
    /\ detail resolved
       = Some (displayPartsToString host (ts.details_displayParts details))
    /\ data resolved = None
    /\ forall st', fst (doResolve host doc resolved st') = Throw.
Proof.
  intros Hupd Hp Hin Hregion Hdata Hfile Hfolder Hdetails.
  assert (forall resolved st',
            data resolved = None -> fst (doResolve host doc resolved st') = Throw)
    as Hspent.
  { intros resolved st' Hnone. unfold doResolve.
    rewrite Hupd, bind_run, (included_run _ _ program st' Hp Hin).
    cbn [negb]. rewrite bind_run. unfold lift. by rewrite Hnone. }
  unfold doResolve at 1.
  rewrite Hupd, bind_run, (included_run _ _ program st Hp Hin).
  cbn [negb]. rewrite bind_run. unfold lift at 1. rewrite Hdata. cbn [deref].
  rewrite bind_run. cbn [get_config]. rewrite bind_run. cbn [query config logged].
  rewrite Hdetails.
  apply Z.eqb_neq in Hfile, Hfolder. rewrite Hfile, Hfolder. cbn [negb andb].
  rewrite bind_run.
  destruct (ts.codeActions details) as [codeActions|];
    [destruct (autoImport (config st))|].
  - rewrite bind_run. unfold lift.
    destruct (convertCodeAction_region doc codeActions region Hregion)
      as [edits ->].
    eexists. split; [reflexivity|]. cbn. repeat split. intros st'. by apply Hspent.
  - eexists. split; [reflexivity|]. cbn. repeat split. intros st'. by apply Hspent.
  - eexists. split; [reflexivity|]. cbn. repeat split. intros st'. by apply Hspent.
Qed.

(** X21: On a document of the program, a request the language service
    answers with nothing gets the neutral answer: no completions, the
    item as it was, no hover, the null signature, and no highlights,
    symbols, definitions or references. *)
Theorem absent_answers_give_neutral_results doc scriptDoc service program st :
  updateCurrentVueTextDocument host doc = (scriptDoc, service) ->
  ts.getProgram service = Some program ->
  getFilePath host (uri doc) ∈ ts.getRootFileNames program ->
  (forall position,
      ts.getCompletionsAtPosition service (getFileFsPath host (uri doc))
        (offsetAt scriptDoc position) (autoImport (config st)) = None ->
      fst (doComplete host doc position st)
      = Ok {| isIncomplete := false; items := [] |})
  /\ (forall item d,
        data item = Some d ->
        ts.getCompletionEntryDetails service (getFileFsPath host (uri doc))
          (data_offset d) (label item) (getFormatCodeSettings (config st))
          (data_source d) = None ->
        fst (doResolve host doc item st) = Ok item)
  /\ (forall position,
        ts.getQuickInfoAtPosition service (getFileFsPath host (uri doc))
          (offsetAt scriptDoc position) = None ->
        fst (doHover host doc position st)
        = Ok {| hover_range := None; contents := [] |})
  /\ (forall position,
        ts.getSignatureHelpItems service (getFileFsPath host (uri doc))
          (offsetAt scriptDoc position) = None ->
        fst (doSignatureHelp host doc position st) = Ok (NULL_SIGNATURE host))
  /\ (forall position,
        ts.getOccurrencesAtPosition service (getFileFsPath host (uri doc))
          (offsetAt scriptDoc position) = None ->
        fst (findDocumentHighlight host doc position st) = Ok [])
  /\ (ts.getNavigationBarItems service (getFileFsPath host (uri doc)) = None ->
      fst (findDocumentSymbols host doc st) = Ok [])
  /\ (forall position,
        ts.getDefinitionAtPosition service (getFileFsPath host (uri doc))
          (offsetAt scriptDoc position) = None ->
        fst (findDefinition host doc position st) = Ok [])
  /\ (forall position,
        ts.getReferencesAtPosition service (getFileFsPath host (uri doc))
          (offsetAt scriptDoc position) = None ->
        fst (findReferences host doc position st) = Ok []).
Proof.
  intros Hupd Hp Hin.
  pose proof (included_run service (uri doc) program st Hp Hin) as Hrun.
  unfold doComplete, doResolve, doHover, doSignatureHelp, findDocumentHighlight,
    findDocumentSymbols, findDefinition, findReferences.
  rewrite Hupd.
  split; [|split; [|repeat split]].
  - intros position Hnone. rewrite bind_run, Hrun. cbn [negb].
    destruct (includes (charAt _ _) _); [done|].
    rewrite bind_run. cbn [get_config]. rewrite bind_run. cbn [query config logged].
    by rewrite Hnone.
  - intros item d Hdata Hnone. rewrite bind_run, Hrun. cbn [negb].
    rewrite bind_run. unfold lift. rewrite Hdata. cbn [deref].
    rewrite bind_run. cbn [get_config]. rewrite bind_run. cbn [query config logged].
    by rewrite Hnone.
  - intros position Hnone. rewrite bind_run, Hrun. cbn [negb].
    rewrite bind_run. cbn [query]. by rewrite Hnone.
  - intros position Hnone. rewrite bind_run, Hrun. cbn [negb].
    rewrite bind_run. cbn [query]. by rewrite Hnone.
  - intros position Hnone. rewrite bind_run, Hrun. cbn [negb].
    rewrite bind_run. cbn [query]. by rewrite Hnone.
  - intros Hnone. rewrite bind_run, Hrun. cbn [negb].
    rewrite bind_run. cbn [query]. by rewrite Hnone.
  - intros position Hnone. rewrite bind_run, Hrun. cbn [negb].
    rewrite bind_run. cbn [query]. by rewrite Hnone.
  - intros position Hnone. rewrite bind_run, Hrun. cbn [negb].
    rewrite bind_run. cbn [query]. by rewrite Hnone.
Qed.

End RootFile.

(** ** Labels of path completions *)
Section PathLabels.
Import lsp Types Javascript Behaviour.

Lemma append_assoc (a b c : string) : (a +:+ b) +:+ c = a +:+ (b +:+ c).
Proof.
  induction a as [|x a IH]; [done|]. by rewrite !append_cons, IH.
Qed.

Lemma length_append (a b : string) :
  String.length (a +:+ b) = (String.length a + String.length b)%nat.
Proof.
  induction a as [|x a IH]; [done|]. rewrite append_cons. cbn. by rewrite IH.
Qed.

Lemma substring_append (a b : string) :
  String.substring 0 (String.length a) (a +:+ b) = a.
Proof.
  induction a as [|x a IH]; [by destruct b|].
  rewrite append_cons. cbn. by rewrite IH.
Qed.

Lemma rev_app_append (s acc : string) :
  String.rev_app s acc = String.rev_app s "" +:+ acc.
Proof.
  revert acc. induction s as [|x s IH]; intros acc; [done|].
  cbn [String.rev_app]. rewrite (IH (String x acc)), (IH (String x "")).
  by rewrite append_assoc.
Qed.

Lemma rev_cons (x : Ascii.ascii) (s : string) :
  String.rev (String x s) = String.rev s +:+ String x "".
Proof. unfold String.rev. cbn [String.rev_app]. apply rev_app_append. Qed.

Lemma rev_append (a b : string) :
  String.rev (a +:+ b) = String.rev b +:+ String.rev a.
Proof.
  induction a as [|x a IH].
  - rewrite append_nil_l. by rewrite append_empty_r.
  - by rewrite append_cons, !rev_cons, IH, append_assoc.
Qed.

Lemma rev_involutive (s : string) : String.rev (String.rev s) = s.
Proof.
  induction s as [|x s IH]; [done|]. by rewrite rev_cons, rev_append, IH.
Qed.

Lemma prefix_append (p s : string) :
  String.prefix p s = true -> exists t, s = p +:+ t.
Proof.
  revert s. induction p as [|x p IH]; intros s Hp; [by exists s|].
  destruct s as [|y s]; [done|]. cbn in Hp.
  destruct (Ascii.ascii_dec x y) as [->|]; [|done].
  destruct (IH s Hp) as [t ->]. by exists t.
Qed.

Lemma endsWith_append (suffix s : string) :
  endsWith suffix s = true -> exists front, s = front +:+ suffix.
Proof.
  intros [t Ht]%prefix_append. exists (String.rev t).
  by rewrite <- (rev_involutive s), Ht, rev_append, rev_involutive.
Qed.

Lemma dropEnd_append (front suffix : string) :
  dropEnd (String.length suffix) (front +:+ suffix) = front.
Proof.
  unfold dropEnd. rewrite length_append.
  replace (String.length front + String.length suffix - String.length suffix)%nat
    with (String.length front) by lia.
  apply substring_append.
Qed.

(** X12: For an import path that ends in [.vue] and has no kind
    modifiers, the label is the path without the ending, so that label
    and ending give the path back, and the detail is the whole path. *)
Theorem vue_path_label_and_ending_give_the_path (entry : ts.CompletionEntry) :
  ts.entry_kind entry = "script" ->
  truthy (ts.kindModifiers entry) = false ->
  endsWith ".vue" (ts.entry_name entry) = true ->
  (calculateLabelAndDetailTextForPathImport entry).1 +:+ ".vue"
    = ts.entry_name entry
  /\ (calculateLabelAndDetailTextForPathImport entry).2
     = Some (ts.entry_name entry).
Proof.
  intros Hkind Hmod Hends. unfold calculateLabelAndDetailTextForPathImport.
  rewrite Hkind, Hmod, Hends. cbn [fst snd]. split; [|done].
  destruct (endsWith_append _ _ Hends) as [front ->].
  pose proof (dropEnd_append front ".vue") as Hfront.
  cbn [String.length] in Hfront. by rewrite Hfront.
Qed.

End PathLabels.

(** ** Edits and locations in other files *)
Section Targets.
Import lsp Types Javascript ModeSpec ModeBehaviour.

Variable host : Host.

Lemma getSourceDoc_known program fileName :
  known program fileName ->
  getSourceDoc host fileName (Some program) = Ok (sourceDocOf host program fileName).
Proof.
  intros [sf Hsf]. unfold getSourceDoc, sourceDocOf. cbn. by rewrite Hsf.
Qed.

Lemma getSourceDoc_unknown program fileName :
  ts.getSourceFile program fileName = None ->
  getSourceDoc host fileName (Some program) = Throw.
Proof. intros Hsf. unfold getSourceDoc. cbn. by rewrite Hsf. Qed.

Lemma mapM_ok {A B} (f : A -> Res B) (g : A -> B) (l : list A) :
  Forall (fun x => f x = Ok (g x)) l -> mapM f l = Ok (map g l).
Proof.
  induction 1 as [|x l Hx Hl IH]; [done|]. cbn [mapM]. by rewrite Hx, IH.
Qed.

Lemma mapM_throw {A B} (f : A -> Res B) (l : list A) :
  Exists (fun x => f x = Throw) l -> mapM f l = Throw.
Proof.
  induction 1 as [x l Hx|x l Hl IH]; cbn [mapM].
  - by rewrite Hx.
  - rewrite IH. by destruct (f x).
Qed.

Lemma locations_known program (entries : list ts.ReferenceEntry) :
  Forall (fun r => known program (ts.ref_fileName r)) entries ->
  mapM (locationOf host program) entries
  = Ok (map (targetLocation host program) entries).
Proof.
  intros Hknown. apply mapM_ok. eapply Forall_impl; [exact Hknown|].
  intros r Hr. unfold locationOf. by rewrite (getSourceDoc_known _ _ Hr).
Qed.

Lemma locations_unknown program (entries : list ts.ReferenceEntry) :
  Exists (fun r => ts.getSourceFile program (ts.ref_fileName r) = None) entries ->
  mapM (locationOf host program) entries = Throw.
Proof.
  intros Hunknown. apply mapM_throw. eapply Exists_impl; [exact Hunknown|].
  intros r Hr. unfold locationOf. by rewrite (getSourceDoc_unknown _ _ Hr).
Qed.

(** X13: [findDefinition] and [findReferences] answer with one location
    per entry of the language service, in its order, when the program
    knows the file of every entry; when it does not know the file of one
    of them, they throw. *)
Theorem locations_need_known_files doc position scriptDoc service program st :
  updateCurrentVueTextDocument host doc = (scriptDoc, service) ->
  ts.getProgram service = Some program ->
  getFilePath host (uri doc) ∈ ts.getRootFileNames program ->
  (forall definitions,
      ts.getDefinitionAtPosition service (getFileFsPath host (uri doc))
        (offsetAt scriptDoc position) = Some definitions ->
      (Forall (fun r => known program (ts.ref_fileName r)) definitions ->
       fst (findDefinition host doc position st)
       = Ok (map (targetLocation host program) definitions))
      /\ (Exists (fun r => ts.getSourceFile program (ts.ref_fileName r) = None)
                 definitions ->
          fst (findDefinition host doc position st) = Throw))
  /\ (forall references,
        ts.getReferencesAtPosition service (getFileFsPath host (uri doc))
          (offsetAt scriptDoc position) = Some references ->
        (Forall (fun r => known program (ts.ref_fileName r)) references ->
         fst (findReferences host doc position st)
         = Ok (map (targetLocation host program) references))
        /\ (Exists (fun r => ts.getSourceFile program (ts.ref_fileName r) = None)
                   references ->
            fst (findReferences host doc position st) = Throw)).
Proof.
  intros Hupd Hp Hin.
  pose proof (languageServiceIncludesFile_run host service (uri doc) program st Hp)
    as Hrun.
  unfold includes in Hrun. rewrite (bool_decide_eq_true_2 _ Hin) in Hrun.
  unfold findDefinition, findReferences. rewrite Hupd.
  split; intros entries Hentries; rewrite bind_run, Hrun; cbn [negb];
    rewrite bind_run; cbn [query]; rewrite Hentries, bind_run; cbn [query];
    rewrite Hp; unfold lift; cbn [fst]; split; intros Hfiles.
  - by apply locations_known.
  - by apply locations_unknown.
  - by apply locations_known.
  - by apply locations_unknown.
Qed.

Lemma editsFor_absent program u changes :
  u ∉ urisOf host changes -> editsFor host program u changes = [].
Proof.
  induction changes as [|c cs IH]; [done|].
  cbn [urisOf map editsFor flat_map]. intros Hu.
  apply not_elem_of_cons in Hu as [Hne Hu].
  rewrite bool_decide_eq_false_2 by done. by apply IH.
Qed.

(** The loop of [createUriMappingForEdits], from any map collected so
    far. *)
Lemma grouping_loop program changes (collected : gmap string (list TextEdit)) st :
  Forall (fun change => known program (ts.fileName change)) changes ->
  exists m,
    forM (fun change result =>
            targetDoc ← lift (getSourceDoc host (ts.fileName change) (Some program));
            let edits := map (textEditOf targetDoc) (ts.textChanges change) in
            let uri := Uri_file host (ts.fileName change) in
            match result !! uri with
            | Some es => mret (<[uri := (es ++ edits)%list]> result)
            | None => mret (<[uri := edits]> result)
            end)
         changes collected st
    = (Ok m, st)
    /\ forall u,
         m !! u =
           if bool_decide (u ∈ urisOf host changes)
           then Some (default [] (collected !! u) ++ editsFor host program u changes)%list
           else collected !! u.
Proof.
  intros Hknown. revert collected.
  induction Hknown as [|c cs Hc Hcs IH]; intros collected.
  - exists collected. split; [done|]. intros u.
    rewrite bool_decide_eq_false_2; [done|]. apply not_elem_of_nil.
  - cbn [forM]. rewrite bind_run, bind_run. unfold lift at 1.
    rewrite (getSourceDoc_known _ _ Hc). cbn beta iota zeta.
    fold (editsOf host program c).
    set (u0 := Uri_file host (ts.fileName c)).
    set (next := <[u0 := (default [] (collected !! u0) ++ editsOf host program c)%list]>
                   collected).
    assert (match collected !! u0 return M (gmap string (list TextEdit)) with
            | Some es => mret (<[u0 := (es ++ editsOf host program c)%list]> collected)
            | None => mret (<[u0 := editsOf host program c]> collected)
            end st = (Ok next, st)) as ->.
    { unfold next. by destruct (collected !! u0). }
    destruct (IH next) as (m & Hrun & Hm). exists m. split; [exact Hrun|].
    intros u. rewrite Hm. cbn [urisOf map editsFor flat_map]. fold u0.
    fold (urisOf host cs). fold (editsFor host program u cs).
    destruct (decide (u0 = u)) as [<-|Hne].
    + rewrite (bool_decide_eq_true_2 (u0 = u0)) by done.
      rewrite (bool_decide_eq_true_2 (u0 ∈ u0 :: urisOf host cs))
        by apply list_elem_of_here.
      unfold next. rewrite lookup_insert_eq. cbn [default].
      case_bool_decide as Hlater.
      * by rewrite app_assoc.
      * by rewrite (editsFor_absent _ _ _ Hlater), app_nil_r.
    + rewrite (bool_decide_eq_false_2 (u0 = u)) by done.
      unfold next. rewrite lookup_insert_ne by done. cbn [app].
      case_bool_decide as Hlater.
      * rewrite bool_decide_eq_true_2; [done|]. by apply list_elem_of_further.
      * rewrite bool_decide_eq_false_2; [done|].
        intros [?|?]%elem_of_cons; [congruence|done].
Qed.

Lemma forM_throw {A B} (body : A -> B -> M B) (xs : list A) (acc : B) st :
  Exists (fun x => forall b st', fst (body x b st') = Throw) xs ->
  fst (forM body xs acc st) = Throw.
Proof.
  intros Hxs. revert acc st.
  induction Hxs as [x xs Hx|x xs Hxs IH]; intros acc st; cbn [forM];
    rewrite bind_run.
  - specialize (Hx acc st). by destruct (body x acc st) as [[|] ?].
  - destruct (body x acc st) as [[acc'|] st']; [apply IH|done].
Qed.

(** X14: [createUriMappingForEdits] groups the edits by the URI of their
    file: the map has an entry exactly for the URIs of the changed
    files, and each entry holds the edits of all changes to that URI in
    the order of the changes.  It throws when the program does not know
    one of the files. *)
Theorem edits_are_grouped_by_uri service program changes st :
  ts.getProgram service = Some program ->
  (Forall (fun change => known program (ts.fileName change)) changes ->
   exists m,
     createUriMappingForEdits host changes service st
     = (Ok m, logged GetProgram st)
     /\ forall u,
          m !! u =
            if bool_decide (u ∈ urisOf host changes)
            then Some (editsFor host program u changes)
            else None)
  /\ (Exists (fun change => ts.getSourceFile program (ts.fileName change) = None)
             changes ->
      fst (createUriMappingForEdits host changes service st) = Throw).
Proof.
  intros Hp. unfold createUriMappingForEdits. rewrite bind_run. cbn [query].
  rewrite Hp. fold (logged GetProgram st). split.
  - intros Hknown.
    destruct (grouping_loop program changes ∅ (logged GetProgram st) Hknown)
      as (m & Hrun & Hm).
    exists m. split; [exact Hrun|]. intros u. rewrite Hm, lookup_empty. done.
  - intros Hunknown. apply forM_throw.
    eapply Exists_impl; [exact Hunknown|]. intros c Hc b st'.
    rewrite bind_run. unfold lift. by rewrite (getSourceDoc_unknown _ _ Hc).
Qed.

Lemma list_to_map_lookup {V} (f : string -> V) (keys : list string) (u : string) :
  (list_to_map (map (fun k => (k, f k)) keys) : gmap string V) !! u
  = if bool_decide (u ∈ keys) then Some (f u) else None.
Proof.
  induction keys as [|k keys IH]; [done|].
  cbn [map list_to_map foldr]. destruct (decide (k = u)) as [->|Hne].
  - rewrite lookup_insert_eq, bool_decide_eq_true_2; [done|]. apply list_elem_of_here.
  - rewrite lookup_insert_ne by done. rewrite IH. case_bool_decide as Hin.
    + rewrite bool_decide_eq_true_2; [done|]. by apply list_elem_of_further.
    + rewrite bool_decide_eq_false_2; [done|].
      intros [?|?]%elem_of_cons; [congruence|done].
Qed.

Lemma createUriMappingForEdits_grouped service program changes st :
  ts.getProgram service = Some program ->
  Forall (fun change => known program (ts.fileName change)) changes ->
  createUriMappingForEdits host changes service st
  = (Ok (grouped host program changes), logged GetProgram st).
Proof.
  intros Hp Hknown. unfold createUriMappingForEdits. rewrite bind_run. cbn [query].
  rewrite Hp. fold (logged GetProgram st).
  destruct (grouping_loop program changes ∅ (logged GetProgram st) Hknown)
    as (m & Hrun & Hm).
  assert (m = grouped host program changes) as <-; [|exact Hrun].
  apply map_eq. intros u. unfold grouped.
  rewrite Hm, lookup_empty, (list_to_map_lookup (fun u => editsFor host program u changes)).
  done.
Qed.

(** X24: When the language service answers a deferred request with
    changes to files the program knows, [getCodeActionEdits] returns the
    command that applies those changes, grouped by URI, under an empty
    title: for a refactoring, a combined fix and organize imports
    alike. *)
Theorem code_action_edits_apply_the_grouped_changes
    doc scriptDoc service program req st :
  updateCurrentVueTextDocument host doc = (scriptDoc, service) ->
  ts.getProgram service = Some program ->
  (forall refactorName actionName description response,
      arguments req = RefactorAction refactorName actionName description ->
      ts.getEditsForRefactor service (fileName req) (formatSettings req)
        (textRange req) refactorName actionName = Some response ->
      Forall (fun change => known program (ts.fileName change)) (ts.edits response) ->
      fst (getCodeActionEdits host doc req st)
      = Ok (ApplyWorkspaceEdits "" (grouped host program (ts.edits response))))
  /\ (forall fixId combined,
        arguments req = CombinedCodeFix fixId ->
        ts.getCombinedCodeFix service (fileName req) fixId (formatSettings req)
          = Some combined ->
        Forall (fun change => known program (ts.fileName change))
               (ts.combined_changes combined) ->
        fst (getCodeActionEdits host doc req st)
        = Ok (ApplyWorkspaceEdits ""
                (grouped host program (ts.combined_changes combined))))
  /\ (forall changes,
        arguments req = OrganizeImports ->
        ts.organizeImports service (fileName req) (formatSettings req) = Some changes ->
        Forall (fun change => known program (ts.fileName change)) changes ->
        fst (getCodeActionEdits host doc req st)
        = Ok (ApplyWorkspaceEdits "" (grouped host program changes))).
Proof.
  intros Hupd Hp. unfold getCodeActionEdits. rewrite Hupd.
  split; [|split].
  - intros refactorName actionName description response -> Hresponse Hknown.
    rewrite bind_run. cbn [query]. rewrite Hresponse, bind_run.
    by rewrite (createUriMappingForEdits_grouped _ program _ _ Hp Hknown).
  - intros fixId combined -> Hcombined Hknown.
    rewrite bind_run. cbn [query]. rewrite Hcombined, bind_run. unfold lift at 1.
    cbn [deref]. rewrite bind_run.
    by rewrite (createUriMappingForEdits_grouped _ program _ _ Hp Hknown).
  - intros changes -> Hchanges Hknown.
    rewrite bind_run. cbn [query]. rewrite Hchanges, bind_run. unfold lift at 1.
    cbn [deref]. rewrite bind_run.
    by rewrite (createUriMappingForEdits_grouped _ program _ _ Hp Hknown).
Qed.

Lemma fix_all_test (description fixId : option string) :
  truthy description && truthy fixId
  = match description, fixId with
    | Some d, Some i => bool_decide (d <> "" /\ i <> "")
    | _, _ => false
    end.
Proof.
  destruct description as [d|], fixId as [i|]; cbn [truthy andb];
    [|by rewrite ?andb_false_r..].
  destruct (String.eqb_spec d "") as [->|Hd], (String.eqb_spec i "") as [->|Hi];
    cbn [negb andb]; symmetry.
  - apply bool_decide_eq_false_2. by intros [? _].
  - apply bool_decide_eq_false_2. by intros [? _].
  - apply bool_decide_eq_false_2. by intros [_ ?].
  - by apply bool_decide_eq_true_2.
Qed.

Lemma fixActions_test program fileName textRange formatSettings context codeFix :
  fixActions host program fileName textRange formatSettings context codeFix
  = {| title := ts.fix_description codeFix;
       kind := CodeActionKind.QuickFix;
       diagnostics := Some (lsp.diagnostics context);
       command :=
         ApplyWorkspaceEdits (ts.fix_description codeFix)
           (grouped host program (ts.fix_changes codeFix)) |}
    :: (if truthy (ts.fixAllDescription codeFix) && truthy (ts.fixId codeFix)
        then [{| title := default "" (ts.fixAllDescription codeFix);
                 kind := CodeActionKind.QuickFix;
                 diagnostics := Some (lsp.diagnostics context);
                 command :=
                   ChooseTypeScriptCodeAction
                     (default "" (ts.fixAllDescription codeFix))
                     {| fileName := fileName; textRange := textRange;
                        formatSettings := formatSettings;
                        arguments :=
                          CombinedCodeFix (default "" (ts.fixId codeFix)) |} |}]
        else []).
Proof.
  unfold fixActions. rewrite fix_all_test.
  destruct (ts.fixAllDescription codeFix), (ts.fixId codeFix); done.
Qed.

(** The loop of [provideQuickFixCodeActions]. *)
Lemma quick_fix_loop service program fileName textRange formatSettings context
    (fixes : list ts.CodeFixAction) (result : list CodeAction) st :
  ts.getProgram service = Some program ->
  fixesKnown program fixes ->
  fst (forM (fun codeFix result =>
               mapping ← createUriMappingForEdits host (ts.fix_changes codeFix) service;
               let result :=
                 (result ++
                  [{| title := ts.fix_description codeFix;
                      kind := CodeActionKind.QuickFix;
                      diagnostics := Some (lsp.diagnostics context);
                      command :=
                        createApplyCodeActionCommand (ts.fix_description codeFix)
                          mapping |}])%list in
               if truthy (ts.fixAllDescription codeFix) && truthy (ts.fixId codeFix) then
                 mret (result ++
                       [{| title := default "" (ts.fixAllDescription codeFix);
                           kind := CodeActionKind.QuickFix;
                           diagnostics := Some (lsp.diagnostics context);
                           command :=
                             createRequestCodeActionCommand
                               (default "" (ts.fixAllDescription codeFix))
                               {| fileName := fileName;
                                  textRange := textRange;
                                  formatSettings := formatSettings;
                                  arguments :=
                                    CombinedCodeFix (default "" (ts.fixId codeFix)) |} |}])%list
               else mret result)
            fixes result st)
  = Ok (result ++
        flat_map (fixActions host program fileName textRange formatSettings context)
                 fixes)%list.
Proof.
  intros Hp Hknown. revert result st.
  induction Hknown as [|codeFix fixes Hfix Hfixes IH]; intros result st.
  - cbn. by rewrite app_nil_r.
  - cbn [forM flat_map]. rewrite bind_run, bind_run.
    rewrite (createUriMappingForEdits_grouped _ program _ _ Hp Hfix).
    cbn beta iota zeta. rewrite (fixActions_test _ _ _ _ _ codeFix).
    destruct (truthy (ts.fixAllDescription codeFix) && truthy (ts.fixId codeFix));
      unfold mret, M_ret; cbn beta iota; rewrite IH;
      by rewrite <- ?app_assoc.
Qed.

Lemma provideOrganizeImports_appends fileName textRange context formatSettings result :
  provideOrganizeImports fileName textRange context formatSettings result
  = (result ++ provideOrganizeImports fileName textRange context formatSettings [])%list.
Proof.
  unfold provideOrganizeImports. destruct (only context); [|by rewrite app_nil_r].
  destruct (negb _ && negb _); [by rewrite app_nil_r|done].
Qed.

(** The three providers, from the set of supported codes on. *)
Lemma providers_run service program fileName textRange context supported st :
  ts.getProgram service = Some program ->
  fixesKnown program
    (ts.getCodeFixesAtPosition service fileName (ts.pos textRange) (ts.end_ textRange)
       (List.filter (has supported) (map (codeNumber host) (lsp.diagnostics context)))
       (getFormatCodeSettings (config st))) ->
  fst ((cfg ← get_config;
        result ← provideQuickFixCodeActions host fileName textRange context
                   supported (getFormatCodeSettings cfg) service [];
        provideRefactoringCommands fileName textRange context
          (getFormatCodeSettings cfg) service
          (provideOrganizeImports fileName textRange context
             (getFormatCodeSettings cfg) result)) st)
  = Ok (codeActionsOf host program service fileName textRange
          (getFormatCodeSettings (config st)) supported context).
Proof.
  intros Hp Hknown. rewrite bind_run. cbn [get_config]. rewrite bind_run.
  set (settings := getFormatCodeSettings (config st)) in *.
  unfold codeActionsOf. cbn zeta.
  assert (forall quick st',
            fst (provideRefactoringCommands fileName textRange context settings service
                   (provideOrganizeImports fileName textRange context settings quick) st')
            = Ok (quick ++
                  provideOrganizeImports fileName textRange context settings [] ++
                  (if onlyAllows
                        [CodeActionKind.Refactor; CodeActionKind.RefactorExtract;
                         CodeActionKind.RefactorInline; CodeActionKind.RefactorRewrite;
                         CodeActionKind.Source] context
                   then map refactorAction
                            (flat_map (refactorRequests fileName textRange settings)
                               (ts.getApplicableRefactors service fileName textRange))
                   else []))%list) as Hrest.
  { intros quick st'. rewrite provideOrganizeImports_appends.
    unfold provideRefactoringCommands.
    destruct (onlyAllows _ context); cbn [negb].
    - rewrite bind_run. cbn [query]. cbn. by rewrite <- app_assoc.
    - cbn. by rewrite app_nil_r. }
  unfold provideQuickFixCodeActions.
  destruct (onlyAllows [CodeActionKind.QuickFix] context); cbn [negb].
  - rewrite bind_run. cbn [query].
    match goal with
    | |- context [forM ?body ?fixes [] ?s] =>
        pose proof (quick_fix_loop service program fileName textRange settings context
                      fixes [] s Hp Hknown) as Hloop;
        destruct (forM body fixes [] s) as [[quick|] st'] eqn:Hrun;
        cbn [fst] in Hloop; [|done]
    end.
    injection Hloop as ->. cbn [app]. apply Hrest.
  - unfold mret, M_ret. cbn beta iota. apply Hrest.
Qed.

(** X25: [getCodeActions] answers with the quick fixes, then the action
    to organize imports, then the refactorings.  The quick fixes come in
    the order of the language service's fixes, each applying its changes
    grouped by URI and followed by the request to fix all of its sort
    when it names one; this when the program knows the files the fixes
    change. *)
Theorem code_actions_are_fixes_then_imports_then_refactorings
    doc range context scriptDoc service program st :
  updateCurrentVueTextDocument host doc = (scriptDoc, service) ->
  ts.getProgram service = Some program ->
  fixesKnown program
    (ts.getCodeFixesAtPosition service (getFileFsPath host (uri scriptDoc))
       (offsetAt scriptDoc (range_start range)) (offsetAt scriptDoc (range_end range))
       (List.filter
          (has (default (supportedByCompiler host) (supportedCodeFixCodes st)))
          (map (codeNumber host) (lsp.diagnostics context)))
       (getFormatCodeSettings (config st))) ->
  fst (getCodeActions host doc range context st)
  = Ok (codeActionsOf host program service (getFileFsPath host (uri scriptDoc))
          {| ts.pos := offsetAt scriptDoc (range_start range);
             ts.end_ := offsetAt scriptDoc (range_end range) |}
          (getFormatCodeSettings (config st))
          (default (supportedByCompiler host) (supportedCodeFixCodes st))
          context).
Proof.
  intros Hupd Hp Hknown. unfold getCodeActions. rewrite Hupd, bind_run.
  cbn [get_supportedCodeFixCodes].
  destruct (supportedCodeFixCodes st) as [codes|] eqn:Hcodes; rewrite bind_run.
  - unfold mret at 1, M_ret at 1. cbn beta iota.
    by apply (providers_run service program).
  - unfold computeSupportedCodeFixCodes. rewrite bind_run, bind_run.
    cbn [query]. unfold mret at 1, M_ret at 1. cbn beta iota.
    rewrite bind_run. cbn [set_supportedCodeFixCodes]. cbn beta iota.
    unfold mret at 1, M_ret at 1. cbn beta iota.
    match goal with
    | |- fst (_ ?s) = _ =>
        exact (providers_run service program (getFileFsPath host (uri scriptDoc))
                 {| ts.pos := offsetAt scriptDoc (range_start range);
                    ts.end_ := offsetAt scriptDoc (range_end range) |}
                 context (supportedByCompiler host) s Hp Hknown)
    end.
Qed.

End Targets.

(** ** The kinds of code actions *)
Section CodeActionKinds.
Import lsp Types Javascript ModeSpec ModeBehaviour.

Variable host : Host.

Lemma ensures_ret {A} (a : A) (post : A -> Prop) : post a -> ensures (mret a) post.
Proof. intros Ha st b Hb. by injection Hb as <-. Qed.

Lemma ensures_bind {A B} (m : M A) (f : A -> M B) (mid : A -> Prop) (post : B -> Prop) :
  ensures m mid -> (forall a, mid a -> ensures (f a) post) -> ensures (m ≫= f) post.
Proof.
  intros Hm Hf st b. rewrite bind_run.
  destruct (m st) as [[a|] st'] eqn:Hrun; [|done].
  apply (Hf a). apply (Hm st). by rewrite Hrun.
Qed.

Lemma ensures_any {A} (m : M A) : ensures m (fun _ => True).
Proof. done. Qed.

Lemma ensures_forM {A B} (body : A -> B -> M B) (xs : list A) (acc : B)
    (inv : B -> Prop) :
  (forall x b, inv b -> ensures (body x b) inv) ->
  inv acc -> ensures (forM body xs acc) inv.
Proof.
  intros Hbody. revert acc. induction xs as [|x xs IH]; intros acc Hacc.
  - by apply ensures_ret.
  - cbn [forM]. eapply ensures_bind; [by apply Hbody|]. intros b Hb. by apply IH.
Qed.

Lemma onlyAllows_requested allowed context :
  onlyAllows allowed context = true <-> requested allowed context.
Proof.
  unfold onlyAllows, requested. destruct (only context) as [kinds|]; [|done].
  rewrite existsb_exists. split.
  - intros (k & Hk & Hallowed). exists k. split; [by apply list_elem_of_In|].
    by apply bool_decide_eq_true in Hallowed.
  - intros (k & Hk & Hallowed). exists k. split; [by apply list_elem_of_In|].
    by apply bool_decide_eq_true.
Qed.

Lemma provideQuickFixCodeActions_kinds
    fileName textRange context supported formatSettings service result :
  Forall (kindHonoured context) result ->
  ensures (provideQuickFixCodeActions host fileName textRange context supported
             formatSettings service result)
          (Forall (kindHonoured context)).
Proof.
  intros Hresult. unfold provideQuickFixCodeActions.
  destruct (onlyAllows [CodeActionKind.QuickFix] context) eqn:Honly; cbn [negb].
  - apply onlyAllows_requested in Honly.
    eapply ensures_bind; [apply ensures_any|]. intros fixes _.
    apply ensures_forM; [|done]. intros codeFix acc Hacc.
    eapply ensures_bind; [apply ensures_any|]. intros mapping _.
    assert (forall t c,
              kindHonoured context
                {| title := t; kind := CodeActionKind.QuickFix;
                   diagnostics := Some (lsp.diagnostics context); command := c |})
      as Hquick by (intros; by left).
    destruct (truthy _ && truthy _); apply ensures_ret.
    + apply Forall_app. split; [|by apply Forall_singleton].
      apply Forall_app. split; [done|by apply Forall_singleton].
    + apply Forall_app. split; [done|by apply Forall_singleton].
  - by apply ensures_ret.
Qed.

Lemma provideOrganizeImports_kinds
    fileName textRange context formatSettings result :
  Forall (kindHonoured context) result ->
  Forall (kindHonoured context)
         (provideOrganizeImports fileName textRange context formatSettings result).
Proof.
  intros Hresult. unfold provideOrganizeImports.
  destruct (only context) as [kinds|] eqn:Honly; [|done].
  destruct (includes CodeActionKind.SourceOrganizeImports kinds) eqn:Horganize;
    [|destruct (includes CodeActionKind.Source kinds) eqn:Hsource]; cbn [negb andb];
    [| |done].
  - apply Forall_app. split; [done|]. apply Forall_singleton.
    right. left. split; [done|]. exists kinds. split; [done|]. left.
    by apply bool_decide_eq_true in Horganize.
  - apply Forall_app. split; [done|]. apply Forall_singleton.
    right. left. split; [done|]. exists kinds. split; [done|]. right.
    by apply bool_decide_eq_true in Hsource.
Qed.

Lemma provideRefactoringCommands_kinds
    fileName textRange context formatSettings service result :
  Forall (kindHonoured context) result ->
  ensures (provideRefactoringCommands fileName textRange context formatSettings
             service result)
          (Forall (kindHonoured context)).
Proof.
  intros Hresult. unfold provideRefactoringCommands.
  match goal with
  | |- context [onlyAllows ?allowed context] =>
      destruct (onlyAllows allowed context) eqn:Honly
  end; cbn [negb]; [|by apply ensures_ret].
  apply onlyAllows_requested in Honly.
  eapply ensures_bind; [apply ensures_any|]. intros refactorings _.
  apply ensures_ret, Forall_app. split; [done|].
  apply Forall_fmap, Forall_forall. intros action _. right. right. by split.
Qed.

(** X15: [getCodeActions] honours the kinds the context asks for: every
    action it returns is a quick fix, an organize-imports action or a
    refactoring; a quick fix and a refactoring only when the context
    names no kinds or one of theirs, an organize-imports action only
    when the context names its kind or [source]. *)
Theorem code_actions_honour_the_requested_kinds doc range context st result :
  fst (getCodeActions host doc range context st) = Ok result ->
  Forall (kindHonoured context) result.
Proof.
  revert st result. change (ensures (getCodeActions host doc range context)
                              (Forall (kindHonoured context))).
  unfold getCodeActions.
  destruct (updateCurrentVueTextDocument host doc) as [scriptDoc service].
  eapply ensures_bind; [apply ensures_any|]. intros current _.
  eapply ensures_bind; [apply ensures_any|]. intros supported _.
  eapply ensures_bind; [apply ensures_any|]. intros cfg _.
  eapply ensures_bind; [by apply provideQuickFixCodeActions_kinds|].
  intros fixes Hfixes.
  by apply provideRefactoringCommands_kinds, provideOrganizeImports_kinds.
Qed.

(** The run of [getCodeActions] in a configured mode, for kinds that are
    not the quick-fix kind. *)
Lemma getCodeActions_other_kinds doc range context scriptDoc service st :
  updateCurrentVueTextDocument host doc = (scriptDoc, service) ->
  ~ requested [CodeActionKind.QuickFix] context ->
  exists result new,
    fst (getCodeActions host doc range context st) = Ok result
    /\ Forall (deferredFor (getFileFsPath host (uri scriptDoc))
                 {| ts.pos := offsetAt scriptDoc (range_start range);
                    ts.end_ := offsetAt scriptDoc (range_end range) |}
                 (getFormatCodeSettings (config st)))
              result
    /\ calls (snd (getCodeActions host doc range context st))
       = (new ++ calls st)%list
    /\ Forall (fun c => c = GetSupportedCodeFixes
                        \/ c = GetApplicableRefactors
                                 (getFileFsPath host (uri scriptDoc)))
              new.
Proof.
  intros Hupd Hquick.
  assert (onlyAllows [CodeActionKind.QuickFix] context = false) as Honly.
  { apply not_true_is_false. by rewrite onlyAllows_requested. }
  unfold getCodeActions. rewrite Hupd.
  set (file := getFileFsPath host (uri scriptDoc)).
  set (textRange := {| ts.pos := offsetAt scriptDoc (range_start range);
                       ts.end_ := offsetAt scriptDoc (range_end range) |}).
  set (settings := getFormatCodeSettings (config st)).
  assert (forall (supported : gset number) (st' : ModeState) (seen : list Call),
            config st' = config st ->
            calls st' = (seen ++ calls st)%list ->
            Forall (fun c => c = GetSupportedCodeFixes
                             \/ c = GetApplicableRefactors file) seen ->
            exists result new,
              fst ((cfg ← get_config;
                    result ← provideQuickFixCodeActions host file textRange context
                               supported (getFormatCodeSettings cfg) service [];
                    provideRefactoringCommands file textRange context
                      (getFormatCodeSettings cfg) service
                      (provideOrganizeImports file textRange context
                         (getFormatCodeSettings cfg) result)) st') = Ok result
              /\ Forall (deferredFor file textRange settings) result
              /\ calls (snd ((cfg ← get_config;
                    result ← provideQuickFixCodeActions host file textRange context
                               supported (getFormatCodeSettings cfg) service [];
                    provideRefactoringCommands file textRange context
                      (getFormatCodeSettings cfg) service
                      (provideOrganizeImports file textRange context
                         (getFormatCodeSettings cfg) result)) st'))
                 = (new ++ calls st)%list
              /\ Forall (fun c => c = GetSupportedCodeFixes
                                  \/ c = GetApplicableRefactors file) new)
    as Hrest.
  { intros supported st' seen Hcfg Hcalls Hseen.
    rewrite bind_run. cbn [get_config]. rewrite bind_run.
    unfold provideQuickFixCodeActions. rewrite Honly. cbn [negb].
    unfold mret, M_ret. cbn beta iota. rewrite Hcfg. fold settings.
    assert (Forall (deferredFor file textRange settings)
              (provideOrganizeImports file textRange context settings []))
      as Horganize.
    { unfold provideOrganizeImports. destruct (only context) as [kinds|]; [|done].
      destruct (negb _ && negb _); [done|]. apply Forall_singleton.
      split; [done|]. by eexists. }
    unfold provideRefactoringCommands.
    match goal with
    | |- context [onlyAllows ?allowed context] => destruct (onlyAllows allowed context)
    end; cbn [negb].
    - rewrite bind_run. cbn [query].
      eexists _, (GetApplicableRefactors file :: seen). split; [reflexivity|].
      split; [|split].
      + apply Forall_app. split; [done|]. apply Forall_fmap, Forall_forall.
        intros action Haction. split; [done|].
        apply list_elem_of_In, in_flat_map in Haction as (refactoring & _ & Haction).
        unfold refactorRequests in Haction.
        destruct (ts.inlineable refactoring).
        * apply list_elem_of_In, list_elem_of_singleton in Haction as ->. by eexists.
        * apply list_elem_of_In, list_elem_of_fmap in Haction as (? & -> & _).
          by eexists.
      + cbn. by rewrite Hcalls.
      + constructor; [by right|done].
    - eexists _, seen. split; [reflexivity|]. split; [done|]. by split. }
  rewrite bind_run. cbn [get_supportedCodeFixCodes].
  destruct (supportedCodeFixCodes st) as [codes|]; rewrite bind_run.
  - unfold mret at 1 2, M_ret at 1 2. cbn beta iota.
    apply (Hrest codes st []); [done|done|constructor].
  - unfold computeSupportedCodeFixCodes. rewrite bind_run, bind_run.
    cbn [query]. unfold mret at 1 3, M_ret at 1 3. cbn beta iota.
    rewrite bind_run. cbn [set_supportedCodeFixCodes]. cbn beta iota.
    unfold mret at 1 2, M_ret at 1 2. cbn beta iota.
    match goal with
    | |- context [provideQuickFixCodeActions _ _ _ _ ?codes] =>
        apply (Hrest codes (set_supportedCodeFixCodes codes
                              (logged GetSupportedCodeFixes st)).2
                 [GetSupportedCodeFixes]);
          [done|done|constructor; [by left|done]]
    end.
Qed.

(** X16: Asked for kinds that are not the quick-fix kind, [getCodeActions]
    asks for nothing but the supported fix codes and the applicable
    refactorings of the script's file, and every action of a result it
    returns defers its edits: it is no quick fix and carries the request
    for the script's file, the range asked about and the format settings
    of the configuration. *)
Theorem other_kinds_give_deferred_actions doc range context scriptDoc service st :
  updateCurrentVueTextDocument host doc = (scriptDoc, service) ->
  ~ requested [CodeActionKind.QuickFix] context ->
  (forall result,
     fst (getCodeActions host doc range context st) = Ok result ->
     Forall (deferredFor (getFileFsPath host (uri scriptDoc))
               {| ts.pos := offsetAt scriptDoc (range_start range);
                  ts.end_ := offsetAt scriptDoc (range_end range) |}
               (getFormatCodeSettings (config st)))
            result)
  /\ exists new,
       calls (snd (getCodeActions host doc range context st))
       = (new ++ calls st)%list
       /\ Forall (fun c => c = GetSupportedCodeFixes
                           \/ c = GetApplicableRefactors
                                    (getFileFsPath host (uri scriptDoc)))
                 new.
Proof.
  intros Hupd Hquick.
  destruct (getCodeActions_other_kinds doc range context scriptDoc service st
              Hupd Hquick)
    as (result & new & Hrun & Hdeferred & Hcalls & Hnew).
  split.
  - intros result' Hrun'. rewrite Hrun in Hrun'. by injection Hrun' as <-.
  - by exists new.
Qed.

End CodeActionKinds.

(** ** Formatting *)
Section Formatting.
Import lsp Types Javascript ModeSpec ModeBehaviour.

Variable host : Host.

Lemma builtIn_tests formatter :
  builtIn formatter ->
  String.eqb formatter "none" = false
  /\ includes formatter ["prettier"; "prettier-eslint"; "prettier-tslint"] = false.
Proof.
  intros Hbuilt. split.
  - apply String.eqb_neq. intros ->. apply Hbuilt. repeat constructor.
  - apply includes_false. intros Hin. apply Hbuilt. by constructor.
Qed.

(** X17: With the formatter of the language service, [format] returns
    only edits inside the range it was asked to format, provided the
    positions of the script document follow its offsets and the ends of
    the range are positions of the document. *)
Theorem format_edits_stay_within_the_range doc range scriptDoc service st :
  updateCurrentVueTextDocument host doc = (scriptDoc, service) ->
  builtIn (formatterOf (config st) scriptDoc) ->
  monotone scriptDoc ->
  positionAt scriptDoc (offsetAt scriptDoc (range_start range)) = range_start range ->
  positionAt scriptDoc (offsetAt scriptDoc (range_end range)) = range_end range ->
  exists edits,
    fst (format host doc range st) = Ok edits
    /\ Forall (fun edit => within range (edit_range edit)) edits.
Proof.
  intros Hupd Hbuilt Hmono Hstart Hend.
  destruct (builtIn_tests _ Hbuilt) as [Hnone Hprettier].
  unfold formatterOf in Hnone, Hprettier.
  unfold format. rewrite Hupd, bind_run. cbn [get_config].
  rewrite Hnone, Hprettier, bind_run. cbn [set_config].
  rewrite bind_run. cbn [query].
  destruct (ts.getFormattingEditsForRange _ _ _ _ _) as [edits|];
    [|by exists []].
  eexists. split; [reflexivity|].
  apply Forall_fmap, Forall_forall. intros edit Hedit.
  apply list_elem_of_In, filter_In in Hedit as [_ Hinside].
  apply andb_prop in Hinside as [Hfrom Hto].
  apply Z.leb_le in Hfrom, Hto.
  unfold within, convertRange. cbn [edit_range range_start range_end].
  rewrite <- Hstart, <- Hend. split; by apply Hmono.
Qed.

(** X18: [format] writes into the configuration: with the formatter of
    the language service, the format settings of the script's language
    become the converted options.  With any formatter the other options
    stay as they are, and formatting once more leaves the configuration
    as the first run left it. *)
Theorem format_settles_the_configuration doc range scriptDoc service st :
  updateCurrentVueTextDocument host doc = (scriptDoc, service) ->
  sameOptions (config (snd (format host doc range st))) (config st)
  /\ (builtIn (formatterOf (config st) scriptDoc) ->
      languageFormat (config (snd (format host doc range st))) scriptDoc
      = convertedFormat (config st) scriptDoc)
  /\ config (snd (format host doc range (snd (format host doc range st))))
     = config (snd (format host doc range st)).
Proof.
  intros Hupd.
  assert (forall s, format host doc range s
                    = (let cfg := config s in
                       let formatter := formatterOf cfg scriptDoc in
                       if String.eqb formatter "none" then (Ok [], s)
                       else if includes formatter
                                 ["prettier"; "prettier-eslint"; "prettier-tslint"]
                       then (fst (format host doc range s), s)
                       else (fst (format host doc range s),
                             logged
                               (GetFormattingEditsForRange
                                  (getFileFsPath host (uri doc))
                                  (offsetAt scriptDoc (range_start range))
                                  (offsetAt scriptDoc (range_end range)))
                               {| config :=
                                    set_format
                                      (String.eqb (languageId scriptDoc) "javascript")
                                      (convertedFormat cfg scriptDoc) cfg;
                                  supportedCodeFixCodes := supportedCodeFixCodes s;
                                  calls := calls s |}))) as Hrun.
  { intros s. unfold format. rewrite Hupd, bind_run. cbn [get_config].
    cbn zeta. unfold formatterOf, convertedFormat, languageFormat.
    destruct (String.eqb _ "none"); [done|].
    destruct (includes _ _); [done|].
    rewrite bind_run. cbn [set_config]. rewrite bind_run. cbn [query].
    by destruct (ts.getFormattingEditsForRange _ _ _ _ _). }
  unfold builtIn.
  rewrite (Hrun (snd (format host doc range st))), (Hrun st). cbn zeta.
  unfold formatterOf, convertedFormat, languageFormat.
  destruct (String.eqb (languageId scriptDoc) "javascript") eqn:Hjs.
  - destruct (String.eqb (defaultFormatter_js (config st)) "none") eqn:Hnone.
    + cbn [snd]. rewrite Hnone. repeat split.
      intros Hbuilt. apply String.eqb_eq in Hnone. exfalso. apply Hbuilt.
      rewrite Hnone. repeat constructor.
    + destruct (includes (defaultFormatter_js (config st)) _) eqn:Hprettier.
      * cbn [snd]. rewrite Hnone, Hprettier. repeat split.
        intros Hbuilt. apply bool_decide_eq_true in Hprettier. exfalso.
        apply Hbuilt. by constructor.
      * cbn [snd logged config set_format defaultFormatter_js].
        rewrite Hnone, Hprettier. cbn. repeat split.
  - destruct (String.eqb (defaultFormatter_ts (config st)) "none") eqn:Hnone.
    + cbn [snd]. rewrite Hnone. repeat split.
      intros Hbuilt. apply String.eqb_eq in Hnone. exfalso. apply Hbuilt.
      rewrite Hnone. repeat constructor.
    + destruct (includes (defaultFormatter_ts (config st)) _) eqn:Hprettier.
      * cbn [snd]. rewrite Hnone, Hprettier. repeat split.
        intros Hbuilt. apply bool_decide_eq_true in Hprettier. exfalso.
        apply Hbuilt. by constructor.
      * cbn [snd logged config set_format defaultFormatter_ts].
        rewrite Hnone, Hprettier. cbn. repeat split.
Qed.

Lemma convertCodeAction_maps doc codeActions region :
  firstScriptRegion host doc = Some region ->
  convertCodeAction host doc codeActions
  = Ok (map (fun tc =>
               if (ts.start (ts.span tc) <=? offsetAt doc (range_start region))
                  && (ts.length (ts.span tc) =? 0)
               then {| edit_range :=
                         Range_create4 (line (range_start region) + 1) 0
                                       (line (range_start region) + 1) 0;
                       newText := ts.newText tc |}
               else {| edit_range := convertRange doc (ts.span tc);
                       newText := ts.newText tc |})
            (textChangesOf codeActions)).
Proof.
  intros Hregion. unfold convertCodeAction, textChangesOf. rewrite Hregion.
  cbn [deref]. cbn. f_equal.
  induction codeActions as [|action actions IH]; [done|].
  cbn [flat_map]. rewrite map_app, IH. f_equal.
  induction (ts.action_changes action) as [|change changes IHc]; [done|].
  cbn [flat_map]. by rewrite map_app, IHc.
Qed.

(** X27: [convertCodeAction] turns every text change into one edit with
    the same text, in order, and places no insertion before the script:
    an insertion at or before the start of the script region goes to the
    start of the line after the region's first line.  Without a script
    region it throws, even when there is nothing to convert.  The
    positions of the document are taken to follow its offsets. *)
Theorem insertions_land_inside_the_script doc codeActions :
  (firstScriptRegion host doc = None ->
   convertCodeAction host doc codeActions = Throw)
  /\ (forall region,
        firstScriptRegion host doc = Some region ->
        monotone doc ->
        positionAt doc (offsetAt doc (range_start region)) = range_start region ->
        exists edits,
          convertCodeAction host doc codeActions = Ok edits
          /\ Forall2 (placedIn region) (textChangesOf codeActions) edits).
Proof.
  split.
  - intros Hnone. unfold convertCodeAction. by rewrite Hnone.
  - intros region Hregion Hmono Hstart.
    eexists. split; [by apply convertCodeAction_maps|].
    apply Forall2_fmap_r, Forall_Forall2_diag, Forall_forall.
    intros tc _. unfold placedIn, compose. cbn beta.
    destruct (ts.start (ts.span tc) <=? offsetAt doc (range_start region)) eqn:Hle;
      [destruct (ts.length (ts.span tc) =? 0) eqn:Hzero|]; cbn [andb].
    + split; [done|]. intros _. left. cbn. lia.
    + split; [done|]. intros Hlength. apply Z.eqb_neq in Hzero. done.
    + split; [done|]. intros _. apply Z.leb_gt in Hle.
      cbn [edit_range convertRange range_start]. rewrite <- Hstart.
      apply Hmono. lia.
Qed.

End Formatting.

(** ** Outline items without a span *)
Section OutlineEdges.
Import lsp Types Javascript ModeSpec ModeBehaviour.

Variable host : Host.

Lemma forRes_throw {A B} (body : A -> B -> Res B) (xs : list A) (acc : B) :
  Exists (fun x => forall b, body x b = Throw) xs -> forRes body xs acc = Throw.
Proof.
  intros Hxs. revert acc.
  induction Hxs as [x xs Hx|x xs Hxs IH]; intros acc; cbn [forRes].
  - by rewrite Hx.
  - destruct (body x acc); [apply IH|done].
Qed.

Lemma some_item_without_span (P : ts.NavigationBarItem -> Prop) items :
  Forall (fun item => hasSpans item = false -> P item) items ->
  forallb hasSpans items = false ->
  Exists P items.
Proof.
  induction 1 as [|item items Hitem Hitems IH]; [done|].
  cbn [forallb]. destruct (hasSpans item) eqn:Hspans; cbn [andb].
  - intros Hrest. apply Exists_cons_tl. by apply IH.
  - intros _. apply Exists_cons_hd. by apply Hitem.
Qed.

Lemma collectSymbols_without_span doc scriptDoc item :
  hasSpans item = false ->
  forall label acc, collectSymbols host doc scriptDoc item label acc = Throw.
Proof.
  induction item as [text kind spans childItems IH]
    using ts.NavigationBarItem_nested_ind.
  intros Hspans label [result existing].
  destruct spans as [|span0 spans]; [done|].
  cbn [hasSpans] in Hspans. cbn [collectSymbols].
  change (deref ((span0 :: spans) !! 0%nat)) with (Ok span0).
  cbn beta iota. apply forRes_throw.
  eapply Exists_impl; [exact (some_item_without_span _ _ IH Hspans)|].
  intros child Hchild acc. apply Hchild.
Qed.

(** X19: An outline with an item that has no span makes
    [findDocumentSymbols] throw, wherever the item is and whatever its
    kind. *)
Theorem outline_item_without_span_throws doc scriptDoc service program items st :
  updateCurrentVueTextDocument host doc = (scriptDoc, service) ->
  ts.getProgram service = Some program ->
  getFilePath host (uri doc) ∈ ts.getRootFileNames program ->
  ts.getNavigationBarItems service (getFileFsPath host (uri doc)) = Some items ->
  forallb hasSpans items = false ->
  fst (findDocumentSymbols host doc st) = Throw.
Proof.
  intros Hupd Hp Hroot Hitems Hspans.
  unfold findDocumentSymbols. rewrite Hupd, bind_run.
  rewrite (languageServiceIncludesFile_run host _ _ _ _ Hp).
  assert (includes (getFilePath host (uri doc)) (ts.getRootFileNames program) = true)
    as -> by (by apply bool_decide_eq_true).
  cbn [negb]. rewrite bind_run. cbn [query]. rewrite Hitems, bind_run.
  unfold lift, collectAll. rewrite forRes_throw; [done|].
  apply (some_item_without_span
           (fun item => forall b, collectSymbols host doc scriptDoc item None b = Throw));
    [|done].
  apply Forall_forall. intros item _ Hitem acc.
  by apply collectSymbols_without_span.
Qed.

End OutlineEdges.

(** ** The configuration in force *)
Section Configuration.
Import lsp Types Javascript ModeSpec ModeBehaviour.

Variable host : Host.

Lemma keeps_ret {A} (a : A) : keepsConfig (mret a).
Proof. done. Qed.

Lemma keeps_bind {A B} (m : M A) (f : A -> M B) :
  keepsConfig m -> (forall a, keepsConfig (f a)) -> keepsConfig (m ≫= f).
Proof.
  intros Hm Hf st. rewrite bind_run. specialize (Hm st).
  destruct (m st) as [[a|] st']; [|done]. cbn [snd] in Hm. by rewrite Hf.
Qed.

Lemma keeps_query {A} (c : Call) (r : A) : keepsConfig (query c r).
Proof. done. Qed.

Lemma keeps_lift {A} (r : Res A) : keepsConfig (lift r).
Proof. done. Qed.

Lemma keeps_get_config : keepsConfig get_config.
Proof. done. Qed.

Lemma keeps_get_codes : keepsConfig get_supportedCodeFixCodes.
Proof. done. Qed.

Lemma keeps_set_codes codes : keepsConfig (set_supportedCodeFixCodes codes).
Proof. done. Qed.

Lemma keeps_forM {A B} (body : A -> B -> M B) (xs : list A) (acc : B) :
  (forall x b, keepsConfig (body x b)) -> keepsConfig (forM body xs acc).
Proof.
  intros Hbody. revert acc. induction xs as [|x xs IH]; intros acc; cbn [forM].
  - apply keeps_ret.
  - apply keeps_bind; [apply Hbody|apply IH].
Qed.

Ltac keeps_step :=
  match goal with
  | |- keepsConfig (mret _) => apply keeps_ret
  | |- keepsConfig (lift _) => apply keeps_lift
  | |- keepsConfig get_config => apply keeps_get_config
  | |- keepsConfig get_supportedCodeFixCodes => apply keeps_get_codes
  | |- keepsConfig (set_supportedCodeFixCodes _) => apply keeps_set_codes
  | |- keepsConfig (query _ _) => apply keeps_query
  | |- keepsConfig (forM _ _ _) => apply keeps_forM; intros
  | |- keepsConfig (_ ≫= _) => apply keeps_bind; [|intros]
  | |- keepsConfig (let '(_, _) := ?p in _) => destruct p
  | |- keepsConfig (if ?b then _ else _) => destruct b
  | |- keepsConfig (match ?x with _ => _ end) => destruct x
  end.

Lemma languageServiceIncludesFile_keeps ls documentUri :
  keepsConfig (languageServiceIncludesFile host ls documentUri).
Proof. unfold languageServiceIncludesFile. repeat keeps_step. Qed.

Lemma createUriMappingForEdits_keeps changes service :
  keepsConfig (createUriMappingForEdits host changes service).
Proof. unfold createUriMappingForEdits. repeat keeps_step. Qed.

Lemma quiet_request_keeps (r : Request) :
  quiet r = true -> keepsConfig (perform host r).
Proof.
  pose proof languageServiceIncludesFile_keeps as Hguard.
  pose proof createUriMappingForEdits_keeps as Hedits.
  destruct r; intros Hquiet; try discriminate; cbn [perform]; unfold discard;
    (apply keeps_bind; [|intros; apply keeps_ret]).
  - unfold doValidation. repeat first [apply Hguard | keeps_step].
  - unfold doComplete. repeat first [apply Hguard | keeps_step].
  - unfold doResolve. repeat first [apply Hguard | keeps_step].
  - unfold doHover. repeat first [apply Hguard | keeps_step].
  - unfold doSignatureHelp. repeat first [apply Hguard | keeps_step].
  - unfold findDocumentHighlight. repeat first [apply Hguard | keeps_step].
  - unfold findDocumentSymbols. repeat first [apply Hguard | keeps_step].
  - unfold findDefinition. repeat first [apply Hguard | keeps_step].
  - unfold findReferences. repeat first [apply Hguard | keeps_step].
  - unfold getCodeActions, computeSupportedCodeFixCodes, provideQuickFixCodeActions,
      provideRefactoringCommands.
    repeat first [apply Hedits | keeps_step].
  - unfold getCodeActionEdits. repeat first [apply Hedits | keeps_step].
Qed.

Lemma quiet_requests_keep requests st :
  Forall (fun r => quiet r = true) requests ->
  config (serve host requests st) = config st.
Proof.
  intros Hquiet. revert st.
  induction Hquiet as [|r requests Hr Hrs IH]; intros st; [done|].
  unfold serve in *. cbn [fold_left]. rewrite IH. by apply quiet_request_keeps.
Qed.

(** X20: The configuration in force is the one of the last [configure]
    request, whatever was asked before it and whether or not the requests
    since have thrown, as long as none of them was a [format] request. *)
Theorem last_configuration_stays_in_force earlier c later st :
  Forall (fun r => quiet r = true) later ->
  config (serve host (earlier ++ Configure c :: later) st) = c.
Proof.
  intros Hquiet. unfold serve. rewrite fold_left_app. cbn [fold_left].
  fold (serve host earlier st).
  match goal with
  | |- config (fold_left _ later ?s) = c =>
      change (config (serve host later s) = c)
  end.
  by rewrite quiet_requests_keep.
Qed.

End Configuration.

(** ** The further properties at work *)
Section ComponentExamples.
Import ts VueInfo ComponentInfo Behaviour Samples MoreSamples.

Lemma child_components_follow_the_finder_witness :
  exists info' stored,
    attachChildComponents tsModule twoChildren checker "kebab" optionsLiteral emptyInfo
    = Ok info'
    /\ childComponents info' = Some stored
    /\ map childName stored = ["child-a"; "child-b"]
    /\ props info' = None.
Proof.
  destruct (child_components_follow_the_finder tsModule twoChildren checker "kebab"
              optionsLiteral emptyInfo children eq_refl)
    as (info' & stored & Hrun & Hstored & Hrel & Hprops & _).
  - constructor; [|constructor; [|constructor]]; intros n Hn;
      [by injection Hn as <- | discriminate].
  - exists info', stored. split; [done|]. split; [done|]. split; [|done].
    apply Forall2_cons_inv_l in Hrel as (a & rest & (Ha & _) & Hrel & ->).
    apply Forall2_cons_inv_l in Hrel as (b & rest' & (Hb & _) & Hrel & ->).
    apply Forall2_nil_inv_l in Hrel as ->. cbn [map]. by rewrite Ha, Hb.
Defined.

Lemma object_rules_need_their_shape_witness :
  getProps tsModule checker looseType = Ok None
  /\ getData tsModule checker looseType = Ok None
  /\ getComputed tsModule checker looseType = Ok None.
Proof.
  destruct (object_rules_need_their_shape tsModule checker looseType eq_refl)
    as (Hprops & Hdata & Hcomputed & _).
  split; [|split].
  - by eapply (Hprops looseProps).
  - by eapply (Hdata looseData).
  - by eapply (Hcomputed looseComputed).
Defined.

End ComponentExamples.

Section ModeExamples.
Import lsp Types Javascript ModeSpec ModeBehaviour ModeSamples MoreModeSamples.

Lemma guarded_operations_need_a_program_witness :
  doValidation (hostOf idleService) appDoc (initialState cfg)
    = (Throw, logged GetProgram (initialState cfg))
  /\ findDocumentSymbols (hostOf idleService) appDoc (initialState cfg)
    = (Throw, logged GetProgram (initialState cfg)).
Proof.
  destruct (guarded_operations_need_a_program (hostOf idleService) appDoc
              appScriptDoc idleService (initialState cfg) eq_refl eq_refl)
    as (Hvalidation & _ & _ & _ & _ & _ & Hsymbols & _).
  by split.
Defined.

Lemma completion_items_carry_resolution_data_witness :
  exists l,
    fst (doComplete (hostOf completingService) appDoc (at_ 5) (initialState cfg)) = Ok l
    /\ map label (items l) = ["total"; "./Child"]
    /\ Forall (fun item => exists source,
                 data item
                 = Some {| data_languageId := "javascript";
                           data_uri := Samples.appPath;
                           data_offset := 5;
                           data_source := source |})
              (items l).
Proof.
  destruct (completion_items_carry_resolution_data (hostOf completingService) appDoc
              (at_ 5) appScriptDoc completingService Samples.program (initialState cfg)
              eq_refl eq_refl)
    as (l & Hrun & _ & _ & Hitems).
  exists l. split; [done|]. split.
  - vm_compute in Hrun. by injection Hrun as <-.
  - apply Forall_forall. intros item Hitem. by apply Hitems.
Defined.

Lemma resolved_item_is_resolved_once_witness :
  exists resolved,
    fst (doResolve (hostOf completingService) appDoc totalItem (initialState cfg))
    = Ok resolved
    /\ detail resolved = Some "const total: number"
    /\ data resolved = None
    /\ fst (doResolve (hostOf completingService) appDoc resolved (initialState cfg))
       = Throw.
Proof.
  destruct (resolved_item_is_resolved_once (hostOf completingService) appDoc
              appScriptDoc completingService Samples.program totalItem
              {| data_languageId := "javascript"; data_uri := Samples.appPath;
                 data_offset := 5; data_source := None |}
              {| ts.details_displayParts :=
                   [{| ts.part_text := "const total: number"; ts.part_kind := "text" |}];
                 ts.details_documentation := [];
                 ts.codeActions := None |}
              wholeLine (initialState cfg))
    as (resolved & Hrun & _ & Hdetail & Hdata & Hagain);
    first [reflexivity | done | repeat constructor | idtac].
  exists resolved. by repeat split.
Defined.

Lemma vue_path_label_and_ending_give_the_path_witness :
  (calculateLabelAndDetailTextForPathImport childPath).1 = "./Child"
  /\ (calculateLabelAndDetailTextForPathImport childPath).1 +:+ ".vue" = "./Child.vue"
  /\ (calculateLabelAndDetailTextForPathImport childPath).2 = Some "./Child.vue".
Proof.
  split; [reflexivity|].
  apply (vue_path_label_and_ending_give_the_path childPath); reflexivity.
Defined.

Lemma locations_need_known_files_witness :
  (exists first second,
     fst (findDefinition (hostOf definingService) appDoc (at_ 6) (initialState cfg))
     = Ok [first; second]
     /\ loc_uri first = "file:///app/App.vue")
  /\ fst (findDefinition (hostOf strayService) appDoc (at_ 6) (initialState cfg))
     = Throw.
Proof.
  split.
  - destruct (locations_need_known_files (hostOf definingService) appDoc (at_ 6)
                appScriptDoc definingService Samples.program (initialState cfg)
                eq_refl eq_refl)
      as [Hdefinitions _]; [repeat constructor|].
    destruct (Hdefinitions [inApp; inApp] eq_refl) as [Hknown _].
    eexists _, _. split; [apply Hknown; repeat constructor; by eexists|].
    reflexivity.
  - destruct (locations_need_known_files (hostOf strayService) appDoc (at_ 6)
                appScriptDoc strayService Samples.program (initialState cfg)
                eq_refl eq_refl)
      as [Hdefinitions _]; [repeat constructor|].
    destruct (Hdefinitions [inApp; inMissing] eq_refl) as [_ Hunknown].
    apply Hunknown. apply Exists_cons_tl, Exists_cons_hd. reflexivity.
Defined.

Lemma edits_are_grouped_by_uri_witness :
  exists m first second other,
    createUriMappingForEdits host threeChanges Samples.service (initialState cfg)
    = (Ok m, logged GetProgram (initialState cfg))
    /\ m !! "file:///app/App.vue" = Some [first; second]
    /\ newText first = "a" /\ newText second = "c"
    /\ m !! "file:///app/Helper.vue" = Some [other]
    /\ m !! "file:///app/Other.vue" = None.
Proof.
  destruct (edits_are_grouped_by_uri host Samples.service Samples.program threeChanges
              (initialState cfg) eq_refl)
    as [Hknown _].
  destruct Hknown as (m & Hrun & Hm); [repeat constructor; by eexists|].
  exists m. eexists _, _, _. split; [done|].
  rewrite !Hm. by repeat split.
Defined.

Lemma code_actions_honour_the_requested_kinds_witness :
  exists fixOne fixAll,
    fst (getCodeActions (hostOf fixingService) appDoc wholeLine anyKind
           (initialState cfg))
    = Ok [fixOne; fixAll]
    /\ Forall (kindHonoured anyKind) [fixOne; fixAll].
Proof.
  eexists _, _. split; [vm_compute; reflexivity|].
  apply (code_actions_honour_the_requested_kinds (hostOf fixingService) appDoc
           wholeLine anyKind (initialState cfg)).
  vm_compute. reflexivity.
Defined.

Lemma other_kinds_give_deferred_actions_witness :
  (forall result,
     fst (getCodeActions (hostOf suggestingService) appDoc wholeLine refactorOnly
            (initialState cfg))
     = Ok result ->
     Forall (deferredFor Samples.appPath {| ts.pos := 0; ts.end_ := 40 |}
               (getFormatCodeSettings cfg))
            result)
  /\ exists new,
       calls (snd (getCodeActions (hostOf suggestingService) appDoc wholeLine
                     refactorOnly (initialState cfg)))
       = (new ++ [])%list
       /\ Forall (fun c => c = GetSupportedCodeFixes
                           \/ c = GetApplicableRefactors Samples.appPath)
                 new.
Proof.
  apply (other_kinds_give_deferred_actions (hostOf suggestingService) appDoc wholeLine
           refactorOnly appScriptDoc suggestingService (initialState cfg) eq_refl).
  intros (k & Hk & Hquick).
  apply list_elem_of_singleton in Hk, Hquick.
  unfold CodeActionKind.Refactor, CodeActionKind.QuickFix in *. congruence.
Defined.

Lemma textDocument_monotone u lang txt : monotone (textDocument u lang txt).
Proof. intros a b Hab. right. by split. Qed.

Lemma format_edits_stay_within_the_range_witness :
  exists first second,
    fst (format (hostOf formattingService) appDoc wholeLine (initialState nativeCfg))
    = Ok [first; second]
    /\ Forall (fun edit => within wholeLine (edit_range edit)) [first; second].
Proof.
  destruct (format_edits_stay_within_the_range (hostOf formattingService) appDoc
              wholeLine appScriptDoc formattingService (initialState nativeCfg)
              eq_refl)
    as (edits & Hrun & Hwithin);
    [by apply (bool_decide_unpack _) | apply textDocument_monotone
     | reflexivity | reflexivity |].
  vm_compute in Hrun. injection Hrun as <-.
  eexists _, _. split; [vm_compute; reflexivity|]. exact Hwithin.
Defined.

Lemma format_settles_the_configuration_witness :
  javascript_format
    (config (snd (format (hostOf formattingService) appDoc wholeLine
                    (initialState nativeCfg))))
  = {| ts.tabSize := Some 4; ts.indentSize := Some 4; ts.baseIndentSize := Some 4;
       ts.convertTabsToSpaces := Some true;
       ts.insertSpaceAfterCommaDelimiter := None |}
  /\ config (snd (format (hostOf formattingService) appDoc wholeLine
                    (snd (format (hostOf formattingService) appDoc wholeLine
                            (initialState nativeCfg)))))
     = config (snd (format (hostOf formattingService) appDoc wholeLine
                      (initialState nativeCfg))).
Proof.
  destruct (format_settles_the_configuration (hostOf formattingService) appDoc
              wholeLine appScriptDoc formattingService (initialState nativeCfg)
              eq_refl)
    as (_ & Hconverted & Hagain).
  split; [|exact Hagain].
  apply Hconverted. by apply (bool_decide_unpack _).
Defined.

Lemma outline_item_without_span_throws_witness :
  fst (findDocumentSymbols (hostOf spanlessService) appDoc (initialState cfg)) = Throw.
Proof.
  apply (outline_item_without_span_throws (hostOf spanlessService) appDoc appScriptDoc
           spanlessService Samples.program spanlessOutline (initialState cfg));
    first [reflexivity | repeat constructor].
Defined.

Lemma last_configuration_stays_in_force_witness :
  config (serve (hostOf idleService)
            ([Format appDoc wholeLine]
             ++ Configure nativeCfg
                :: [DoValidation appDoc; GetCodeActions appDoc wholeLine anyKind;
                    DoHover appDoc (at_ 3)])
            (initialState cfg))
  = nativeCfg.
Proof.
  apply (last_configuration_stays_in_force (hostOf idleService)
           [Format appDoc wholeLine] nativeCfg
           [DoValidation appDoc; GetCodeActions appDoc wholeLine anyKind;
            DoHover appDoc (at_ 3)]
           (initialState cfg)).
  repeat constructor.
Defined.

Lemma absent_answers_give_neutral_results_witness :
  fst (doHover host appDoc (at_ 3) (initialState cfg))
    = Ok {| hover_range := None; contents := [] |}
  /\ fst (findReferences host appDoc (at_ 3) (initialState cfg)) = Ok [].
Proof.
  destruct (absent_answers_give_neutral_results host appDoc appScriptDoc
              Samples.service Samples.program (initialState cfg) eq_refl eq_refl)
    as (_ & _ & Hhover & _ & _ & _ & _ & Hreferences); [repeat constructor|].
  split; [by apply Hhover | by apply Hreferences].
Defined.

Lemma code_action_edits_apply_the_grouped_changes_witness :
  fst (getCodeActionEdits (hostOf refactoringService) appDoc
         (request (RefactorAction "extract" "constant" "Extract constant"))
         (initialState cfg))
  = Ok (ApplyWorkspaceEdits ""
          (grouped (hostOf refactoringService) Samples.program [renameEdit]))
  /\ fst (getCodeActionEdits (hostOf refactoringService) appDoc
            (request OrganizeImports) (initialState cfg))
     = Ok (ApplyWorkspaceEdits "" (grouped (hostOf refactoringService) Samples.program [])).
Proof.
  split.
  - destruct (code_action_edits_apply_the_grouped_changes (hostOf refactoringService)
                appDoc appScriptDoc refactoringService Samples.program
                (request (RefactorAction "extract" "constant" "Extract constant"))
                (initialState cfg) eq_refl eq_refl)
      as (Hrefactor & _ & _).
    apply (Hrefactor "extract" "constant" "Extract constant"
             {| ts.edits := [renameEdit] |} eq_refl eq_refl).
    repeat constructor. by eexists.
  - destruct (code_action_edits_apply_the_grouped_changes (hostOf refactoringService)
                appDoc appScriptDoc refactoringService Samples.program
                (request OrganizeImports) (initialState cfg) eq_refl eq_refl)
      as (_ & _ & Horganize).
    apply (Horganize [] eq_refl eq_refl). constructor.
Defined.

Lemma code_actions_are_fixes_then_imports_then_refactorings_witness :
  exists mapping settings,
    fst (getCodeActions (hostOf fixingService) appDoc wholeLine anyKind
           (initialState cfg))
    = Ok [{| title := "Import 'x' from module './x'";
             kind := "quickfix";
             diagnostics := Some [cannotFindName];
             command := ApplyWorkspaceEdits "Import 'x' from module './x'" mapping |};
          {| title := "Add all missing imports";
             kind := "quickfix";
             diagnostics := Some [cannotFindName];
             command :=
               ChooseTypeScriptCodeAction "Add all missing imports"
                 {| fileName := Samples.appPath;
                    textRange := {| ts.pos := 0; ts.end_ := 40 |};
                    formatSettings := settings;
                    arguments := CombinedCodeFix "fixMissingImport" |} |}].
Proof.
  eexists _, _.
  rewrite (code_actions_are_fixes_then_imports_then_refactorings
             (hostOf fixingService) appDoc wholeLine anyKind appScriptDoc
             fixingService Samples.program (initialState cfg) eq_refl eq_refl).
  - reflexivity.
  - repeat constructor. by eexists.
Defined.

Lemma insertions_land_inside_the_script_witness :
  exists inserted replaced,
    convertCodeAction host appDoc [importAction] = Ok [inserted; replaced]
    /\ edit_range inserted = Range_create4 1 0 1 0
    /\ Forall2 (placedIn wholeLine) (textChangesOf [importAction]) [inserted; replaced].
Proof.
  destruct (insertions_land_inside_the_script host appDoc [importAction])
    as [_ Hplaced].
  destruct (Hplaced wholeLine eq_refl (textDocument_monotone _ _ _) eq_refl)
    as (edits & Hrun & Hedits).
  vm_compute in Hrun. injection Hrun as <-.
  eexists _, _. split; [vm_compute; reflexivity|]. split; [reflexivity|exact Hedits].
Defined.

End ModeExamples.
